(** * The fuel cell engineering DCL parser (mi/dataset/parser/fuelcell_eng_dcl.py)

    A shallow embedding of [FuelCellEngDclParser] and the properties its
    line-by-line scan has.  Python [str] values (byte strings) are [string];
    Python integers are [Z] (line numbers, which only count up from zero, are
    [nat]); Python floats are IEEE binary64 values of [spec_float]; the
    parser object is a record of the record buffer and of what the exception
    callback has received; an uncaught Python exception is the left summand
    of a result that still carries the parser object as it was left. *)

From Stdlib Require Import ZArith List String Ascii Bool Arith Lia.
From Stdlib Require Import Sorting.Sorted Sorting.Permutation.
From Stdlib Require Import Floats.SpecFloat.
Import ListNotations.

Local Open Scope string_scope.

(** ** Python string primitives *)

Module PyStr.

Definition ord (c : ascii) : Z := Z.of_nat (nat_of_ascii c).

Definition char_between (lo hi c : ascii) : bool :=
  (nat_of_ascii lo <=? nat_of_ascii c)%nat && (nat_of_ascii c <=? nat_of_ascii hi)%nat.

Definition is_digit (c : ascii) : bool := char_between "0" "9" c.

Definition is_hexdigit (c : ascii) : bool :=
  char_between "0" "9" c || char_between "A" "F" c || char_between "a" "f" c.

Definition newline : ascii := "010"%char.

(** The characters [str.strip()] and [int()] treat as white space. *)
Definition is_space (c : ascii) : bool :=
  let n := nat_of_ascii c in
  (n =? 32)%nat || ((9 <=? n)%nat && (n <=? 13)%nat).

Fixpoint all_chars (p : ascii -> bool) (s : string) : bool :=
  match s with
  | EmptyString => true
  | String c s' => p c && all_chars p s'
  end.

(** [str.isdigit(s)]: at least one character and all of them digits. *)
Definition isdigit (s : string) : bool :=
  match s with
  | EmptyString => false
  | String _ _ => all_chars is_digit s
  end.

(** [s.startswith(p)]. *)
Fixpoint startswith (p s : string) : bool :=
  match p, s with
  | EmptyString, _ => true
  | String a p', String b s' => Ascii.eqb a b && startswith p' s'
  | String _ _, EmptyString => false
  end.

(** [s[n:]]. *)
Fixpoint slice_from (n : nat) (s : string) : string :=
  match n, s with
  | O, _ => s
  | S n', String _ s' => slice_from n' s'
  | S _, EmptyString => EmptyString
  end.

(** [s[:n]]. *)
Fixpoint slice_to (n : nat) (s : string) : string :=
  match n, s with
  | O, _ => EmptyString
  | S n', String c s' => String c (slice_to n' s')
  | S _, EmptyString => EmptyString
  end.

(** [s[i:j]]. *)
Definition slice (i j : nat) (s : string) : string :=
  slice_to (j - i) (slice_from i s).

(** [s.split(sep)] for a one-character separator: every occurrence of
    the separator cuts, so adjacent separators give empty pieces and the
    result is never the empty list. *)
Fixpoint split (sep : ascii) (s : string) : list string :=
  match s with
  | EmptyString => [EmptyString]
  | String c s' =>
      if Ascii.eqb c sep then EmptyString :: split sep s'
      else match split sep s' with
           | piece :: pieces => String c piece :: pieces
           | [] => [String c EmptyString]
           end
  end.

Fixpoint lstrip (s : string) : string :=
  match s with
  | String c s' => if is_space c then lstrip s' else s
  | EmptyString => EmptyString
  end.

(** Drops trailing white space: a character is kept when something that
    is not white space follows it or it is not white space itself. *)
Fixpoint rstrip (s : string) : string :=
  match s with
  | EmptyString => EmptyString
  | String c s' =>
      match rstrip s' with
      | EmptyString => if is_space c then EmptyString else String c EmptyString
      | r => String c r
      end
  end.

Definition strip (s : string) : string := rstrip (lstrip s).

Definition digit_value (c : ascii) : Z := ord c - 48.

Fixpoint digits_value (acc : Z) (s : string) : Z :=
  match s with
  | EmptyString => acc
  | String c s' => digits_value (10 * acc + digit_value c) s'
  end.

(** [int(s)] of Python 2 on a [str]: surrounding white space is dropped,
    one sign is allowed, at least one decimal digit must follow and
    nothing else; [None] is the [ValueError] it raises otherwise. *)
Definition int (s : string) : option Z :=
  match strip s with
  | String "-" d => if isdigit d then Some (- digits_value 0 d)%Z else None
  | String "+" d => if isdigit d then Some (digits_value 0 d) else None
  | d => if isdigit d then Some (digits_value 0 d) else None
  end.

(** [''.join(pieces)]. *)
Definition join (pieces : list string) : string :=
  fold_right String.append EmptyString pieces.

End PyStr.

(** ** Regular expressions, as much of Python's [re] as the parser uses *)

Module Regex.

Inductive regex : Type :=
| Void : regex                          (* matches nothing *)
| Eps : regex                           (* the empty string *)
| Class : (ascii -> bool) -> regex      (* one character of a class *)
| Cat : regex -> regex -> regex
| Alt : regex -> regex -> regex
| Star : regex -> regex.

(** [r+], [r?], a literal character, a literal string. *)
Definition Plus (r : regex) : regex := Cat r (Star r).
Definition Opt (r : regex) : regex := Alt Eps r.
Definition Chr (c : ascii) : regex := Class (Ascii.eqb c).

Fixpoint Lit (s : string) : regex :=
  match s with
  | EmptyString => Eps
  | String c s' => Cat (Chr c) (Lit s')
  end.

(** [r{n}]. *)
Fixpoint Rep (n : nat) (r : regex) : regex :=
  match n with
  | O => Eps
  | S n' => Cat r (Rep n' r)
  end.

(** [.] (no DOTALL flag): anything but a newline. *)
Definition Dot : regex := Class (fun c => negb (Ascii.eqb c PyStr.newline)).

(** [[0-9]], which is also [\d] on a byte string. *)
Definition Digit : regex := Class PyStr.is_digit.

Fixpoint nullable (r : regex) : bool :=
  match r with
  | Void => false
  | Eps => true
  | Class _ => false
  | Cat r1 r2 => nullable r1 && nullable r2
  | Alt r1 r2 => nullable r1 || nullable r2
  | Star _ => true
  end.

(** Constructors that drop what can no longer match. *)
Definition cat (r1 r2 : regex) : regex :=
  match r1, r2 with
  | Void, _ => Void
  | _, Void => Void
  | Eps, _ => r2
  | _, _ => Cat r1 r2
  end.

Definition alt (r1 r2 : regex) : regex :=
  match r1, r2 with
  | Void, _ => r2
  | _, Void => r1
  | _, _ => Alt r1 r2
  end.

(** Brzozowski derivative: what remains to be matched after [c]. *)
Fixpoint deriv (c : ascii) (r : regex) : regex :=
  match r with
  | Void => Void
  | Eps => Void
  | Class p => if p c then Eps else Void
  | Cat r1 r2 =>
      if nullable r1 then alt (cat (deriv c r1) r2) (deriv c r2)
      else cat (deriv c r1) r2
  | Alt r1 r2 => alt (deriv c r1) (deriv c r2)
  | Star r1 => cat (deriv c r1) (Star r1)
  end.

(** Does the pattern match at the very start of [s] (some prefix of it)?
    This is [pattern.match(s) is not None]. *)
Fixpoint match_here (r : regex) (s : string) : bool :=
  nullable r ||
  match s with
  | EmptyString => false
  | String c s' => match_here (deriv c r) s'
  end.

(** [pattern.search(s)]: the start of the leftmost match, every position
    from 0 to [len(s)] being tried in turn; [None] when there is none. *)
Fixpoint search (r : regex) (s : string) : option nat :=
  if match_here r s then Some O
  else match s with
       | EmptyString => None
       | String _ s' => option_map S (search r s')
       end.

(** The language of a pattern: the strings it matches as a whole. *)
Inductive matches : regex -> string -> Prop :=
| MEps : matches Eps EmptyString
| MClass : forall (p : ascii -> bool) (c : ascii),
    p c = true -> matches (Class p) (String c EmptyString)
| MCat : forall r1 r2 s1 s2,
    matches r1 s1 -> matches r2 s2 -> matches (Cat r1 r2) (s1 ++ s2)
| MAltL : forall r1 r2 s, matches r1 s -> matches (Alt r1 r2) s
| MAltR : forall r1 r2 s, matches r2 s -> matches (Alt r1 r2) s
| MStarNil : forall r, matches (Star r) EmptyString
| MStarApp : forall r s1 s2,
    matches r s1 -> matches (Star r) s2 -> matches (Star r) (s1 ++ s2).

End Regex.

(** ** Exceptions and results *)

(** The Python exceptions that can leave the code modelled here. *)
Inductive py_exception : Type :=
| ValueError : py_exception
| IndexError : py_exception
| OverflowError : py_exception.

(** A value, or the exception raised instead of it. *)
Definition result (A : Type) : Type := (py_exception + A)%type.

Definition bind_result {A B : Type} (c : result A) (k : A -> result B) : result B :=
  match c with
  | inl e => inl e
  | inr a => k a
  end.

Notation "'let?' x ':=' c 'in' k" := (bind_result c (fun x => k))
  (at level 10, x pattern, c at level 100, k at level 200).

Definition of_option {A : Type} (e : py_exception) (o : option A) : result A :=
  match o with
  | Some a => inr a
  | None => inl e
  end.

(** [int(s)], raising. *)
Definition py_int (s : string) : result Z := of_option ValueError (PyStr.int s).

(** [l[i]], raising. *)
Definition getitem {A : Type} (l : list A) (i : nat) : result A :=
  of_option IndexError (nth_error l i).

(** ** Python's [calendar.timegm] and [ntplib.system_to_ntp_time] *)

Module Calendar.

Local Open Scope Z_scope.

Definition is_leap (year : Z) : bool :=
  (year mod 4 =? 0) && (negb (year mod 100 =? 0) || (year mod 400 =? 0)).

(** [datetime._days_before_year]: days before January 1st of [year]. *)
Definition days_before_year (year : Z) : Z :=
  let y := year - 1 in y * 365 + y / 4 - y / 100 + y / 400.

(** [datetime._DAYS_BEFORE_MONTH], for months 1 to 12. *)
Definition DAYS_BEFORE_MONTH : list Z :=
  [0; 31; 59; 90; 120; 151; 181; 212; 243; 273; 304; 334].

Definition days_before_month (year month : Z) : Z :=
  nth (Z.to_nat (month - 1)) DAYS_BEFORE_MONTH 0
  + (if (2 <? month) && is_leap year then 1 else 0).

Definition MINYEAR : Z := 1.
Definition MAXYEAR : Z := 9999.

(** The bounds of a C [int], the type the constructor of [datetime.date]
    converts its arguments to. *)
Definition INT_MIN : Z := -2147483648.
Definition INT_MAX : Z := 2147483647.

Definition fits_c_int (z : Z) : bool := (INT_MIN <=? z) && (z <=? INT_MAX).

(** [datetime.date(year, month, 1).toordinal()]: the constructor first
    converts its arguments to C [int]s, raising [OverflowError] for one that
    does not fit; it then raises [ValueError] for a year or a month out of
    range (the day given is 1, which every month has). *)
Definition first_of_month_toordinal (year month : Z) : result Z :=
  if negb (fits_c_int year && fits_c_int month) then inl OverflowError
  else if (MINYEAR <=? year) && (year <=? MAXYEAR) && (1 <=? month) && (month <=? 12)
  then inr (days_before_year year + days_before_month year month + 1)
  else inl ValueError.

(** [datetime.date(1970, 1, 1).toordinal()]. *)
Definition EPOCH_ORD : Z := 719163.

(** [calendar.timegm] (CPython 2.7) on the first six entries of its
    argument. *)
Definition timegm (t : Z * Z * Z * Z * Z * Z) : result Z :=
  let '(year, month, day, hour, minute, second) := t in
  let? ord1 := first_of_month_toordinal year month in
  let days := ord1 - EPOCH_ORD + day - 1 in
  let hours := days * 24 + hour in
  let minutes := hours * 60 + minute in
  let seconds := minutes * 60 + second in
  inr seconds.

End Calendar.

Module PyFloat.

(** IEEE 754 binary64, the format of a Python [float]. *)
Definition prec : Z := 53.
Definition emax : Z := 1024.

Definition add : spec_float -> spec_float -> spec_float := SFadd prec emax.
Definition div : spec_float -> spec_float -> spec_float := SFdiv prec emax.

(** The nearest binary64 value of an integer (ties to even), wherever it
    is finite. *)
Definition nearest (z : Z) : spec_float := binary_normalize prec emax z 0 false.

(** Conversion of an [int] operand in mixed arithmetic; an integer beyond
    the range of the format raises [OverflowError]. *)
Definition of_int (z : Z) : result spec_float :=
  match nearest z with
  | S754_infinity _ => inl OverflowError
  | f => inr f
  end.

(** The literal [1000.0]. *)
Definition f1000 : spec_float := Eval vm_compute in nearest 1000.

End PyFloat.

Module Ntplib.

(** [ntplib.NTP.NTP_DELTA]: the seconds from 1900-01-01 to 1970-01-01. *)
Definition NTP_DELTA : Z := 2208988800.

(** [ntplib.system_to_ntp_time(timestamp)] is [timestamp + NTP_DELTA]. *)
Definition system_to_ntp_time (timestamp : spec_float) : result spec_float :=
  let? delta := PyFloat.of_int NTP_DELTA in
  inr (PyFloat.add timestamp delta).

End Ntplib.

(** ** The parser *)

Import Regex.

(** *** Patterns *)

Definition COMMA : ascii := ",".

(** Modelled from the spec: [DATE_YYYY_MM_DD_REGEX], [SPACE_REGEX] and
    [TIME_HR_MIN_SEC_MSEC_REGEX] of mi/dataset/parser/common_regexes.py,
    which is not among the sources.  The timestamp is
    [YYYY/MM/DD HH:MM:SS.mmm], seven groups of digits of fixed width, and
    with the enclosing group of [DATE_TIME_REGEX] they are groups 1 to 8:
    [(\d{4})/(\d{2})/(\d{2})], a space, [(\d{2}):(\d{2}):(\d{2})\.(\d{3})]. *)
Definition DATE_YYYY_MM_DD_REGEX : regex :=
  Cat (Rep 4 Digit) (Cat (Chr "/") (Cat (Rep 2 Digit) (Cat (Chr "/") (Rep 2 Digit)))).
Definition SPACE_REGEX : regex := Chr " ".
Definition TIME_HR_MIN_SEC_MSEC_REGEX : regex :=
  Cat (Rep 2 Digit) (Cat (Chr ":") (Cat (Rep 2 Digit) (Cat (Chr ":")
    (Cat (Rep 2 Digit) (Cat (Chr ".") (Rep 3 Digit)))))).

Definition DATE_TIME_REGEX : regex :=
  Cat DATE_YYYY_MM_DD_REGEX (Cat SPACE_REGEX TIME_HR_MIN_SEC_MSEC_REGEX).

(** [r'.+ No_FC_Data'] *)
Definition NON_DATA_REGEX : regex := Cat (Plus Dot) (Lit " No_FC_Data").

Definition Sign : regex := Class (fun c => Ascii.eqb c "+" || Ascii.eqb c "-").
Definition HexDigit : regex := Class PyStr.is_hexdigit.

(** [r'( [+-]?[0-9]+,)'] *)
Definition START_DATA_REGEX : regex :=
  Cat (Chr " ") (Cat (Opt Sign) (Cat (Plus Digit) (Chr ","))).

(** [r'(: ?[+-]?[0-9]+ [0-9A-Fa-f]+)'] *)
Definition END_DATA_REGEX : regex :=
  Cat (Chr ":") (Cat (Opt (Chr " ")) (Cat (Opt Sign)
    (Cat (Plus Digit) (Cat (Chr " ") (Plus HexDigit))))).

(** A match object: the string searched and where the match starts. *)
Record MatchObject : Type := { m_string : string; m_start : nat }.

Definition matcher_search (r : regex) (s : string) : option MatchObject :=
  option_map (Build_MatchObject s) (search r s).

(** Regex group indices *)
Definition YEAR_GROUP : nat := 2.
Definition MONTH_GROUP : nat := 3.
Definition DAY_GROUP : nat := 4.
Definition HOUR_GROUP : nat := 5.
Definition MINUTE_GROUP : nat := 6.
Definition SECONDS_GROUP : nat := 7.
Definition MILLISECONDS_GROUP : nat := 8.

(** Where each group of [DATE_TIME_REGEX] starts and ends, counted from the
    start of the match: all its pieces have a fixed width. *)
Definition date_group_span (k : nat) : nat * nat :=
  match k with
  | 1 => (0, 23)
  | 2 => (0, 4)
  | 3 => (5, 7)
  | 4 => (8, 10)
  | 5 => (11, 13)
  | 6 => (14, 16)
  | 7 => (17, 19)
  | 8 => (20, 23)
  | _ => (0, 0)
  end%nat.

(** [found_dtg.group(k)] *)
Definition date_group (m : MatchObject) (k : nat) : string :=
  let '(i, j) := date_group_span k in
  PyStr.slice (m_start m + i) (m_start m + j) (m_string m).

(** *** Particles *)

Inductive FuelCellEngDataParticleType : Type :=
| FUELCELL_ENG_DCL_RECOVERED
| FUELCELL_ENG_DCL_TELEMETERED.

(** [FuelCellEngDclParticleKey.DCL_CONTROLLER_TIMESTAMP] *)
Definition DCL_CONTROLLER_TIMESTAMP : string := "dcl_controller_timestamp".

(** The other keys of [FuelCellEngDclParticleKey], each with the index
    ([DATALOG_MANAGER_VERSION_INDEX] = 0 to [FUEL_CELL_ERROR_MASK_INDEX] = 26)
    of the field [generate_data_dict] stores under it. *)
Definition FIELD_KEYS : list (string * nat) :=
  [ ("datalog_manager_version", 0); ("system_software_version", 1);
    ("total_run_time", 2); ("fuel_cell_voltage", 3); ("fuel_cell_current", 4);
    ("reformer_temperature", 5); ("fuel_cell_h2_pressure", 6);
    ("fuel_cell_temperature", 7); ("reformer_fuel_pressure", 8);
    ("fuel_pump_pwm_drive_percent", 9); ("air_pump_pwm_drive_percent", 10);
    ("coolant_pump_pwm_drive_percent", 11); ("air_pump_tach_count", 12);
    ("fuel_cell_state", 13); ("fuel_remaining", 14); ("power_to_battery1", 15);
    ("battery1_converter_temperature", 16); ("power_to_battery2", 17);
    ("battery2_converter_temperature", 18); ("balance_of_plant_power", 19);
    ("balance_of_plant_converter_temperature", 20);
    ("power_board_temperature", 21); ("control_board_temperature", 22);
    ("power_manager_status", 23); ("power_manager_error_mask", 24);
    ("reformer_error_mask", 25); ("fuel_cell_error_mask", 26) ]%nat.

(** A dictionary with string keys and string values, as the list of its
    items in the order the dictionary display writes them. *)
Definition data_dict : Type := list (string * string).

(** Modelled from the spec: the record [SimpleParser._extract_sample]
    (mi/dataset/dataset_parser.py, not among the sources) builds for
    [_extract_sample(particle_class, None, raw_data, timestamp)]: a
    structured record of the configured class that holds the dictionary and
    carries the timestamp as its emission key. *)
Record Particle : Type := {
  particle_class : FuelCellEngDataParticleType;
  raw_data : data_dict;
  internal_timestamp : spec_float
}.

(** [RecoverableSampleException(msg, arg)]: the exception object with the
    two arguments it was constructed from. *)
Record RecoverableSampleException : Type := {
  exc_msg : string;
  exc_arg : nat
}.

(** *** The parser object and its methods *)

(** [self]: the configured particle class, the record buffer, and the
    exceptions handed to [self._exception_callback] so far, oldest first. *)
Record Parser : Type := {
  fuelcell_data_class : FuelCellEngDataParticleType;
  record_buffer : list Particle;
  callback_received : list RecoverableSampleException
}.

(** A method body: it may change the parser object and either returns or
    raises, the object staying as it was changed up to then. *)
Definition M (A : Type) : Type := Parser -> Parser * result A.

Definition ret {A : Type} (a : A) : M A := fun self => (self, inr a).

Definition bind {A B : Type} (c : M A) (k : A -> M B) : M B :=
  fun self =>
    match c self with
    | (self', inl e) => (self', inl e)
    | (self', inr a) => k a self'
    end.

Definition lift {A : Type} (r : result A) : M A := fun self => (self, r).

Notation "x <- c ;; k" := (bind c (fun x => k))
  (at level 100, c at next level, right associativity).

(** [self._exception_callback(e)]: the callback given at construction
    receives the exception and returns. *)
Definition exception_callback (e : RecoverableSampleException) : M unit :=
  fun self =>
    ({| fuelcell_data_class := fuelcell_data_class self;
        record_buffer := record_buffer self;
        callback_received := callback_received self ++ [e] |}, inr tt).

(** [self._record_buffer.append(particle)] *)
Definition record_buffer_append (particle : Particle) : M unit :=
  fun self =>
    ({| fuelcell_data_class := fuelcell_data_class self;
        record_buffer := record_buffer self ++ [particle];
        callback_received := callback_received self |}, inr tt).

(** [self._extract_sample(self._fuelcell_data_class, None, d, timestamp)] *)
Definition extract_sample (d : data_dict) (timestamp : spec_float) : M Particle :=
  fun self =>
    (self, inr {| particle_class := fuelcell_data_class self;
                  raw_data := d;
                  internal_timestamp := timestamp |}).

Definition log_warning (msg_text : string) (which_line : nat) : M unit :=
  exception_callback
    {| exc_msg := msg_text ++ " %d - No particle generated";
       exc_arg := which_line |}.

(** The body of the loop of [good_field], from index [x] on. *)
Fixpoint good_field_from (fields : list string) : bool :=
  match fields with
  | [] => true
  | field :: rest =>
      match field with
      | EmptyString => false
      | String _ _ =>
          let start_char := if PyStr.startswith "-" field then 1%nat else 0%nat in
          if negb (PyStr.isdigit (PyStr.slice_from start_char field)) then false
          else good_field_from rest
      end
  end.

Definition good_field (field_array : list string) : bool :=
  if negb (List.length field_array =? 27)%nat then false
  else good_field_from field_array.

(** The loop of [good_checksum]: the running sum, reduced at every step. *)
Fixpoint checksum_loop (calculated_checksum : Z) (data_array : string) : Z :=
  match data_array with
  | EmptyString => calculated_checksum
  | String c rest =>
      checksum_loop ((calculated_checksum + PyStr.ord c) mod 32768)%Z rest
  end.

Definition good_checksum (data_array : string) (read_checksum : Z) : bool :=
  let calculated_checksum := checksum_loop 0 data_array in
  if (calculated_checksum =? read_checksum)%Z then true else false.

Definition get_timestamp (my_tuple : Z * Z * Z * Z * Z * Z * Z) : result spec_float :=
  let '(year, month, day, hour, minute, second, millis) := my_tuple in
  let? seconds := Calendar.timegm (year, month, day, hour, minute, second) in
  let? ms := PyFloat.of_int millis in
  let? s := PyFloat.of_int seconds in
  let elapsed_seconds := PyFloat.add s (PyFloat.div ms PyFloat.f1000) in
  Ntplib.system_to_ntp_time elapsed_seconds.

(** The fields are read at their 27 indices, then the dictionary is built. *)
Fixpoint read_fields (keys : list (string * nat)) (data_list : list string)
  : result data_dict :=
  match keys with
  | [] => inr []
  | (key, index) :: keys' =>
      let? value := getitem data_list index in
      let? items := read_fields keys' data_list in
      inr ((key, value) :: items)
  end.

Definition generate_data_dict (datetime : string) (data_list : list string)
  : result data_dict :=
  let? items := read_fields FIELD_KEYS data_list in
  inr ((DCL_CONTROLLER_TIMESTAMP, datetime) :: items).

(** [the_data] of [parse_file]: the first piece when there are two, the
    first and then pieces 1 to [len - 2] appended one by one otherwise. *)
Definition rebuild_data (data_part : list string) : result string :=
  if (List.length data_part =? 2)%nat then getitem data_part 0
  else
    let? first := getitem data_part 0 in
    fold_left
      (fun the_data x =>
         let? acc := the_data in
         let? piece := getitem data_part x in
         inr (acc ++ piece))
      (seq 1 (List.length data_part - 1 - 1))
      (inr first).

(** The loop body of [parse_file] from
    [data_plus_checksum = the_data.split(':')] on: the checksum gate, the
    field gate and the particle. *)
Definition check_and_emit (found_dtg : MatchObject) (dtg the_data : string)
  (line_count : nat) : M unit :=
  let data_plus_checksum := PyStr.split ":" the_data in
  actual_data <- lift (getitem data_plus_checksum 0) ;;
  checksum_text <- lift (getitem data_plus_checksum 1) ;;
  read_checksum <- lift (py_int checksum_text) ;;
  if good_checksum actual_data read_checksum then
    let the_fields := PyStr.split COMMA actual_data in
    if good_field the_fields then
      year <- lift (py_int (date_group found_dtg YEAR_GROUP)) ;;
      month <- lift (py_int (date_group found_dtg MONTH_GROUP)) ;;
      day <- lift (py_int (date_group found_dtg DAY_GROUP)) ;;
      hour <- lift (py_int (date_group found_dtg HOUR_GROUP)) ;;
      minute <- lift (py_int (date_group found_dtg MINUTE_GROUP)) ;;
      second <- lift (py_int (date_group found_dtg SECONDS_GROUP)) ;;
      millis <- lift (py_int (date_group found_dtg MILLISECONDS_GROUP)) ;;
      timestamp <- lift (get_timestamp
                           (year, month, day, hour, minute, second, millis)) ;;
      fuelcell_data_dict <- lift (generate_data_dict dtg the_fields) ;;
      particle <- extract_sample fuelcell_data_dict timestamp ;;
      record_buffer_append particle
    else log_warning "Improper format line" line_count
  else log_warning "Bad checksum line" line_count.

(** One turn of the loop of [parse_file], [line_count] already counting
    this row. *)
Definition parse_row (fuelcell_input_row : string) (line_count : nat) : M unit :=
  match matcher_search NON_DATA_REGEX fuelcell_input_row with
  | None =>
      match matcher_search DATE_TIME_REGEX fuelcell_input_row with
      | Some found_dtg =>
          let dtg := date_group found_dtg 1 in
          match matcher_search START_DATA_REGEX fuelcell_input_row with
          | Some found_data =>
              let data_string :=
                PyStr.slice_from (m_start found_data + 1) fuelcell_input_row in
              match matcher_search END_DATA_REGEX data_string with
              | Some found_end =>
                  let data_part := PyStr.split " " data_string in
                  the_data <- lift (rebuild_data data_part) ;;
                  check_and_emit found_dtg dtg the_data line_count
              | None => log_warning "No terminator found on line" line_count
              end
          | None => log_warning "No data found on line" line_count
          end
      | None => log_warning "Bad/Missing Timestamp on line" line_count
      end
  | Some _ => log_warning "No fuel cell data on line" line_count
  end.

(** The loop of [parse_file].  The file handle is the list of the strings
    its successive [readline()] calls return before the end of the file,
    where it returns the empty string, which like any empty row ends the
    loop. *)
Fixpoint parse_loop (file_handle : list string) (line_count : nat) : M unit :=
  match file_handle with
  | [] => ret tt
  | fuelcell_input_row :: rest =>
      match fuelcell_input_row with
      | EmptyString => ret tt
      | String _ _ =>
          let line_count := (line_count + 1)%nat in
          _ <- parse_row fuelcell_input_row line_count ;;
          parse_loop rest line_count
      end
  end.

Definition parse_file (file_handle : list string) : M unit :=
  parse_loop file_handle 0.

(** ** Vocabulary of the properties *)

(** A parser of the given class that has buffered and reported nothing. *)
Definition fresh (cls : FuelCellEngDataParticleType) : Parser :=
  {| fuelcell_data_class := cls; record_buffer := []; callback_received := [] |}.

(** The rows the loop of [parse_file] reads: those before the end of the
    file or the first empty row. *)
Fixpoint rows_read (file_handle : list string) : list string :=
  match file_handle with
  | [] => []
  | EmptyString :: _ => []
  | row :: rest => row :: rows_read rest
  end.

(** The records a row contributes when it is parsed on its own. *)
Definition row_records (cls : FuelCellEngDataParticleType) (row : string)
  : list Particle :=
  record_buffer (fst (parse_row row 0 (fresh cls))).

(** What [parse_row] holds when a row has passed the four searches: the
    timestamp match and the text after the start anchor. *)
Definition candidate (row : string) : option (MatchObject * string) :=
  match matcher_search NON_DATA_REGEX row,
        matcher_search DATE_TIME_REGEX row,
        matcher_search START_DATA_REGEX row with
  | None, Some found_dtg, Some found_data =>
      let data_string := PyStr.slice_from (m_start found_data + 1) row in
      match matcher_search END_DATA_REGEX data_string with
      | Some _ => Some (found_dtg, data_string)
      | None => None
      end
  | _, _, _ => None
  end.

(** The seven integers of a timestamp match. *)
Definition timestamp_tuple (found_dtg : MatchObject)
  : result (Z * Z * Z * Z * Z * Z * Z) :=
  let? year := py_int (date_group found_dtg YEAR_GROUP) in
  let? month := py_int (date_group found_dtg MONTH_GROUP) in
  let? day := py_int (date_group found_dtg DAY_GROUP) in
  let? hour := py_int (date_group found_dtg HOUR_GROUP) in
  let? minute := py_int (date_group found_dtg MINUTE_GROUP) in
  let? second := py_int (date_group found_dtg SECONDS_GROUP) in
  let? millis := py_int (date_group found_dtg MILLISECONDS_GROUP) in
  inr (year, month, day, hour, minute, second, millis).

(** The particle [p] of class [cls] is the record of [row]: the row is a
    candidate, the payload cut from it passed [good_checksum] against the
    checksum read, its fields passed [good_field], and [p] holds those
    fields and the row's timestamp. *)
Definition built_from (cls : FuelCellEngDataParticleType) (row : string)
  (p : Particle) : Prop :=
  exists found_dtg data_string the_data actual_data checksum_text rest
         read_checksum tuple,
    candidate row = Some (found_dtg, data_string) /\
    rebuild_data (PyStr.split " " data_string) = inr the_data /\
    PyStr.split ":" the_data = actual_data :: checksum_text :: rest /\
    py_int checksum_text = inr read_checksum /\
    good_checksum actual_data read_checksum = true /\
    good_field (PyStr.split COMMA actual_data) = true /\
    timestamp_tuple found_dtg = inr tuple /\
    get_timestamp tuple = inr (internal_timestamp p) /\
    generate_data_dict (date_group found_dtg 1) (PyStr.split COMMA actual_data)
      = inr (raw_data p) /\
    particle_class p = cls.

(** The six reasons [parse_file] gives to [log_warning]. *)
Definition REASONS : list string :=
  [ "No fuel cell data on line"; "Bad/Missing Timestamp on line";
    "No data found on line"; "No terminator found on line";
    "Improper format line"; "Bad checksum line" ].

(** The sum of the byte values of the characters of a string. *)
Fixpoint byte_sum (s : string) : Z :=
  match s with
  | EmptyString => 0%Z
  | String c s' => (PyStr.ord c + byte_sum s')%Z
  end.

(** A token without at most one leading minus sign. *)
Definition strip_leading_minus (t : string) : string :=
  match t with
  | String "-" r => r
  | _ => t
  end.

Definition decimal_digits : list ascii := list_ascii_of_string "0123456789".

Definition only_digits (s : string) : Prop :=
  Forall (fun c => In c decimal_digits) (list_ascii_of_string s).

(** A token that is not empty and, without at most one leading minus
    sign, is not empty and consists of decimal digits only. *)
Definition valid_token (t : string) : Prop :=
  t <> "" /\ strip_leading_minus t <> "" /\ only_digits (strip_leading_minus t).

(** The text holds, somewhere, a colon, an optional space, an optionally
    signed run of digits, a space and a run of hexadecimal digits; anything
    may stand before and after. *)
Definition has_terminator (data_string : string) : Prop :=
  exists before space sign digits hex after,
    data_string = before ++ ":" ++ space ++ sign ++ digits ++ " " ++ hex ++ after /\
    (space = "" \/ space = " ") /\
    (sign = "" \/ sign = "+" \/ sign = "-") /\
    PyStr.isdigit digits = true /\
    hex <> "" /\ PyStr.all_chars PyStr.is_hexdigit hex = true.

(** *** Seconds since the epoch, counted on the calendar *)

Module CivilTime.

Local Open Scope Z_scope.

Definition days_in_year (year : Z) : Z :=
  if Calendar.is_leap year then 366 else 365.

Definition days_in_month (year month : Z) : Z :=
  match month with
  | 2 => if Calendar.is_leap year then 29 else 28
  | 4 | 6 | 9 | 11 => 30
  | _ => 31
  end.

(** [f lo + f (lo + 1) + ...], [n] terms. *)
Fixpoint sum_from (f : Z -> Z) (lo : Z) (n : nat) : Z :=
  match n with
  | O => 0
  | S n' => sum_from f lo n' + f (lo + Z.of_nat n')
  end.

(** The sum of [f k] for [lo <= k < hi]. *)
Definition sum_range (f : Z -> Z) (lo hi : Z) : Z :=
  sum_from f lo (Z.to_nat (hi - lo)).

(** Days from 1970-01-01 to the given day of the given month, the
    calendar being the Gregorian one throughout and every day having 24
    hours: whole years first (back in time before 1970), then whole months,
    then days. *)
Definition days_since_epoch (year month day : Z) : Z :=
  (if 1970 <=? year then sum_range days_in_year 1970 year
   else - sum_range days_in_year year 1970)
  + sum_range (days_in_month year) 1 month
  + (day - 1).

(** Seconds from 1970-01-01 00:00:00 UTC to the given calendar time read
    as UTC: no time zone, no daylight saving, no leap second. *)
Definition unix_seconds (year month day hour minute second : Z) : Z :=
  86400 * days_since_epoch year month day + 3600 * hour + 60 * minute + second.

End CivilTime.

(** ** Sample rows *)

(** The fuel cell data of the properly formed line that the module's
    docstring shows, and the text the docstring puts before it. *)
Definition sample_payload : string :=
  "4112,33557475,4308795,31356,13465,4260,10819,589,162678,46,21,100,15778,4,906397,-147897,661,-142057,660,85540,643,569,479,67108864,101728580,8472576,2097216".

Definition sample_prefix : string :=
  "2015/03/10 14:22:05.500 PwrSys psc: 25.30 4266.67 89.0 01c0 00000000 00000000 pv1 1 25.37 0.00 pv2 1 25.27 0.00 wt1 1 25.30 0.00 fc1 1 0.00 0.00 bt1 8.52 25.26 -742.00 ext 25.30 2.00 int 25.33 55.50 25.30 fcl 0.00 swg 0 1.00 2.00 cvt 1 376.78 138.00 1 18.35 00000000 ".

Definition line_end : string := String PyStr.newline EmptyString.

(** A row of the docstring's shape: the prefix, a payload, a colon, the
    checksum as written, a space, the hexadecimal token, the newline that
    [readline()] keeps. *)
Definition sample_row (payload checksum_text : string) : string :=
  sample_prefix ++ payload ++ ":" ++ checksum_text ++ " 6d47" ++ line_end.

(** The same payload with a space after its second comma, the anomaly the
    comments of [parse_file] describe. *)
Definition sample_payload_spaced : string :=
  "4112,33557475, 4308795,31356,13465,4260,10819,589,162678,46,21,100,15778,4,906397,-147897,661,-142057,660,85540,643,569,479,67108864,101728580,8472576,2097216".

(** The sample row with text right after the hexadecimal token. *)
Definition sample_row_trailing : string :=
  sample_prefix ++ sample_payload ++ ":8002 6d47,trailing" ++ line_end.


(** The sample row as it is, and with one more token at its end. *)
Definition sample_row_good : string := sample_row sample_payload "8002".

Definition sample_row_extra_token : string :=
  sample_prefix ++ sample_payload ++ ":8002 6d47 trailing" ++ line_end.

(** The sample row stamped with a thirteenth month. *)
Definition sample_row_month_13 : string :=
  "2015/13/10" ++ PyStr.slice_from 10 sample_row_good.

(** A row of the no-data kind. *)
Definition sample_row_no_data : string :=
  "2015/03/10 14:22:05.500 PwrSys No_FC_Data 6d47" ++ line_end.

(** ** Vocabulary of the further properties *)

(** The text without the occurrences of a character. *)
Fixpoint remove_char (c : ascii) (s : string) : string :=
  match s with
  | EmptyString => EmptyString
  | String c' s' =>
      if Ascii.eqb c' c then remove_char c s' else String c' (remove_char c s')
  end.

(** The integer that a run of digits, with or without a minus sign before
    it, writes in base ten. *)
Definition token_value (t : string) : Z :=
  match t with
  | String "-" d => (- PyStr.digits_value 0 d)%Z
  | _ => PyStr.digits_value 0 t
  end.

(** The integer is within the range of a float: rounded to the nearest
    binary64 value, it is not beyond the largest finite one. *)
Definition in_float_range (z : Z) : bool :=
  match PyFloat.nearest z with
  | S754_infinity _ => false
  | _ => true
  end.

(** The timestamp text of a row, and the fields of its payload, as the scan
    cuts them from the row. *)
Definition row_timestamp_text (row : string) : option string :=
  match matcher_search DATE_TIME_REGEX row with
  | Some found_dtg => Some (date_group found_dtg 1)
  | None => None
  end.

Definition row_fields (row : string) : option (list string) :=
  match candidate row with
  | Some (_, data_string) =>
      match rebuild_data (PyStr.split " " data_string) with
      | inr the_data =>
          match PyStr.split ":" the_data with
          | actual_data :: _ => Some (PyStr.split COMMA actual_data)
          | [] => None
          end
      | inl _ => None
      end
  | None => None
  end.

(** [key in d] and [d[key]] for a dictionary given by its items. *)
Fixpoint dict_get {V : Type} (key : string) (d : list (string * V)) : option V :=
  match d with
  | [] => None
  | (k, v) :: d' => if String.eqb k key then Some v else dict_get key d'
  end.

Definition dict_has {V : Type} (key : string) (d : list (string * V)) : bool :=
  match dict_get key d with
  | Some _ => true
  | None => false
  end.

(** ** Construction, and the particle's values *)

(** What a configuration dictionary holds under a key: [None], or a
    dictionary from particle class keys to particle classes. *)
Inductive config_value : Type :=
| ConfigNone : config_value
| ConfigClasses : list (string * FuelCellEngDataParticleType) -> config_value.

(** What [__init__] raises. *)
Inductive init_exception : Type :=
| ConfigurationException : string -> init_exception
| TypeError : init_exception.

(** [FuelCellEngDclParticleClassKey.ENGINEERING_DATA_PARTICLE_CLASS] *)
Definition ENGINEERING_DATA_PARTICLE_CLASS : string :=
  "engineering_data_particle_class".

(** [UNPACK_DICT], its items as written. *)
Definition UNPACK_DICT : list (string * nat) :=
  [ ("datalog_manager_version", 1); ("system_software_version", 2);
    ("total_run_time", 3); ("fuel_cell_voltage", 4); ("fuel_cell_current", 5);
    ("reformer_temperature", 6); ("fuel_cell_h2_pressure", 7);
    ("fuel_cell_temperature", 8); ("reformer_fuel_pressure", 9);
    ("fuel_pump_pwm_drive_percent", 10); ("air_pump_pwm_drive_percent", 11);
    ("coolant_pump_pwm_drive_percent", 12); ("air_pump_tach_count", 13);
    ("fuel_cell_state", 14); ("fuel_remaining", 15); ("power_to_battery1", 16);
    ("battery1_converter_temperature", 17); ("power_to_battery2", 18);
    ("battery2_converter_temperature", 19); ("balance_of_plant_power", 20);
    ("balance_of_plant_converter_temperature", 21);
    ("power_board_temperature", 22); ("control_board_temperature", 23);
    ("power_manager_status", 24); ("power_manager_error_mask", 25);
    ("reformer_error_mask", 26); ("fuel_cell_error_mask", 27) ]%nat.

(** The two functions [_build_parsed_values] asks values to be encoded
    with. *)
Inductive encoding_function : Type :=
| encode_str : encoding_function
| encode_int : encoding_function.

Section Collaborators.

(** [DataSetDriverConfigKeys.PARTICLE_CLASSES_DICT], a constant of
    mi/dataset/dataset_parser.py, which is not among the sources. *)
Variable PARTICLE_CLASSES_DICT : string.

(** [FuelCellEngDclParser.__init__]: [key in d] holds exactly when the
    lookup finds something, and [in] on the [None] that a configuration may
    hold raises [TypeError].  Modelled from the spec: [SimpleParser.__init__]
    (mi/dataset/dataset_parser.py), called last, gives the parser its output
    buffer, empty before the scan. *)
Definition init (config : list (string * config_value)) : init_exception + Parser :=
  match dict_get PARTICLE_CLASSES_DICT config with
  | Some particle_classes_dict =>
      match particle_classes_dict with
      | ConfigClasses classes =>
          match dict_get ENGINEERING_DATA_PARTICLE_CLASS classes with
          | Some fuelcell_data_class => inr (fresh fuelcell_data_class)
          | None =>
              inl (ConfigurationException
                     "Configuration missing engineering data particle class key in particle classes dict")
          end
      | ConfigNone => inl TypeError
      end
  | None => inl (ConfigurationException "Configuration missing particle classes dict")
  end.

(** [DataParticle._encode_value(name, value, encoding_function)]
    (mi/core/instrument/data_particle.py, not among the sources), for what
    it returns: the entry of the particle for that name. *)
Variable parsed_value : Type.
Variable encode_value : string -> string -> encoding_function -> parsed_value.

(** [_build_parsed_values], the items of [UNPACK_DICT] coming in the order
    [iteritems()] gives them, which the language does not fix; [None] is
    the [KeyError] of a name that [raw_data] lacks. *)
Fixpoint encode_items (iteritems : list (string * nat)) (raw_data : data_dict)
  : option (list parsed_value) :=
  match iteritems with
  | [] => Some []
  | (name, index) :: rest =>
      match dict_get name raw_data with
      | None => None
      | Some value =>
          match encode_items rest raw_data with
          | None => None
          | Some particle_parameters =>
              Some (encode_value name value encode_int :: particle_parameters)
          end
      end
  end.

Definition build_parsed_values (iteritems : list (string * nat))
  (raw_data : data_dict) : option (list parsed_value) :=
  match dict_get "dcl_controller_timestamp" raw_data with
  | None => None
  | Some timestamp =>
      match encode_items iteritems raw_data with
      | None => None
      | Some rest =>
          Some (encode_value "dcl_controller_timestamp" timestamp encode_str :: rest)
      end
  end.

End Collaborators.

(** The line numbers of the rows that give no record, the first row being
    numbered [n + 1]. *)
Fixpoint lines_without_record (cls : FuelCellEngDataParticleType) (n : nat)
  (rows : list string) : list nat :=
  match rows with
  | [] => []
  | row :: rest =>
      match row_records cls row with
      | [] => (n + 1)%nat :: lines_without_record cls (n + 1) rest
      | _ :: _ => lines_without_record cls (n + 1) rest
      end
  end.

(** * Properties *)

(** ** Strings *)

Lemma append_nil_r (s : string) : s ++ "" = s.
Proof. induction s as [|c s IH]; simpl; [reflexivity | now rewrite IH]. Qed.

Lemma append_assoc (s t u : string) : (s ++ t) ++ u = s ++ (t ++ u).
Proof. induction s as [|c s IH]; simpl; [reflexivity | now rewrite IH]. Qed.

Lemma append_eq_nil (s t : string) : s ++ t = "" -> s = "" /\ t = "".
Proof. destruct s; simpl; intros H; [now split | discriminate]. Qed.

Lemma slice_from_app (s t : string) : PyStr.slice_from (String.length s) (s ++ t) = t.
Proof. induction s as [|c s IH]; simpl; [now destruct t | exact IH]. Qed.

Lemma slice_to_from (n : nat) (s : string) :
  PyStr.slice_to n s ++ PyStr.slice_from n s = s.
Proof.
  revert s; induction n as [|n IH]; intros [|c s]; simpl; try reflexivity.
  now rewrite IH.
Qed.

Lemma slice_from_from (n m : nat) (s : string) :
  PyStr.slice_from n (PyStr.slice_from m s) = PyStr.slice_from (m + n) s.
Proof.
  revert s; induction m as [|m IH]; intros s; simpl; [reflexivity|].
  destruct s as [|c s]; [now destruct n | apply IH].
Qed.

(** ** Regular expressions: the matcher decides the language *)

Module RegexFacts.
Import Regex.

Lemma nullable_matches (r : regex) : nullable r = true <-> matches r "".
Proof.
  split.
  - induction r; simpl; intros H; try discriminate.
    + constructor.
    + apply andb_true_iff in H as [H1 H2].
      change "" with ("" ++ ""). constructor; auto.
    + apply orb_true_iff in H as [H|H]; [apply MAltL | apply MAltR]; auto.
    + constructor.
  - intros H. remember "" as s eqn:E.
    induction H; simpl; try reflexivity; try discriminate.
    + apply append_eq_nil in E as [-> ->]. now rewrite IHmatches1, IHmatches2.
    + now rewrite IHmatches.
    + rewrite IHmatches by assumption. apply orb_true_r.
Qed.

Lemma matches_Void (s : string) : ~ matches Void s.
Proof. intros H; inversion H. Qed.

Lemma matches_Eps (s : string) : matches Eps s -> s = "".
Proof. intros H; now inversion H. Qed.

Lemma cat_matches (r1 r2 : regex) (s : string) :
  matches (cat r1 r2) s <-> matches (Cat r1 r2) s.
Proof.
  split.
  - destruct r1, r2; simpl; intros H;
      try exact H; try (now apply matches_Void in H);
      (apply (MCat _ _ "" s); [apply MEps | exact H]).
  - intros H; inversion H as [| |a b s1 s2 H1 H2| | | |]; subst.
    destruct r1, r2; simpl;
      try (now apply matches_Void in H1); try (now apply matches_Void in H2);
      try (apply matches_Eps in H1; subst; exact H2);
      now constructor.
Qed.

Lemma alt_matches (r1 r2 : regex) (s : string) :
  matches (alt r1 r2) s <-> matches (Alt r1 r2) s.
Proof.
  split.
  - destruct r1, r2; simpl; intros H;
      try exact H; try (now apply matches_Void in H);
      solve [apply MAltL; exact H | apply MAltR; exact H].
  - intros H; inversion H; subst;
      destruct r1, r2; simpl;
      try match goal with
          | H : matches Void _ |- _ => now apply matches_Void in H
          end;
      solve [assumption | apply MAltL; assumption | apply MAltR; assumption].
Qed.

(** A repetition that matches a string starting with [c] has a first
    round that consumes [c]. *)
Lemma matches_Star_cons (r : regex) (c : ascii) (s : string) :
  matches (Star r) (String c s) ->
  exists s1 s2, s = s1 ++ s2 /\ matches r (String c s1) /\ matches (Star r) s2.
Proof.
  intros H. remember (Star r) as r' eqn:Er. remember (String c s) as t eqn:Et.
  revert Er Et. induction H; intros Er Et; try discriminate.
  injection Er as ->.
  destruct s1 as [|c1 s1]; simpl in Et.
  - now apply IHmatches2.
  - injection Et as <- <-. now exists s1, s2.
Qed.

Lemma deriv_matches (c : ascii) (r : regex) (s : string) :
  matches (deriv c r) s <-> matches r (String c s).
Proof.
  revert s; induction r as [| |p|r1 IH1 r2 IH2|r1 IH1 r2 IH2|r1 IH1]; intros s; simpl.
  - split; intros H; inversion H.
  - split; intros H; inversion H.
  - destruct (p c) eqn:Ep; split; intros H.
    + apply matches_Eps in H; subst. now constructor.
    + inversion H; subst. constructor.
    + now apply matches_Void in H.
    + inversion H; subst. congruence.
  - assert (Hcat : matches (cat (deriv c r1) r2) s <->
                   exists s1 s2, s = s1 ++ s2 /\ matches r1 (String c s1) /\ matches r2 s2).
    { rewrite cat_matches. split.
      - intros H; inversion H; subst. exists s1, s2. rewrite <- IH1. auto.
      - intros (s1 & s2 & -> & H1 & H2). constructor; [now apply IH1 | exact H2]. }
    assert (Hgoal : matches (Cat r1 r2) (String c s) <->
                    (exists s1 s2, s = s1 ++ s2 /\ matches r1 (String c s1) /\ matches r2 s2)
                    \/ (matches r1 "" /\ matches r2 (String c s))).
    { split.
      - intros H; inversion H as [| |a b s1 s2 H1 H2 Ea Es| | | |]; subst.
        destruct s1 as [|c1 s1]; simpl in Es.
        + right. subst. auto.
        + injection Es as <- <-. left. now exists s1, s2.
      - intros [(s1 & s2 & -> & H1 & H2)|[H1 H2]].
        + change (String c (s1 ++ s2)) with (String c s1 ++ s2). now constructor.
        + change (String c s) with ("" ++ String c s). now constructor. }
    rewrite Hgoal. destruct (nullable r1) eqn:En.
    + rewrite alt_matches. split.
      * intros H; inversion H; subst.
        -- left. now apply Hcat.
        -- right. split; [now apply nullable_matches | now apply IH2].
      * intros [H|[_ H]]; [apply MAltL; now apply Hcat | apply MAltR; now apply IH2].
    + rewrite Hcat. split; [auto|].
      intros [H|[H _]]; [exact H|].
      apply nullable_matches in H. congruence.
  - rewrite alt_matches. split.
    + intros H; inversion H; subst; [apply MAltL; now apply IH1 | apply MAltR; now apply IH2].
    + intros H; inversion H; subst; [apply MAltL; now apply IH1 | apply MAltR; now apply IH2].
  - rewrite cat_matches. split.
    + intros H; inversion H; subst.
      change (String c (s1 ++ s2)) with (String c s1 ++ s2).
      constructor; [now apply IH1 | assumption].
    + intros H. apply matches_Star_cons in H as (s1 & s2 & -> & H1 & H2).
      constructor; [now apply IH1 | assumption].
Qed.

(** [match_here] holds exactly when a prefix is in the language. *)
Lemma match_here_spec (r : regex) (s : string) :
  match_here r s = true <-> exists u v, s = u ++ v /\ matches r u.
Proof.
  revert r; induction s as [|c s IH]; intros r; simpl.
  - rewrite orb_false_r, nullable_matches. split.
    + intros H. now exists "", "".
    + intros (u & v & E & H). symmetry in E. apply append_eq_nil in E as [-> _]. exact H.
  - rewrite orb_true_iff, nullable_matches, IH. split.
    + intros [H|(u & v & -> & H)].
      * now exists "", (String c s).
      * exists (String c u), v. split; [reflexivity | now apply deriv_matches].
    + intros (u & v & E & H). destruct u as [|c' u]; simpl in E.
      * now left.
      * injection E as -> ->. right. exists u, v. split; [reflexivity | now apply deriv_matches].
Qed.

(** What follows a match does not undo it. *)
Lemma match_here_app (r : regex) (s t : string) :
  match_here r s = true -> match_here r (s ++ t) = true.
Proof.
  rewrite !match_here_spec. intros (u & v & -> & H).
  exists u, (v ++ t). now rewrite append_assoc.
Qed.

(** [search] returns the leftmost position where the pattern matches. *)
Lemma search_Some (r : regex) (s : string) (i : nat) :
  search r s = Some i <->
  match_here r (PyStr.slice_from i s) = true /\ i <= String.length s /\
  forall j, j < i -> match_here r (PyStr.slice_from j s) = false.
Proof.
  revert i; induction s as [|c s IH]; intros i.
  - cbn [search]. destruct (match_here r "") eqn:E.
    + split.
      * intros [= <-]. cbn [PyStr.slice_from String.length]. repeat split; [exact E | lia | intros; lia].
      * intros (_ & Hi & _). cbn [String.length] in Hi. now replace i with 0 by lia.
    + split; [discriminate|]. intros (H & _ & _). destruct i; cbn [PyStr.slice_from] in H; congruence.
  - cbn [search]. destruct (match_here r (String c s)) eqn:E.
    + split.
      * intros [= <-]. cbn [PyStr.slice_from]. repeat split; [exact E | lia | intros; lia].
      * intros (_ & _ & Hmin). destruct i as [|i]; [reflexivity|].
        specialize (Hmin 0 ltac:(lia)). cbn [PyStr.slice_from] in Hmin. congruence.
    + destruct i as [|i].
      * split.
        -- destruct (search r s); discriminate.
        -- intros (H & _). cbn [PyStr.slice_from] in H. congruence.
      * assert (Hs : option_map S (search r s) = Some (S i) <-> search r s = Some i).
        { destruct (search r s); cbn; split; congruence. }
        rewrite Hs, IH. cbn [PyStr.slice_from String.length]. split.
        -- intros (H1 & H2 & H3). repeat split; [exact H1 | lia |].
           intros [|j] Hj; cbn [PyStr.slice_from]; [exact E | apply H3; lia].
        -- intros (H1 & H2 & H3). repeat split; [exact H1 | lia |].
           intros j Hj. apply (H3 (S j)). lia.
Qed.

Lemma search_None (r : regex) (s : string) :
  search r s = None <-> forall i, match_here r (PyStr.slice_from i s) = false.
Proof.
  induction s as [|c s IH]; cbn [search].
  - destruct (match_here r "") eqn:E.
    + split; [discriminate|]. intros H. specialize (H 0). cbn [PyStr.slice_from] in H. congruence.
    + split; [|reflexivity]. intros _ [|i]; exact E.
  - destruct (match_here r (String c s)) eqn:E.
    + split; [discriminate|]. intros H. specialize (H 0). cbn [PyStr.slice_from] in H. congruence.
    + assert (Hs : option_map S (search r s) = None <-> search r s = None).
      { destruct (search r s); cbn; split; congruence. }
      rewrite Hs, IH. split.
      * intros H [|i]; [exact E | apply H].
      * intros H i. apply (H (S i)).
Qed.

(** A pattern found in a string is found in any extension of it. *)
Lemma search_app (r : regex) (s t : string) :
  search r s <> None -> search r (s ++ t) <> None.
Proof.
  intros H Hn. apply H. clear H. revert Hn.
  induction s as [|c s IH]; cbn [search String.append].
  - intros Hn. destruct (match_here r "") eqn:E; [|reflexivity].
    apply (match_here_app r "" t) in E. cbn [String.append] in E.
    destruct t; cbn [search] in Hn; rewrite E in Hn; discriminate.
  - destruct (match_here r (String c s)) eqn:E.
    + apply (match_here_app r _ t) in E. cbn [String.append] in E. rewrite E. discriminate.
    + destruct (match_here r (String c (s ++ t))); [discriminate|].
      destruct (search r (s ++ t)) eqn:Est; [discriminate|].
      intros _. now rewrite IH.
Qed.

End RegexFacts.

Import Regex RegexFacts.

(** ** Field validation *)

Lemma is_digit_In (c : ascii) : PyStr.is_digit c = true <-> In c decimal_digits.
Proof.
  destruct c as [[] [] [] [] [] [] [] []]; vm_compute; split; intros H;
    try discriminate; try reflexivity; intuition congruence.
Qed.

Lemma all_chars_only_digits (s : string) :
  PyStr.all_chars PyStr.is_digit s = true <-> only_digits s.
Proof.
  unfold only_digits. induction s as [|c s IH]; cbn [PyStr.all_chars list_ascii_of_string].
  - split; [constructor | reflexivity].
  - rewrite andb_true_iff, IH, is_digit_In. split.
    + intros [H1 H2]. now constructor.
    + intros H. inversion H; subst. now split.
Qed.

Lemma isdigit_spec (s : string) :
  PyStr.isdigit s = true <-> s <> "" /\ only_digits s.
Proof.
  destruct s as [|c s]; unfold PyStr.isdigit.
  - split; [discriminate | now intros [H _]].
  - rewrite all_chars_only_digits. split; [intros H; split; [discriminate | exact H] | now intros [_ H]].
Qed.

Lemma slice_from_startswith_minus (t : string) :
  PyStr.slice_from (if PyStr.startswith "-" t then 1 else 0) t = strip_leading_minus t.
Proof.
  destruct t as [|c t]; [reflexivity|].
  cbn [PyStr.startswith strip_leading_minus].
  destruct c as [[] [] [] [] [] [] [] []]; reflexivity.
Qed.

Lemma good_field_from_spec (l : list string) :
  good_field_from l = true <-> Forall valid_token l.
Proof.
  induction l as [|t l IH]; cbn [good_field_from].
  - split; [constructor | reflexivity].
  - destruct t as [|c t].
    + split; [discriminate|].
      intros H; inversion H as [|? ? [Hne _] ?]; subst. now contradiction Hne.
    + rewrite slice_from_startswith_minus.
      destruct (PyStr.isdigit (strip_leading_minus (String c t))) eqn:Ed; cbn [negb].
      * rewrite IH. apply isdigit_spec in Ed as [Hne Hd]. split.
        -- intros H. constructor; [|exact H]. repeat split; [discriminate | exact Hne | exact Hd].
        -- intros H; now inversion H.
      * split; [discriminate|].
        intros H; inversion H as [|? ? (_ & Hne & Hd) ?]; subst.
        assert (PyStr.isdigit (strip_leading_minus (String c t)) = true)
          by (apply isdigit_spec; now split).
        congruence.
Qed.

Lemma good_field_spec (field_array : list string) :
  good_field field_array = true <->
  List.length field_array = 27 /\ Forall valid_token field_array.
Proof.
  unfold good_field. destruct (List.length field_array =? 27)%nat eqn:El; cbn [negb].
  - apply Nat.eqb_eq in El. rewrite good_field_from_spec. tauto.
  - apply Nat.eqb_neq in El. split; [discriminate | tauto].
Qed.

Lemma valid_token_minus_45 : valid_token "-45".
Proof.
  repeat split; try discriminate.
  apply all_chars_only_digits. reflexivity.
Qed.

Lemma not_valid_token_12a : ~ valid_token "12a".
Proof.
  intros (_ & _ & H). apply all_chars_only_digits in H. discriminate.
Qed.

(** C5: [good_field] accepts a list of tokens exactly when it has 27 tokens
    and each is non-empty and, once at most one leading [-] is stripped,
    non-empty and made of decimal digits only.  So a list of 26 or of 28 tokens
    is rejected, a list holding the token [12a] is rejected wherever it
    stands, and the token [-45] is accepted in any position of a list whose
    other 26 tokens are valid. *)
Theorem C5_good_field_iff (field_array : list string) :
  (good_field field_array = true <->
   List.length field_array = 27 /\ Forall valid_token field_array)
  /\ (List.length field_array = 26 \/ List.length field_array = 28 ->
      good_field field_array = false)
  /\ (In "12a" field_array -> good_field field_array = false)
  /\ (forall before after : list string,
        field_array = (before ++ after)%list ->
        List.length field_array = 26 -> Forall valid_token field_array ->
        good_field (before ++ "-45" :: after)%list = true).
Proof.
  split; [apply good_field_spec|]. split; [|split].
  - intros H. destruct (good_field field_array) eqn:E; [|reflexivity].
    apply good_field_spec in E as [E _]. lia.
  - intros H. destruct (good_field field_array) eqn:E; [|reflexivity].
    apply good_field_spec in E as [_ E]. rewrite Forall_forall in E.
    now apply E, not_valid_token_12a in H.
  - intros before after -> Hl Hv. apply good_field_spec.
    rewrite length_app in *. cbn [List.length]. split; [lia|].
    apply Forall_app in Hv as [Hb Ha]. apply Forall_app. split; [exact Hb|].
    constructor; [apply valid_token_minus_45 | exact Ha].
Qed.

Lemma C5_good_field_iff_witness :
  good_field (repeat "7" 13 ++ "-45" :: repeat "0" 13)%list = true
  /\ good_field (repeat "7" 26) = false
  /\ good_field (repeat "7" 26 ++ ["12a"])%list = false.
Proof.
  split; [|split].
  - destruct (C5_good_field_iff (repeat "7" 13 ++ repeat "0" 13)%list) as (H & _ & _ & Hin).
    apply Hin; [reflexivity | reflexivity |].
    apply good_field_from_spec. reflexivity.
  - destruct (C5_good_field_iff (repeat "7" 26)) as (_ & Hlen & _).
    apply Hlen. left. reflexivity.
  - destruct (C5_good_field_iff (repeat "7" 26 ++ ["12a"])%list) as (_ & _ & H12a & _).
    apply H12a. apply in_or_app. right. now left.
Defined.
(** ** The checksum *)

Lemma ord_range (c : ascii) : (0 <= PyStr.ord c < 256)%Z.
Proof.
  unfold PyStr.ord. pose proof (nat_ascii_bounded c). lia.
Qed.

Lemma byte_sum_nonneg (s : string) : (0 <= byte_sum s)%Z.
Proof.
  induction s as [|c s IH]; cbn [byte_sum]; [lia|].
  pose proof (ord_range c). lia.
Qed.

(** Reducing at every step gives the sum reduced once at the end. *)
Lemma checksum_loop_spec (acc : Z) (s : string) :
  checksum_loop acc s = ((acc + byte_sum s) mod 32768)%Z \/ s = "".
Proof.
  destruct s as [|c s]; [now right | left].
  revert acc c; induction s as [|c' s IH]; intros acc c.
  - cbn [checksum_loop byte_sum]. now rewrite Z.add_0_r.
  - cbn [checksum_loop byte_sum] in *. rewrite IH.
    rewrite Zplus_mod_idemp_l. f_equal. lia.
Qed.

Lemma checksum_loop_0 (s : string) :
  checksum_loop 0 s = (byte_sum s mod 32768)%Z.
Proof.
  destruct (checksum_loop_spec 0 s) as [H| ->]; [exact H | reflexivity].
Qed.

Lemma good_checksum_spec (data_array : string) (read_checksum : Z) :
  good_checksum data_array read_checksum = true <->
  read_checksum = (byte_sum data_array mod 32768)%Z.
Proof.
  unfold good_checksum. rewrite checksum_loop_0.
  destruct (Z.eqb_spec (byte_sum data_array mod 32768) read_checksum); split;
    congruence.
Qed.

(** ** The loop body, stage by stage *)

Lemma parse_row_candidate (row : string) (line_count : nat)
  (found_dtg : MatchObject) (data_string : string) (self : Parser) :
  candidate row = Some (found_dtg, data_string) ->
  parse_row row line_count self =
  (the_data <- lift (rebuild_data (PyStr.split " " data_string)) ;;
   check_and_emit found_dtg (date_group found_dtg 1) the_data line_count) self.
Proof.
  unfold candidate, parse_row.
  destruct (matcher_search NON_DATA_REGEX row); [discriminate|].
  destruct (matcher_search DATE_TIME_REGEX row) as [dtg|]; [|discriminate].
  destruct (matcher_search START_DATA_REGEX row) as [found_data|]; [|discriminate].
  cbv zeta.
  destruct (matcher_search END_DATA_REGEX _); [|discriminate].
  now intros [= -> ->].
Qed.

(** What [check_and_emit] does once the data block splits at its colons
    into a payload and a checksum that [int] accepts. *)
Lemma check_and_emit_split (found_dtg : MatchObject) (dtg the_data : string)
  (line_count : nat) (actual_data checksum_text : string) (rest : list string)
  (read_checksum : Z) (self : Parser) :
  PyStr.split ":" the_data = actual_data :: checksum_text :: rest ->
  py_int checksum_text = inr read_checksum ->
  check_and_emit found_dtg dtg the_data line_count self =
  (if good_checksum actual_data read_checksum then
     if good_field (PyStr.split COMMA actual_data) then
       (tuple <- lift (timestamp_tuple found_dtg) ;;
        timestamp <- lift (get_timestamp tuple) ;;
        fuelcell_data_dict <- lift (generate_data_dict dtg (PyStr.split COMMA actual_data)) ;;
        particle <- extract_sample fuelcell_data_dict timestamp ;;
        record_buffer_append particle)
     else log_warning "Improper format line" line_count
   else log_warning "Bad checksum line" line_count) self.
Proof.
  intros Hs Hi. unfold check_and_emit. cbv zeta. rewrite Hs.
  cbn [getitem nth_error of_option]. unfold bind at 1 2 3. unfold lift at 1 2 3. rewrite Hi.
  destruct (good_checksum actual_data read_checksum); [|reflexivity].
  destruct (good_field (PyStr.split COMMA actual_data)); [|reflexivity].
  unfold timestamp_tuple, bind, lift, bind_result.
  repeat match goal with
         | |- context [py_int ?x] => destruct (py_int x); try reflexivity
         end.
Qed.

(** A row before the data block is cut: which warning each failed search
    gives. *)
Lemma parse_row_not_candidate (row : string) :
  candidate row = None ->
  exists reason,
    In reason ["No fuel cell data on line"; "Bad/Missing Timestamp on line";
               "No data found on line"; "No terminator found on line"] /\
    forall line_count self,
      parse_row row line_count self = log_warning reason line_count self.
Proof.
  unfold candidate, parse_row.
  destruct (matcher_search NON_DATA_REGEX row).
  { intros _. eexists. split; [|reflexivity]. cbn; tauto. }
  destruct (matcher_search DATE_TIME_REGEX row) as [dtg|].
  2:{ intros _. eexists. split; [|reflexivity]. cbn; tauto. }
  destruct (matcher_search START_DATA_REGEX row) as [found_data|].
  2:{ intros _. eexists. split; [|reflexivity]. cbn; tauto. }
  cbv zeta. destruct (matcher_search END_DATA_REGEX _); [discriminate|].
  intros _. eexists. split; [|reflexivity]. cbn; tauto.
Qed.

(** ** Rebuilding the data block *)

Lemma split_nonempty (sep : ascii) (s : string) :
  exists piece pieces, PyStr.split sep s = piece :: pieces.
Proof.
  destruct s as [|c s]; cbn [PyStr.split]; [now eexists; eexists|].
  destruct (Ascii.eqb c sep); [now eexists; eexists|].
  destruct (PyStr.split sep s); now eexists; eexists.
Qed.

Lemma join_cons (piece : string) (pieces : list string) :
  PyStr.join (piece :: pieces) = piece ++ PyStr.join pieces.
Proof. reflexivity. Qed.

(** The loop that appends pieces [a] to [a + n - 1] to what has been
    gathered. *)
Lemma rebuild_loop (data_part before after : list string) (n : nat) (acc : string) :
  data_part = (before ++ after)%list -> n <= List.length after ->
  fold_left
    (fun the_data x =>
       let? acc := the_data in
       let? piece := getitem data_part x in
       inr (acc ++ piece))
    (seq (List.length before) n) (inr acc)
  = inr (acc ++ PyStr.join (firstn n after)).
Proof.
  set (step := fun (the_data : result string) (x : nat) =>
                 let? acc := the_data in
                 let? piece := getitem data_part x in
                 inr (acc ++ piece)).
  revert before after acc; induction n as [|n IH]; intros before after acc E Hn.
  - cbn. now rewrite append_nil_r.
  - destruct after as [|piece after]; [cbn in Hn; lia|].
    cbn [seq fold_left firstn].
    assert (Hstep : step (inr acc) (List.length before) = inr (acc ++ piece)).
    { unfold step, getitem. rewrite E, nth_error_app2 by lia.
      now rewrite Nat.sub_diag. }
    rewrite Hstep.
    replace (S (List.length before)) with (List.length (before ++ [piece])%list)
      by (rewrite length_app; cbn; lia).
    rewrite (IH (before ++ [piece])%list after);
      [| now rewrite <- app_assoc | cbn in Hn; lia].
    now rewrite join_cons, append_assoc.
Qed.

(** The data block is the first piece followed by every other piece but
    the last. *)
Lemma rebuild_data_cons (first : string) (rest : list string) :
  rebuild_data (first :: rest) = inr (first ++ PyStr.join (removelast rest)).
Proof.
  unfold rebuild_data. cbn [List.length].
  destruct (S (List.length rest) =? 2)%nat eqn:E2.
  - apply Nat.eqb_eq in E2. destruct rest as [|x [|y rest]]; cbn in E2; try lia.
    cbn. now rewrite append_nil_r.
  - cbn [getitem nth_error of_option bind_result].
    replace (S (List.length rest) - 1 - 1) with (List.length rest - 1) by lia.
    rewrite (rebuild_loop (first :: rest) [first] rest); [|reflexivity | lia].
    f_equal. f_equal. f_equal.
    rewrite removelast_firstn_len. f_equal. lia.
Qed.

Lemma rebuild_data_join (data_part : list string) :
  2 <= List.length data_part ->
  rebuild_data data_part = inr (PyStr.join (removelast data_part)).
Proof.
  destruct data_part as [|first [|second rest]]; cbn [List.length]; try lia.
  intros _. rewrite rebuild_data_cons. reflexivity.
Qed.

Lemma rebuild_data_split (sep : ascii) (s : string) :
  exists the_data, rebuild_data (PyStr.split sep s) = inr the_data.
Proof.
  destruct (split_nonempty sep s) as (piece & pieces & ->).
  rewrite rebuild_data_cons. now eexists.
Qed.
(** ** What one row does *)

(** A candidate row fails one of the two gates, or gives one record, or
    raises: which, and with what, depends on the row alone. *)
Lemma parse_row_candidate_cases (row : string) (found_dtg : MatchObject)
  (data_string : string) :
  candidate row = Some (found_dtg, data_string) ->
  (exists reason,
      In reason ["Improper format line"; "Bad checksum line"] /\
      forall line_count self,
        parse_row row line_count self = log_warning reason line_count self)
  \/ (exists d timestamp,
         (forall cls,
             built_from cls row
               {| particle_class := cls; raw_data := d;
                  internal_timestamp := timestamp |}) /\
         forall line_count self,
           parse_row row line_count self =
           record_buffer_append
             {| particle_class := fuelcell_data_class self; raw_data := d;
                internal_timestamp := timestamp |} self)
  \/ (exists e,
         forall line_count self, parse_row row line_count self = (self, inl e)).
Proof.
  intros Ec.
  destruct (rebuild_data_split " " data_string) as (the_data & Hr).
  assert (Hrow : forall n self,
             parse_row row n self =
             check_and_emit found_dtg (date_group found_dtg 1) the_data n self).
  { intros n self. rewrite (parse_row_candidate row n found_dtg data_string self Ec).
    unfold bind at 1, lift at 1. now rewrite Hr. }
  destruct (PyStr.split ":" the_data) as [|actual_data [|checksum_text rest]] eqn:Es.
  { right; right. exists IndexError. intros n self. rewrite Hrow.
    unfold check_and_emit. cbv zeta. now rewrite Es. }
  { right; right. exists IndexError. intros n self. rewrite Hrow.
    unfold check_and_emit. cbv zeta. now rewrite Es. }
  destruct (py_int checksum_text) as [e|read_checksum] eqn:Ei.
  { right; right. exists e. intros n self. rewrite Hrow.
    unfold check_and_emit. cbv zeta. rewrite Es.
    cbn [getitem nth_error of_option]. unfold bind at 1 2 3, lift at 1 2 3.
    now rewrite Ei. }
  assert (Hsplit := fun n self =>
            check_and_emit_split found_dtg (date_group found_dtg 1) the_data n
              actual_data checksum_text rest read_checksum self Es Ei).
  destruct (good_checksum actual_data read_checksum) eqn:Egc.
  2:{ left. exists "Bad checksum line". split; [cbn; tauto|].
      intros n self. now rewrite Hrow, Hsplit. }
  destruct (good_field (PyStr.split COMMA actual_data)) eqn:Egf.
  2:{ left. exists "Improper format line". split; [cbn; tauto|].
      intros n self. now rewrite Hrow, Hsplit. }
  right.
  destruct (timestamp_tuple found_dtg) as [e|tuple] eqn:Et.
  { right. exists e. intros n self. rewrite Hrow, Hsplit. reflexivity. }
  destruct (get_timestamp tuple) as [e|timestamp] eqn:Eg.
  { right. exists e. intros n self. rewrite Hrow, Hsplit.
    unfold bind, lift. cbv beta iota. now rewrite Eg. }
  destruct (generate_data_dict (date_group found_dtg 1) (PyStr.split COMMA actual_data))
    as [e|d] eqn:Ed.
  { right. exists e. intros n self. rewrite Hrow, Hsplit.
    unfold bind, lift. cbv beta iota. now rewrite Eg. }
  left. exists d, timestamp. split.
  - intros cls. exists found_dtg, data_string, the_data, actual_data, checksum_text,
      rest, read_checksum, tuple. cbn [internal_timestamp raw_data particle_class].
    repeat split; assumption.
  - intros n self. rewrite Hrow, Hsplit.
    unfold bind, lift. cbv beta iota. now rewrite Eg.
Qed.

(** A row gives one warning, or one record, or raises: which of the three
    and with what depends on the row alone, not on the line number or on what
    the parser holds. *)
Lemma parse_row_cases (row : string) :
  (exists reason,
      In reason REASONS /\
      forall line_count self,
        parse_row row line_count self = log_warning reason line_count self)
  \/ (exists d timestamp,
         (forall cls,
             built_from cls row
               {| particle_class := cls; raw_data := d;
                  internal_timestamp := timestamp |}) /\
         forall line_count self,
           parse_row row line_count self =
           record_buffer_append
             {| particle_class := fuelcell_data_class self; raw_data := d;
                internal_timestamp := timestamp |} self)
  \/ (exists e,
         forall line_count self, parse_row row line_count self = (self, inl e)).
Proof.
  destruct (candidate row) as [[found_dtg data_string]|] eqn:Ec.
  - destruct (parse_row_candidate_cases row found_dtg data_string Ec)
      as [(reason & Hin & H)|[H|H]]; [left | right; now left | right; now right].
    exists reason. split; [|exact H]. cbn in Hin |- *. tauto.
  - left. destruct (parse_row_not_candidate row Ec) as (reason & Hin & H).
    exists reason. split; [|exact H]. cbn in Hin |- *. tauto.
Qed.

(** ** The record buffer *)

Lemma row_records_cases (cls : FuelCellEngDataParticleType) (row : string) :
  (row_records cls row = [] /\
   forall line_count self,
     record_buffer (fst (parse_row row line_count self)) = record_buffer self /\
     fuelcell_data_class (fst (parse_row row line_count self))
       = fuelcell_data_class self)
  \/ (exists p,
         row_records cls row = [p] /\ built_from cls row p /\
         forall line_count self,
           fuelcell_data_class self = cls ->
           parse_row row line_count self = record_buffer_append p self).
Proof.
  unfold row_records.
  destruct (parse_row_cases row) as [(reason & _ & H)|[(d & ts & Hb & H)|(e & H)]].
  - left. split; [now rewrite H|]. intros n self. now rewrite H.
  - right. eexists. split; [now rewrite H|]. split; [apply Hb|].
    intros n self <-. now rewrite H.
  - left. split; [now rewrite H|]. intros n self. now rewrite H.
Qed.

Lemma parse_loop_buffer (file_handle : list string) (line_count : nat) (self : Parser) :
  exists k,
    k <= List.length (rows_read file_handle) /\
    (snd (parse_loop file_handle line_count self) = inr tt ->
     k = List.length (rows_read file_handle)) /\
    record_buffer (fst (parse_loop file_handle line_count self)) =
    (record_buffer self ++
     flat_map (row_records (fuelcell_data_class self))
       (firstn k (rows_read file_handle)))%list.
Proof.
  revert line_count self.
  induction file_handle as [|row rest IH]; intros n self.
  - exists 0. cbn. rewrite app_nil_r. auto.
  - destruct row as [|c row].
    + exists 0. cbn. rewrite app_nil_r. auto.
    + cbn [parse_loop rows_read List.length]. unfold bind.
      set (r := String c row).
      destruct (parse_row r (n + 1) self) as [self1 [e|[]]] eqn:Ep.
      * exists 0. cbn [fst snd firstn flat_map]. rewrite app_nil_r.
        split; [lia|]. split; [discriminate|].
        destruct (row_records_cases (fuelcell_data_class self) r)
          as [[_ H]|(p & _ & _ & H)].
        -- specialize (H (n + 1) self). now rewrite Ep in H.
        -- rewrite H in Ep by reflexivity. discriminate.
      * destruct (row_records_cases (fuelcell_data_class self) r)
          as [[Hr H]|(p & Hr & _ & H)].
        -- destruct (H (n + 1) self) as [Hbuf Hcls]. rewrite Ep in Hbuf, Hcls.
           cbn [fst] in Hbuf, Hcls.
           destruct (IH (n + 1) self1) as (k & Hk & Hall & Hb).
           exists (S k). cbn [firstn flat_map]. rewrite Hr. cbn [app].
           rewrite Hb, Hbuf, Hcls. split; [lia|]. split; [|reflexivity].
           intros Hok. now rewrite (Hall Hok).
        -- rewrite H in Ep by reflexivity. injection Ep as <-.
           destruct (IH (n + 1) (fst (record_buffer_append p self)))
             as (k & Hk & Hall & Hb).
           exists (S k). cbn [firstn flat_map]. rewrite Hr.
           cbn [record_buffer_append fst record_buffer fuelcell_data_class] in Hb, Hall |- *.
           rewrite Hb, <- app_assoc. split; [lia|]. split; [|reflexivity].
           intros Hok. now rewrite (Hall Hok).
Qed.

(** C1: after [parse_file] the record buffer is what it was followed by,
    in the order of the rows, the records of the rows read (all rows of the
    file when [parse_file] returns, those before the raising row otherwise):
    nothing is reordered and no record is dropped as a duplicate.  A row
    contributes at most one record, and only when it is a candidate whose
    payload passed [good_checksum] against the checksum read and whose fields
    passed [good_field]. *)
Theorem C1_buffer_validated_in_order (file_handle : list string) (self : Parser) :
  let cls := fuelcell_data_class self in
  (exists k,
      k <= List.length (rows_read file_handle) /\
      (snd (parse_file file_handle self) = inr tt ->
       k = List.length (rows_read file_handle)) /\
      record_buffer (fst (parse_file file_handle self)) =
      (record_buffer self ++
       flat_map (row_records cls) (firstn k (rows_read file_handle)))%list)
  /\ (forall row p,
         In p (row_records cls row) ->
         row_records cls row = [p] /\ built_from cls row p).
Proof.
  intros cls. split; [apply parse_loop_buffer|].
  intros row p Hin.
  destruct (row_records_cases cls row) as [[Hr _]|(q & Hr & Hb & _)];
    rewrite Hr in Hin; cbn in Hin; [contradiction|].
  destruct Hin as [<-|[]]. now split.
Qed.

(** ** The checksum gate *)

(** C4: [good_checksum] accepts a payload with the checksum that is the sum
    of its byte values modulo 32768, and rejects it with that checksum plus
    one modulo 32768; a candidate row whose data block splits into such a
    payload and such a checksum gets the "Bad checksum line" warning from
    [parse_row] and nothing else happens. *)
Theorem C4_checksum_accepts_sum_rejects_next (P : string) :
  let C := (byte_sum P mod 32768)%Z in
  good_checksum P C = true
  /\ good_checksum P ((C + 1) mod 32768) = false
  /\ (forall row found_dtg data_string the_data checksum_text rest line_count self,
         candidate row = Some (found_dtg, data_string) ->
         rebuild_data (PyStr.split " " data_string) = inr the_data ->
         PyStr.split ":" the_data = P :: checksum_text :: rest ->
         py_int checksum_text = inr ((C + 1) mod 32768)%Z ->
         parse_row row line_count self
         = log_warning "Bad checksum line" line_count self).
Proof.
  intros C.
  assert (Hrej : good_checksum P ((C + 1) mod 32768) = false).
  { destruct (good_checksum P ((C + 1) mod 32768)) eqn:E; [|reflexivity].
    apply good_checksum_spec in E. fold C in E.
    assert (0 <= C < 32768)%Z by (apply Z.mod_pos_bound; lia).
    destruct (Z.eq_dec C 32767) as [->|Hne].
    - vm_compute in E. discriminate.
    - rewrite Z.mod_small in E by lia. lia. }
  split; [now apply good_checksum_spec|]. split; [exact Hrej|].
  intros row found_dtg data_string the_data checksum_text rest n self Hc Hr Hs Hi.
  rewrite (parse_row_candidate row n found_dtg data_string self Hc).
  unfold bind at 1, lift at 1. rewrite Hr.
  rewrite (check_and_emit_split _ _ _ _ _ _ _ _ _ Hs Hi).
  now rewrite Hrej.
Qed.

Lemma C4_checksum_accepts_sum_rejects_next_witness :
  good_checksum sample_payload 8002 = true
  /\ good_checksum sample_payload 8003 = false
  /\ parse_row (sample_row sample_payload "8003") 3 (fresh FUELCELL_ENG_DCL_RECOVERED)
     = log_warning "Bad checksum line" 3 (fresh FUELCELL_ENG_DCL_RECOVERED).
Proof.
  destruct (C4_checksum_accepts_sum_rejects_next sample_payload) as (Hok & Hbad & Hrow).
  split; [exact Hok|]. split; [exact Hbad|].
  eapply Hrow; vm_compute; reflexivity.
Defined.

(** ** The data block *)

(** C7: when the text after the start anchor of a candidate row splits at
    single spaces into more than two pieces, the data block is the pieces but
    the last one put together with nothing between them, and that block is
    what goes on to the split at the colon and the two gates. *)
Theorem C7_rebuild_joins_all_but_last (row : string) (found_dtg : MatchObject)
  (data_string : string) (line_count : nat) (self : Parser) :
  candidate row = Some (found_dtg, data_string) ->
  2 < List.length (PyStr.split " " data_string) ->
  let the_data := PyStr.join (removelast (PyStr.split " " data_string)) in
  rebuild_data (PyStr.split " " data_string) = inr the_data
  /\ parse_row row line_count self
     = check_and_emit found_dtg (date_group found_dtg 1) the_data line_count self.
Proof.
  intros Hc Hlen the_data.
  assert (Hr : rebuild_data (PyStr.split " " data_string) = inr the_data)
    by (apply rebuild_data_join; lia).
  split; [exact Hr|].
  rewrite (parse_row_candidate row line_count found_dtg data_string self Hc).
  unfold bind, lift. now rewrite Hr.
Qed.

Lemma C7_rebuild_joins_all_but_last_witness :
  let row := sample_row sample_payload_spaced "8002" in
  let found_dtg := {| m_string := row; m_start := 0 |} in
  let data_string := sample_payload_spaced ++ ":8002 6d47" ++ line_end in
  let self := fresh FUELCELL_ENG_DCL_TELEMETERED in
  rebuild_data (PyStr.split " " data_string) = inr (sample_payload ++ ":8002")
  /\ parse_row row 1 self
     = check_and_emit found_dtg "2015/03/10 14:22:05.500" (sample_payload ++ ":8002") 1 self.
Proof.
  intros row found_dtg data_string self.
  apply (C7_rebuild_joins_all_but_last row found_dtg data_string 1 self).
  - vm_compute. reflexivity.
  - vm_compute. lia.
Defined.

(** ** The shape of what the patterns match *)

Lemma matches_Class_inv (p : ascii -> bool) (s : string) :
  matches (Class p) s <-> exists c, s = String c "" /\ p c = true.
Proof.
  split.
  - intros H; inversion H; subst. now eexists.
  - intros (c & -> & H). now constructor.
Qed.

Lemma matches_Chr_inv (c : ascii) (s : string) :
  matches (Chr c) s <-> s = String c "".
Proof.
  unfold Chr. rewrite matches_Class_inv. split.
  - intros (c' & -> & H). apply Ascii.eqb_eq in H. now subst.
  - intros ->. exists c. split; [reflexivity | apply Ascii.eqb_refl].
Qed.

Lemma matches_Cat_inv (r1 r2 : regex) (s : string) :
  matches (Cat r1 r2) s <->
  exists s1 s2, s = s1 ++ s2 /\ matches r1 s1 /\ matches r2 s2.
Proof.
  split.
  - intros H; inversion H; subst. now eexists; eexists.
  - intros (s1 & s2 & -> & H1 & H2). now constructor.
Qed.

Lemma matches_Opt_inv (r : regex) (s : string) :
  matches (Opt r) s <-> s = "" \/ matches r s.
Proof.
  unfold Opt. split.
  - intros H; inversion H; subst; [left; now apply matches_Eps | now right].
  - intros [->|H]; [apply MAltL; constructor | now apply MAltR].
Qed.

Lemma matches_Star_Class (p : ascii -> bool) (s : string) :
  matches (Star (Class p)) s <-> PyStr.all_chars p s = true.
Proof.
  split.
  - intros H. remember (Star (Class p)) as r eqn:Er.
    induction H; try discriminate; [reflexivity|].
    injection Er as ->. inversion H; subst.
    cbn [String.append PyStr.all_chars]. rewrite IHmatches2 by reflexivity.
    now rewrite andb_true_r.
  - induction s as [|c s IH]; cbn [PyStr.all_chars]; intros H; [constructor|].
    apply andb_true_iff in H as [Hc Hs].
    change (String c s) with (String c "" ++ s).
    apply MStarApp; [now constructor | now apply IH].
Qed.

Lemma matches_Plus_Class (p : ascii -> bool) (s : string) :
  matches (Plus (Class p)) s <-> s <> "" /\ PyStr.all_chars p s = true.
Proof.
  unfold Plus. rewrite matches_Cat_inv. split.
  - intros (s1 & s2 & -> & H1 & H2). apply matches_Class_inv in H1 as (c & -> & Hc).
    apply matches_Star_Class in H2. cbn [String.append PyStr.all_chars].
    rewrite Hc, H2. split; [discriminate | reflexivity].
  - intros [Hne H]. destruct s as [|c s]; [congruence|].
    cbn [PyStr.all_chars] in H. apply andb_true_iff in H as [Hc Hs].
    exists (String c ""), s. split; [reflexivity|]. split.
    + now constructor.
    + now apply matches_Star_Class.
Qed.

Lemma matches_Sign_opt (s : string) :
  matches (Opt Sign) s <-> s = "" \/ s = "+" \/ s = "-".
Proof.
  rewrite matches_Opt_inv. unfold Sign. rewrite matches_Class_inv. split.
  - intros [->|(c & -> & H)]; [now left | right].
    apply orb_true_iff in H as [H|H]; apply Ascii.eqb_eq in H; subst; auto.
  - intros [->|[->| ->]]; [now left | right; now eexists | right; now eexists].
Qed.

Lemma isdigit_all_chars (s : string) :
  PyStr.isdigit s = true <-> s <> "" /\ PyStr.all_chars PyStr.is_digit s = true.
Proof.
  destruct s as [|c s]; unfold PyStr.isdigit.
  - split; [discriminate | now intros [H _]].
  - split; [intros H; split; [discriminate | exact H] | now intros [_ H]].
Qed.

(** [( [+-]?[0-9]+,)] matches a space, an optional sign, digits, a comma. *)
Lemma matches_START_DATA (u : string) :
  matches START_DATA_REGEX u <->
  exists sign digits,
    u = " " ++ sign ++ digits ++ "," /\
    (sign = "" \/ sign = "+" \/ sign = "-") /\ PyStr.isdigit digits = true.
Proof.
  unfold START_DATA_REGEX. split.
  - intros H.
    apply matches_Cat_inv in H as (s1 & t1 & -> & H1 & H).
    apply matches_Cat_inv in H as (s2 & t2 & -> & H2 & H).
    apply matches_Cat_inv in H as (s3 & t3 & -> & H3 & H4).
    apply matches_Chr_inv in H1 as ->. apply matches_Chr_inv in H4 as ->.
    apply matches_Sign_opt in H2. apply matches_Plus_Class in H3.
    exists s2, s3. split; [reflexivity|]. split; [exact H2|].
    now apply isdigit_all_chars.
  - intros (sign & digits & -> & Hs & Hd).
    apply isdigit_all_chars in Hd.
    apply matches_Cat_inv. exists " ", (sign ++ digits ++ ","). split; [reflexivity|].
    split; [now apply matches_Chr_inv|].
    apply matches_Cat_inv. exists sign, (digits ++ ","). split; [reflexivity|].
    split; [now apply matches_Sign_opt|].
    apply matches_Cat_inv. exists digits, ",". split; [reflexivity|].
    split; [now apply matches_Plus_Class | now apply matches_Chr_inv].
Qed.

(** [(: ?[+-]?[0-9]+ [0-9A-Fa-f]+)] matches a colon, an optional space, an
    optional sign, digits, a space, hexadecimal digits. *)
Lemma matches_END_DATA (u : string) :
  matches END_DATA_REGEX u <->
  exists space sign digits hex,
    u = ":" ++ space ++ sign ++ digits ++ " " ++ hex /\
    (space = "" \/ space = " ") /\
    (sign = "" \/ sign = "+" \/ sign = "-") /\
    PyStr.isdigit digits = true /\
    hex <> "" /\ PyStr.all_chars PyStr.is_hexdigit hex = true.
Proof.
  unfold END_DATA_REGEX. split.
  - intros H.
    apply matches_Cat_inv in H as (s1 & t1 & -> & H1 & H).
    apply matches_Cat_inv in H as (s2 & t2 & -> & H2 & H).
    apply matches_Cat_inv in H as (s3 & t3 & -> & H3 & H).
    apply matches_Cat_inv in H as (s4 & t4 & -> & H4 & H).
    apply matches_Cat_inv in H as (s5 & t5 & -> & H5 & H6).
    apply matches_Chr_inv in H1 as ->. apply matches_Chr_inv in H5 as ->.
    apply matches_Opt_inv in H2. rewrite matches_Chr_inv in H2.
    apply matches_Sign_opt in H3. apply matches_Plus_Class in H4.
    apply matches_Plus_Class in H6 as [H6 H7].
    exists s2, s3, s4, t5. split; [reflexivity|].
    repeat split; try assumption. now apply isdigit_all_chars.
  - intros (space & sign & digits & hex & -> & Hsp & Hs & Hd & Hne & Hh).
    apply isdigit_all_chars in Hd.
    apply matches_Cat_inv. eexists; eexists. split; [reflexivity|].
    split; [now apply matches_Chr_inv|].
    apply matches_Cat_inv. eexists; eexists. split; [reflexivity|].
    split; [apply matches_Opt_inv; now rewrite matches_Chr_inv|].
    apply matches_Cat_inv. eexists; eexists. split; [reflexivity|].
    split; [now apply matches_Sign_opt|].
    apply matches_Cat_inv. eexists; eexists. split; [reflexivity|].
    split; [now apply matches_Plus_Class|].
    apply matches_Cat_inv. exists " ", hex. split; [reflexivity|].
    split; [now apply matches_Chr_inv | now apply matches_Plus_Class].
Qed.

(** A search succeeds exactly when the string holds a match somewhere. *)
Lemma search_found (r : regex) (s : string) :
  search r s <> None <->
  exists before u after, s = before ++ u ++ after /\ matches r u.
Proof.
  split.
  - intros H. destruct (search r s) as [i|] eqn:Es; [|congruence].
    apply search_Some in Es as (Hm & _ & _).
    apply match_here_spec in Hm as (u & v & E & Hu).
    exists (PyStr.slice_to i s), u, v. split; [|exact Hu].
    now rewrite <- E, slice_to_from.
  - intros (before & u & after & -> & Hu) Hn.
    rewrite search_None in Hn. specialize (Hn (String.length before)).
    rewrite slice_from_app in Hn.
    assert (match_here r (u ++ after) = true); [|congruence].
    apply match_here_spec. now exists u, after.
Qed.

(** ** The end anchor *)

Lemma matcher_search_None (r : regex) (s : string) :
  matcher_search r s = None <-> search r s = None.
Proof.
  unfold matcher_search. destruct (search r s); cbn; split; congruence.
Qed.

Lemma has_terminator_search (data_string : string) :
  has_terminator data_string <-> search END_DATA_REGEX data_string <> None.
Proof.
  rewrite search_found. split.
  - intros (before & space & sign & digits & hex & after & -> & H).
    exists before, (":" ++ space ++ sign ++ digits ++ " " ++ hex), after.
    split.
    + repeat (rewrite ?append_assoc; cbn [String.append]). reflexivity.
    + apply matches_END_DATA. now exists space, sign, digits, hex.
  - intros (before & u & after & -> & Hu).
    apply matches_END_DATA in Hu as (space & sign & digits & hex & -> & H).
    exists before, space, sign, digits, hex, after. split; [|exact H].
    repeat (rewrite ?append_assoc; cbn [String.append]). reflexivity.
Qed.

Lemma log_warning_received (msg_text : string) (n : nat) (self : Parser) :
  log_warning msg_text n self =
  ({| fuelcell_data_class := fuelcell_data_class self;
      record_buffer := record_buffer self;
      callback_received :=
        (callback_received self ++
         [{| exc_msg := msg_text ++ " %d - No particle generated"; exc_arg := n |}])%list |},
   inr tt).
Proof. reflexivity. Qed.

(** A candidate row never gets the warning of the missing terminator. *)
Lemma candidate_not_no_terminator (row : string) (found_dtg : MatchObject)
  (data_string : string) :
  candidate row = Some (found_dtg, data_string) ->
  parse_row row 0 (fresh FUELCELL_ENG_DCL_RECOVERED)
  <> log_warning "No terminator found on line" 0 (fresh FUELCELL_ENG_DCL_RECOVERED).
Proof.
  intros Ec.
  destruct (parse_row_candidate_cases row found_dtg data_string Ec)
    as [(reason & Hin & H)|[(d & ts & _ & H)|(e & H)]]; rewrite H.
  - cbn in Hin. destruct Hin as [<-|[<-|[]]]; rewrite !log_warning_received;
      cbn; intros E; discriminate E.
  - rewrite log_warning_received. cbn. discriminate.
  - rewrite log_warning_received. discriminate.
Qed.

(** C8, as the code has it: the end anchor is searched for, not matched at
    the end of the line.  On a row with a timestamp and a start anchor that
    is not a no-data line, the row goes on to the checksum exactly when the
    text after the start anchor holds the terminator pattern somewhere; it
    gets the "No terminator found on line" warning exactly when that text
    holds the pattern nowhere; and text after the pattern changes nothing to
    its being found. *)
Theorem C8_terminator_found_anywhere (row : string)
  (found_dtg found_data : MatchObject) :
  matcher_search NON_DATA_REGEX row = None ->
  matcher_search DATE_TIME_REGEX row = Some found_dtg ->
  matcher_search START_DATA_REGEX row = Some found_data ->
  let data_string := PyStr.slice_from (m_start found_data + 1) row in
  (has_terminator data_string <-> candidate row = Some (found_dtg, data_string))
  /\ (~ has_terminator data_string <->
      forall line_count self,
        parse_row row line_count self
        = log_warning "No terminator found on line" line_count self)
  /\ (forall trailing,
         has_terminator data_string -> has_terminator (data_string ++ trailing)).
Proof.
  intros Hn Hd Hs data_string.
  assert (Hc : has_terminator data_string <->
               candidate row = Some (found_dtg, data_string)).
  { rewrite has_terminator_search, <- matcher_search_None.
    unfold candidate. rewrite Hn, Hd, Hs. cbv zeta. fold data_string.
    destruct (matcher_search END_DATA_REGEX data_string); split; congruence. }
  split; [exact Hc|]. split.
  - split.
    + intros Hnt n self. unfold parse_row. rewrite Hn, Hd, Hs. cbv zeta.
      fold data_string.
      destruct (matcher_search END_DATA_REGEX data_string) eqn:Ee; [|reflexivity].
      exfalso. apply Hnt. apply has_terminator_search.
      rewrite <- matcher_search_None. congruence.
    + intros Hall Ht. apply Hc in Ht.
      apply (candidate_not_no_terminator row found_dtg data_string Ht), Hall.
  - intros trailing (before & space & sign & digits & hex & after & -> & H).
    exists before, space, sign, digits, hex, (after ++ trailing). split; [|exact H].
    repeat (rewrite ?append_assoc; cbn [String.append]). reflexivity.
Qed.

Lemma C8_terminator_found_anywhere_witness :
  candidate sample_row_trailing
  = Some ({| m_string := sample_row_trailing; m_start := 0 |},
          sample_payload ++ ":8002 6d47,trailing" ++ line_end).
Proof.
  apply (C8_terminator_found_anywhere sample_row_trailing
           {| m_string := sample_row_trailing; m_start := 0 |}
           {| m_string := sample_row_trailing;
              m_start := String.length sample_prefix - 1 |});
    try (vm_compute; reflexivity).
  exists sample_payload, "", "", "8002", "6d47", ("," ++ "trailing" ++ line_end).
  repeat split; try (vm_compute; reflexivity); auto. discriminate.
Defined.

(** The terminator pattern of this row is followed by more text, and the
    row is not skipped for a missing terminator: it gives a record. *)
Lemma C8_counterexample :
  sample_row_trailing
  = sample_prefix ++ sample_payload ++ ":8002 6d47" ++ ",trailing" ++ line_end
  /\ List.length
       (record_buffer
          (fst (parse_row sample_row_trailing 1 (fresh FUELCELL_ENG_DCL_RECOVERED))))
     = 1
  /\ callback_received
       (fst (parse_row sample_row_trailing 1 (fresh FUELCELL_ENG_DCL_RECOVERED)))
     = [].
Proof. vm_compute. repeat split. Qed.

(** ** A payload that starts with a plus sign *)



Lemma all_chars_impl (p q : ascii -> bool) (s : string) :
  (forall c, p c = true -> q c = true) ->
  PyStr.all_chars p s = true -> PyStr.all_chars q s = true.
Proof.
  intros Hpq. induction s as [|c s IH]; cbn [PyStr.all_chars]; [reflexivity|].
  intros H. apply andb_true_iff in H as [Hc Hs]. now rewrite (Hpq c Hc), IH.
Qed.

Lemma all_chars_app (p : ascii -> bool) (s t : string) :
  PyStr.all_chars p (s ++ t) = PyStr.all_chars p s && PyStr.all_chars p t.
Proof.
  induction s as [|c s IH]; cbn [PyStr.all_chars String.append]; [reflexivity|].
  now rewrite IH, andb_assoc.
Qed.

(** A digit is none of the three separators, nor a sign. *)
Lemma is_digit_not_special (c : ascii) :
  PyStr.is_digit c = true ->
  negb (Ascii.eqb c " ") = true /\ negb (Ascii.eqb c ":") = true /\
  negb (Ascii.eqb c ",") = true /\ negb (Ascii.eqb c "+") = true.
Proof.
  destruct c as [[] [] [] [] [] [] [] []]; vm_compute; intros H;
    try discriminate; repeat split.
Qed.








(** ** The timestamp *)

Module CalendarFacts.
Import Calendar CivilTime.
Local Open Scope Z_scope.

Lemma days_before_year_succ (year : Z) :
  days_before_year (year + 1) = days_before_year year + days_in_year year.
Proof.
  unfold days_before_year, days_in_year, is_leap. cbv zeta.
  replace (year + 1 - 1) with year by lia.
  destruct (Z.eqb_spec (year mod 4) 0) as [H4|H4];
    destruct (Z.eqb_spec (year mod 100) 0) as [H100|H100];
    destruct (Z.eqb_spec (year mod 400) 0) as [H400|H400];
    cbn [andb orb negb]; Z.div_mod_to_equations; lia.
Qed.

Lemma sum_from_years (lo : Z) (n : nat) :
  sum_from days_in_year lo n = days_before_year (lo + Z.of_nat n) - days_before_year lo.
Proof.
  induction n as [|n IH]; cbn [sum_from].
  - rewrite Z.add_0_r. lia.
  - rewrite IH. replace (lo + Z.of_nat (S n)) with (lo + Z.of_nat n + 1) by lia.
    rewrite days_before_year_succ. lia.
Qed.

Lemma sum_range_years (lo hi : Z) :
  lo <= hi ->
  sum_range days_in_year lo hi = days_before_year hi - days_before_year lo.
Proof.
  intros H. unfold sum_range. rewrite sum_from_years. do 2 f_equal. lia.
Qed.

Lemma days_before_month_sum (year month : Z) :
  1 <= month <= 12 ->
  days_before_month year month = sum_range (days_in_month year) 1 month.
Proof.
  intros H.
  assert (Hm : month = 1 \/ month = 2 \/ month = 3 \/ month = 4 \/ month = 5 \/
               month = 6 \/ month = 7 \/ month = 8 \/ month = 9 \/ month = 10 \/
               month = 11 \/ month = 12) by lia.
  unfold days_before_month, sum_range, days_in_month.
  destruct (is_leap year);
    repeat (destruct Hm as [->|Hm]; [reflexivity|]); subst; reflexivity.
Qed.

Lemma fits_c_int_spec (z : Z) :
  fits_c_int z = true <-> -2147483648 <= z <= 2147483647.
Proof.
  unfold fits_c_int, INT_MIN, INT_MAX. rewrite andb_true_iff, !Z.leb_le. reflexivity.
Qed.

Lemma first_of_month_on_the_calendar (year month : Z) :
  1 <= year <= 9999 -> 1 <= month <= 12 ->
  first_of_month_toordinal year month
  = inr (days_before_year year + days_before_month year month + 1).
Proof.
  intros Hy Hm. unfold first_of_month_toordinal, MINYEAR, MAXYEAR.
  replace (fits_c_int year) with true by (symmetry; apply fits_c_int_spec; lia).
  replace (fits_c_int month) with true by (symmetry; apply fits_c_int_spec; lia).
  cbn [andb negb].
  replace ((1 <=? year) && (year <=? 9999) && (1 <=? month) && (month <=? 12))%bool
    with true
    by (symmetry; repeat (apply andb_true_iff; split); apply Z.leb_le; lia).
  reflexivity.
Qed.

(** Off the calendar, the year and the month fitting C [int]s. *)
Lemma first_of_month_off_the_calendar (year month : Z) :
  -2147483648 <= year <= 2147483647 -> -2147483648 <= month <= 2147483647 ->
  ~ (1 <= year <= 9999 /\ 1 <= month <= 12) ->
  first_of_month_toordinal year month = inl ValueError.
Proof.
  intros Hy Hm Hn. unfold first_of_month_toordinal, MINYEAR, MAXYEAR.
  replace (fits_c_int year) with true by (symmetry; apply fits_c_int_spec; lia).
  replace (fits_c_int month) with true by (symmetry; apply fits_c_int_spec; lia).
  cbn [andb negb].
  destruct ((1 <=? year) && (year <=? 9999) && (1 <=? month) && (month <=? 12))%bool
    eqn:E; [|reflexivity].
  exfalso. apply Hn.
  repeat (apply andb_true_iff in E as [E ?]).
  repeat match goal with H : (_ <=? _) = true |- _ => apply Z.leb_le in H end.
  lia.
Qed.

(** A year or a month that does not fit a C [int]. *)
Lemma first_of_month_beyond_c_int (year month : Z) :
  ~ (-2147483648 <= year <= 2147483647 /\ -2147483648 <= month <= 2147483647) ->
  first_of_month_toordinal year month = inl OverflowError.
Proof.
  intros Hn. unfold first_of_month_toordinal.
  destruct (fits_c_int year) eqn:Ey; [|reflexivity].
  destruct (fits_c_int month) eqn:Em; [|reflexivity].
  exfalso. apply Hn. split; now apply fits_c_int_spec.
Qed.

(** [timegm] counts the seconds of the calendar. *)
Lemma timegm_unix_seconds (year month day hour minute second : Z) :
  1 <= year <= 9999 -> 1 <= month <= 12 ->
  timegm (year, month, day, hour, minute, second)
  = inr (unix_seconds year month day hour minute second).
Proof.
  intros Hy Hm. unfold timegm.
  rewrite (first_of_month_on_the_calendar year month Hy Hm).
  cbn [bind_result]. f_equal.
  unfold unix_seconds, days_since_epoch.
  rewrite <- (days_before_month_sum year month Hm).
  assert (Hyears : (if 1970 <=? year then sum_range days_in_year 1970 year
                    else - sum_range days_in_year year 1970)
                   = days_before_year year - 719162).
  { change 719162 with (days_before_year 1970).
    destruct (Z.leb_spec 1970 year); rewrite sum_range_years by lia; lia. }
  rewrite Hyears. unfold EPOCH_ORD. lia.
Qed.

End CalendarFacts.

(** *** Integers within and beyond the range of a float *)

Module FloatFacts.
Local Open Scope Z_scope.

Lemma digits2_pos_bounds (m : positive) :
  2 ^ (Zpos (digits2_pos m) - 1) <= Zpos m < 2 ^ Zpos (digits2_pos m).
Proof.
  induction m as [m IH|m IH|]; cbn [digits2_pos].
  - rewrite Pos2Z.inj_succ.
    replace (Z.succ (Zpos (digits2_pos m)) - 1) with (Z.succ (Zpos (digits2_pos m) - 1)) by lia.
    rewrite !Z.pow_succ_r by lia. lia.
  - rewrite Pos2Z.inj_succ.
    replace (Z.succ (Zpos (digits2_pos m)) - 1) with (Z.succ (Zpos (digits2_pos m) - 1)) by lia.
    rewrite !Z.pow_succ_r by lia. lia.
  - cbn. lia.
Qed.

Lemma digits2_pos_iter_xO (m k : positive) :
  digits2_pos (Pos.iter xO m k) = (digits2_pos m + k)%positive.
Proof.
  induction k as [|k IH] using Pos.peano_ind.
  - cbn. lia.
  - rewrite Pos.iter_succ. cbn [digits2_pos]. rewrite IH. lia.
Qed.

Lemma Zdigits2_le (m k : Z) :
  0 <= k -> 0 <= m <= 2 ^ k -> Zdigits2 m <= k + 1.
Proof.
  intros Hk [H0 Hm]. destruct m as [|p|p]; cbn [Zdigits2]; try lia.
  pose proof (digits2_pos_bounds p) as [Hlo _].
  assert (H : 2 ^ (Zpos (digits2_pos p) - 1) <= 2 ^ k) by lia.
  apply Z.pow_le_mono_r_iff in H; lia.
Qed.

Lemma shr_1_halves (mrs : shr_record) :
  0 <= shr_m mrs ->
  0 <= shr_m (shr_1 mrs) /\ 2 * shr_m (shr_1 mrs) <= shr_m mrs.
Proof.
  destruct mrs as [m r s]. cbn [shr_m]. intros H.
  destruct m as [|[p|p|]|p]; cbn; lia.
Qed.

Lemma iter_shr_1_halves (p : positive) (mrs : shr_record) :
  0 <= shr_m mrs ->
  0 <= shr_m (iter_pos shr_1 p mrs)
  /\ 2 ^ Zpos p * shr_m (iter_pos shr_1 p mrs) <= shr_m mrs.
Proof.
  revert mrs. induction p as [p IH|p IH|]; intros mrs H; cbn [iter_pos].
  - destruct (shr_1_halves mrs H) as [H1 H1'].
    destruct (IH _ H1) as [H2 H2']. destruct (IH _ H2) as [H3 H3'].
    split; [exact H3|].
    rewrite (Pos2Z.inj_xI p), Z.pow_add_r, Z.pow_mul_r by lia.
    change (2 ^ 2) with 4. change (2 ^ 1) with 2.
    assert (Hp : 0 < 2 ^ Zpos p) by (apply Z.pow_pos_nonneg; lia).
    replace (4 ^ Zpos p) with (2 ^ Zpos p * 2 ^ Zpos p).
    + nia.
    + rewrite <- Z.pow_mul_l. reflexivity.
  - destruct (IH _ H) as [H2 H2']. destruct (IH _ H2) as [H3 H3'].
    split; [exact H3|].
    rewrite (Pos2Z.inj_xO p), Z.pow_mul_r by lia. change (2 ^ 2) with 4.
    assert (Hp : 0 < 2 ^ Zpos p) by (apply Z.pow_pos_nonneg; lia).
    replace (4 ^ Zpos p) with (2 ^ Zpos p * 2 ^ Zpos p).
    + nia.
    + rewrite <- Z.pow_mul_l. reflexivity.
  - change (2 ^ 1) with 2. now apply shr_1_halves.
Qed.

Lemma round_nearest_even_bounds (m : Z) (l : location) :
  0 <= m -> m <= round_nearest_even m l <= m + 1.
Proof.
  intros H. destruct l as [|[| |]]; cbn [round_nearest_even];
    try destruct (Z.even m); lia.
Qed.

Lemma shr_m_of_loc (m : Z) (l : location) : shr_m (shr_record_of_loc m l) = m.
Proof. destruct l as [|[| |]]; reflexivity. Qed.

Lemma fexp_binary64 (e : Z) : fexp 53 1024 e = Z.max (e - 53) (-1074).
Proof. reflexivity. Qed.

Lemma shr_fexp_snd (m e : Z) (l : location) :
  snd (shr_fexp 53 1024 m e l) = Z.max e (fexp 53 1024 (Zdigits2 m + e)).
Proof.
  unfold shr_fexp, shr.
  destruct (fexp 53 1024 (Zdigits2 m + e) - e) eqn:E; cbn [snd]; lia.
Qed.

Lemma shr_fexp_fst (m e : Z) (l : location) :
  0 <= m ->
  0 <= shr_m (fst (shr_fexp 53 1024 m e l))
  /\ 2 ^ Z.max 0 (fexp 53 1024 (Zdigits2 m + e) - e)
     * shr_m (fst (shr_fexp 53 1024 m e l)) <= m.
Proof.
  intros H. unfold shr_fexp, shr.
  destruct (fexp 53 1024 (Zdigits2 m + e) - e) as [|p|p] eqn:E; cbn [fst].
  - rewrite shr_m_of_loc. change (2 ^ Z.max 0 0) with 1. lia.
  - rewrite Z.max_r by lia.
    destruct (iter_shr_1_halves p (shr_record_of_loc m l)) as [H1 H2];
      rewrite ?shr_m_of_loc in *; [exact H|]. split; assumption.
  - rewrite shr_m_of_loc. change (2 ^ Z.max 0 (Z.neg p)) with 1. lia.
Qed.

Lemma binary_round_aux_finite (sx : bool) (mz : positive) (ez : Z) (s : bool) :
  -1021 <= Zpos (digits2_pos mz) + ez <= 1023 -> ez <= 970 ->
  binary_round_aux 53 1024 sx (Zpos mz) ez loc_Exact <> S754_infinity s.
Proof.
  intros Hd He. unfold binary_round_aux.
  pose proof (shr_fexp_snd (Zpos mz) ez loc_Exact) as Hs1.
  pose proof (shr_fexp_fst (Zpos mz) ez loc_Exact ltac:(lia)) as [Hm0 Hm1].
  destruct (shr_fexp 53 1024 (Zpos mz) ez loc_Exact) as [mrs' e'].
  cbn [fst snd] in Hs1, Hm0, Hm1.
  set (m1 := round_nearest_even (shr_m mrs') (loc_of_shr_record mrs')).
  pose proof (round_nearest_even_bounds (shr_m mrs') (loc_of_shr_record mrs') Hm0)
    as Hr. fold m1 in Hr.
  pose proof (shr_fexp_snd m1 e' loc_Exact) as Hs2.
  destruct (shr_fexp 53 1024 m1 e' loc_Exact) as [mrs'' e''].
  cbn [snd] in Hs2.
  cbn [Zdigits2] in Hs1, Hm1. rewrite fexp_binary64 in Hs1, Hm1, Hs2.
  set (D := Zpos (digits2_pos mz)) in *.
  assert (HD : 0 < D) by (unfold D; lia).
  set (N := Z.max 0 (Z.max (D + ez - 53) (-1074) - ez)) in *.
  assert (HN : 0 <= N <= D /\ D - N <= 53) by (unfold N; lia).
  assert (Hm1' : shr_m mrs' < 2 ^ (D - N)).
  { pose proof (digits2_pos_bounds mz) as [_ Hup]. fold D in Hup.
    replace D with (N + (D - N)) in Hup by lia.
    rewrite Z.pow_add_r in Hup by lia.
    assert (Hp : 0 < 2 ^ N) by (apply Z.pow_pos_nonneg; lia).
    nia. }
  assert (H53 : 2 ^ (D - N) <= 2 ^ 53) by (apply Z.pow_le_mono_r; lia).
  assert (Hdig : Zdigits2 m1 <= 54)
    by (apply (Zdigits2_le m1 53); lia).
  destruct (shr_m mrs''); try discriminate.
  destruct (Z.leb_spec e'' (1024 - 53)); [discriminate|]. exfalso. lia.
Qed.

Lemma binary_normalize_finite (z : Z) (s : bool) :
  Z.abs z < 2 ^ 1023 ->
  binary_normalize 53 1024 z 0 false <> S754_infinity s.
Proof.
  intros Hz.
  assert (H : forall sx m, Zpos m < 2 ^ 1023 ->
                binary_round 53 1024 sx m 0 <> S754_infinity s).
  { intros sx m Hm. unfold binary_round, shl_align.
    assert (Hd : Zpos (digits2_pos m) <= 1023).
    { pose proof (digits2_pos_bounds m) as [Hlo _].
      assert (Hp : 2 ^ (Zpos (digits2_pos m) - 1) < 2 ^ 1023) by lia.
      apply Z.pow_lt_mono_r_iff in Hp; lia. }
    rewrite fexp_binary64.
    destruct (Z.max (Zpos (digits2_pos m) + 0 - 53) (-1074) - 0) as [|p|p] eqn:E.
    - apply binary_round_aux_finite; lia.
    - apply binary_round_aux_finite; lia.
    - apply binary_round_aux_finite; rewrite ?digits2_pos_iter_xO; lia. }
  destruct z as [|p|p]; cbn [binary_normalize]; [discriminate| |]; apply H; lia.
Qed.

Lemma shr_1_div2 (mrs : shr_record) :
  0 <= shr_m mrs -> shr_m (shr_1 mrs) = shr_m mrs / 2.
Proof.
  destruct mrs as [m r s]. cbn [shr_m]. intros H. rewrite <- Z.div2_div.
  destruct m as [|[p|p|]|p]; try reflexivity. lia.
Qed.

Lemma iter_shr_1_div (p : positive) (mrs : shr_record) :
  0 <= shr_m mrs ->
  shr_m (iter_pos shr_1 p mrs) = shr_m mrs / 2 ^ Zpos p.
Proof.
  assert (Hpow : forall q, 0 < 2 ^ Zpos q) by (intros q; apply Z.pow_pos_nonneg; lia).
  revert mrs. induction p as [p IH|p IH|]; intros mrs H; cbn [iter_pos].
  - assert (H1 : 0 <= shr_m (shr_1 mrs))
      by (rewrite shr_1_div2 by exact H; apply Z.div_pos; lia).
    assert (H2 : 0 <= shr_m (iter_pos shr_1 p (shr_1 mrs)))
      by (rewrite IH by exact H1; apply Z.div_pos; [exact H1 | apply Hpow]).
    rewrite (IH _ H2), (IH _ H1), (shr_1_div2 _ H).
    pose proof (Hpow p).
    rewrite !Z.div_div by lia. f_equal.
    rewrite (Pos2Z.inj_xI p), Z.pow_add_r, Z.pow_mul_r by lia.
    change (2 ^ 2) with 4. change (2 ^ 1) with 2.
    replace (4 ^ Zpos p) with (2 ^ Zpos p * 2 ^ Zpos p)
      by (rewrite <- Z.pow_mul_l; reflexivity).
    lia.
  - assert (H2 : 0 <= shr_m (iter_pos shr_1 p mrs))
      by (rewrite IH by exact H; apply Z.div_pos; [exact H | apply Hpow]).
    rewrite (IH _ H2), (IH _ H).
    pose proof (Hpow p).
    rewrite !Z.div_div by lia. f_equal.
    rewrite (Pos2Z.inj_xO p), Z.pow_mul_r by lia.
    change (2 ^ 2) with 4.
    rewrite <- Z.pow_mul_l. reflexivity.
  - change (2 ^ 1) with 2. now apply shr_1_div2.
Qed.

Lemma shr_fexp_fst_div (m e : Z) (l : location) :
  0 <= m ->
  shr_m (fst (shr_fexp 53 1024 m e l))
  = m / 2 ^ Z.max 0 (fexp 53 1024 (Zdigits2 m + e) - e).
Proof.
  intros H. unfold shr_fexp, shr.
  destruct (fexp 53 1024 (Zdigits2 m + e) - e) as [|p|p] eqn:E; cbn [fst].
  - rewrite shr_m_of_loc. change (2 ^ Z.max 0 0) with 1. now rewrite Z.div_1_r.
  - rewrite Z.max_r by lia. rewrite iter_shr_1_div; now rewrite shr_m_of_loc.
  - rewrite shr_m_of_loc. change (2 ^ Z.max 0 (Z.neg p)) with 1. now rewrite Z.div_1_r.
Qed.

Lemma Zdigits2_ge (m k : Z) : 0 <= k -> 2 ^ k <= m -> k + 1 <= Zdigits2 m.
Proof.
  intros Hk Hm.
  assert (Hp : 0 < 2 ^ k) by (apply Z.pow_pos_nonneg; lia).
  destruct m as [|p|p]; try lia. cbn [Zdigits2].
  pose proof (digits2_pos_bounds p) as [_ Hup].
  assert (H : 2 ^ k < 2 ^ Zpos (digits2_pos p)) by lia.
  apply Z.pow_lt_mono_r_iff in H; lia.
Qed.

Lemma binary_round_overflow (sx : bool) (m : positive) :
  2 ^ 1024 <= Zpos m -> binary_round 53 1024 sx m 0 = S754_infinity sx.
Proof.
  intros Hm.
  set (D := Zpos (digits2_pos m)).
  assert (HD : 1025 <= D) by (apply (Zdigits2_ge (Zpos m) 1024); lia).
  unfold binary_round, shl_align. rewrite fexp_binary64. fold D.
  destruct (Z.max (D + 0 - 53) (-1074) - 0) as [|p|p] eqn:E; try lia.
  unfold binary_round_aux.
  pose proof (shr_fexp_snd (Zpos m) 0 loc_Exact) as Hs1.
  pose proof (shr_fexp_fst_div (Zpos m) 0 loc_Exact ltac:(lia)) as Hm1.
  destruct (shr_fexp 53 1024 (Zpos m) 0 loc_Exact) as [mrs' e'].
  cbn [fst snd] in Hs1, Hm1. cbn [Zdigits2] in Hs1, Hm1.
  rewrite fexp_binary64 in Hs1, Hm1. fold D in Hs1, Hm1.
  replace (Z.max 0 (Z.max (D + 0 - 53) (-1074) - 0)) with (D - 53) in Hm1 by lia.
  assert (Hlo : 2 ^ 52 <= shr_m mrs').
  { rewrite Hm1. apply Z.div_le_lower_bound; [apply Z.pow_pos_nonneg; lia|].
    rewrite <- Z.pow_add_r by lia.
    pose proof (digits2_pos_bounds m) as [Hl _]. fold D in Hl.
    replace (D - 53 + 52) with (D - 1) by lia. exact Hl. }
  set (m1 := round_nearest_even (shr_m mrs') (loc_of_shr_record mrs')).
  pose proof (round_nearest_even_bounds (shr_m mrs') (loc_of_shr_record mrs')
                ltac:(lia)) as Hr. fold m1 in Hr.
  assert (Hup : shr_m mrs' < 2 ^ 53).
  { rewrite Hm1. apply Z.div_lt_upper_bound; [apply Z.pow_pos_nonneg; lia|].
    rewrite <- Z.pow_add_r by lia.
    pose proof (digits2_pos_bounds m) as [_ Hu]. fold D in Hu.
    replace (D - 53 + 53) with D by lia. exact Hu. }
  assert (Hdig : 53 <= Zdigits2 m1 <= 54).
  { split; [apply (Zdigits2_ge m1 52) | apply (Zdigits2_le m1 53)]; lia. }
  pose proof (shr_fexp_snd m1 e' loc_Exact) as Hs2.
  pose proof (shr_fexp_fst_div m1 e' loc_Exact ltac:(lia)) as Hm2.
  destruct (shr_fexp 53 1024 m1 e' loc_Exact) as [mrs'' e''].
  cbn [fst snd] in Hs2, Hm2. rewrite fexp_binary64 in Hs2, Hm2.
  assert (Hpos : 0 < shr_m mrs'').
  { rewrite Hm2. apply Z.div_str_pos. split; [apply Z.pow_pos_nonneg; lia|].
    apply Z.le_trans with (2 ^ 1); [apply Z.pow_le_mono_r; lia|].
    change (2 ^ 1) with 2. change (2 ^ 52) with 4503599627370496 in Hlo. lia. }
  destruct (shr_m mrs'') as [|q|q]; try lia.
  destruct (Z.leb_spec e'' (1024 - 53)); [lia|reflexivity].
Qed.

Lemma binary_normalize_overflow (z : Z) :
  2 ^ 1024 <= Z.abs z ->
  binary_normalize 53 1024 z 0 false = S754_infinity (z <? 0).
Proof.
  intros Hz. destruct z as [|p|p]; cbn [binary_normalize].
  - exfalso. cbn in Hz. lia.
  - apply binary_round_overflow. exact Hz.
  - apply binary_round_overflow. exact Hz.
Qed.

Lemma of_int_in_float_range (z : Z) :
  PyFloat.of_int z
  = if in_float_range z then inr (PyFloat.nearest z) else inl OverflowError.
Proof.
  unfold PyFloat.of_int, in_float_range. now destruct (PyFloat.nearest z).
Qed.

(** Below [2 ^ 1023] in magnitude an integer has a float; from [2 ^ 1024]
    on it has none. *)
Lemma in_float_range_bounds (z : Z) :
  (Z.abs z < 2 ^ 1023 -> in_float_range z = true)
  /\ (2 ^ 1024 <= Z.abs z -> in_float_range z = false).
Proof.
  unfold in_float_range, PyFloat.nearest, PyFloat.prec, PyFloat.emax. split; intros H.
  - pose proof (fun s => binary_normalize_finite z s H) as Hf.
    destruct (binary_normalize 53 1024 z 0 false) as [| s | |]; try reflexivity.
    now destruct (Hf s).
  - now rewrite (binary_normalize_overflow z H).
Qed.

End FloatFacts.

(** C6, case by case.  For a year from 1 to 9999 and a month from 1 to 12,
    and a count of seconds and a number of milliseconds within the range of
    a float, [get_timestamp] returns the float sum of the seconds from the
    Unix epoch to the calendar time read as UTC, of the milliseconds divided
    by [1000.0], and of the 2,208,988,800 seconds from 1900-01-01 to
    1970-01-01, the integers being converted to floats where they enter the
    sum.  Otherwise it raises: [OverflowError] for a year or a month that
    does not fit a C [int]; [ValueError] for a year and a month that fit but
    are not both on the calendar; [OverflowError] for a year and a month on
    the calendar with the seconds or the milliseconds beyond the range of a
    float.  An integer is within that range when it is below [2 ^ 1023] in
    magnitude, and beyond it from [2 ^ 1024] on. *)
Theorem C6_get_timestamp_ntp_seconds (year month day hour minute second millis : Z) :
  let my_tuple := (year, month, day, hour, minute, second, millis) in
  let seconds := CivilTime.unix_seconds year month day hour minute second in
  let calendar := (1 <= year <= 9999 /\ 1 <= month <= 12)%Z in
  let c_ints := (-2147483648 <= year <= 2147483647
                 /\ -2147483648 <= month <= 2147483647)%Z in
  (calendar -> in_float_range seconds = true -> in_float_range millis = true ->
   get_timestamp my_tuple
   = inr (PyFloat.add
            (PyFloat.add (PyFloat.nearest seconds)
               (PyFloat.div (PyFloat.nearest millis) PyFloat.f1000))
            (PyFloat.nearest 2208988800)))
  /\ (~ c_ints -> get_timestamp my_tuple = inl OverflowError)
  /\ (c_ints -> ~ calendar -> get_timestamp my_tuple = inl ValueError)
  /\ (calendar -> in_float_range seconds = false \/ in_float_range millis = false ->
      get_timestamp my_tuple = inl OverflowError)
  /\ (forall z : Z,
         ((Z.abs z < 2 ^ 1023)%Z -> in_float_range z = true)
         /\ ((2 ^ 1024 <= Z.abs z)%Z -> in_float_range z = false))
  /\ Ntplib.NTP_DELTA
     = (86400 * CivilTime.sum_range CivilTime.days_in_year 1900 1970)%Z.
Proof.
  intros my_tuple seconds calendar c_ints.
  split; [|split; [|split; [|split; [|split;
    [exact FloatFacts.in_float_range_bounds | vm_compute; reflexivity]]]]].
  - intros [Hy Hm] Hs Hms. unfold my_tuple, get_timestamp.
    rewrite (CalendarFacts.timegm_unix_seconds _ _ _ _ _ _ Hy Hm).
    cbn [bind_result]. fold seconds.
    rewrite !FloatFacts.of_int_in_float_range, Hs, Hms. reflexivity.
  - intros Hn. unfold my_tuple, get_timestamp, Calendar.timegm.
    now rewrite (CalendarFacts.first_of_month_beyond_c_int year month Hn).
  - intros [Hy Hm] Hn. unfold my_tuple, get_timestamp, Calendar.timegm.
    now rewrite (CalendarFacts.first_of_month_off_the_calendar year month Hy Hm Hn).
  - intros [Hy Hm] Hover. unfold my_tuple, get_timestamp.
    rewrite (CalendarFacts.timegm_unix_seconds _ _ _ _ _ _ Hy Hm).
    cbn [bind_result]. fold seconds.
    rewrite !FloatFacts.of_int_in_float_range.
    destruct (in_float_range millis); [|reflexivity].
    destruct Hover as [Hs|Hms]; [now rewrite Hs | discriminate Hms].
Qed.

Lemma C6_get_timestamp_ntp_seconds_witness :
  get_timestamp (2015, 3, 10, 14, 22, 5, 500)%Z
  = inr (S754_finite false 7623118423064576 (-21)).
Proof.
  destruct (C6_get_timestamp_ntp_seconds 2015 3 10 14 22 5 500) as [H _].
  rewrite H; [vm_compute; reflexivity | lia | |]; vm_compute; reflexivity.
Defined.

(** A thirteenth month: [get_timestamp] returns nothing, it raises. *)
Lemma C6_counterexample :
  get_timestamp (2015, 13, 10, 14, 22, 5, 500)%Z = inl ValueError.
Proof. reflexivity. Qed.

(** A year that does not fit a C [int], and a day that takes the seconds
    beyond the range of a float. *)
Example get_timestamp_year_beyond_c_int :
  get_timestamp (2147483648, 1, 1, 0, 0, 0, 0)%Z = inl OverflowError.
Proof. reflexivity. Qed.

Example get_timestamp_day_beyond_float :
  get_timestamp (2015, 3, 10 ^ 400, 0, 0, 0, 0)%Z = inl OverflowError.
Proof. vm_compute. reflexivity. Qed.

(** ** Where the scan breaks its promises *)

(** C2, at a row that gives neither outcome: the row with one more token
    after the hexadecimal one raises [ValueError] at [int] of the checksum
    text, with no warning and no record, and the well-formed row after it is
    never read, though on its own it gives its record. *)
Theorem C2_row_with_neither_outcome :
  let self := fresh FUELCELL_ENG_DCL_RECOVERED in
  parse_row sample_row_extra_token 1 self = (self, inl ValueError)
  /\ parse_file [sample_row_extra_token; sample_row_good] self = (self, inl ValueError)
  /\ List.length (record_buffer (fst (parse_file [sample_row_good] self))) = 1
  /\ snd (parse_file [sample_row_good] self) = inr tt.
Proof. vm_compute. repeat split. Qed.

(** C3, at two rows that make [parse_file] raise: the checksum text of the
    first is not an integer literal once the pieces are put together, and the
    month of the second is not one of the calendar, which [calendar.timegm]
    refuses; each time [ValueError] leaves [parse_file]. *)
Theorem C3_malformed_rows_raise :
  let self := fresh FUELCELL_ENG_DCL_RECOVERED in
  rebuild_data (PyStr.split " " (sample_payload ++ ":8002 6d47 trailing" ++ line_end))
  = inr (sample_payload ++ ":80026d47")
  /\ py_int "80026d47" = inl ValueError
  /\ parse_file [sample_row_extra_token] self = (self, inl ValueError)
  /\ parse_file [sample_row_month_13] self = (self, inl ValueError).
Proof. vm_compute. repeat split. Qed.

(** C9, at what [log_warning] hands to the callback: the text is the reason
    followed by [" %d - No particle generated"] as it stands, in which there
    is no digit, and the line number is the exception's second argument. *)
Theorem C9_warning_text_keeps_placeholder :
  Forall
    (fun reason =>
       forall line_count self,
         callback_received (fst (log_warning reason line_count self))
         = (callback_received self ++
            [{| exc_msg := reason ++ " %d - No particle generated";
                exc_arg := line_count |}])%list
         /\ PyStr.all_chars (fun c => negb (PyStr.is_digit c))
              (reason ++ " %d - No particle generated") = true)
    REASONS
  /\ callback_received
       (fst (parse_file [sample_row_no_data] (fresh FUELCELL_ENG_DCL_RECOVERED)))
     = [{| exc_msg := "No fuel cell data on line %d - No particle generated";
           exc_arg := 1 |}].
Proof.
  split; [|vm_compute; reflexivity].
  repeat constructor.
Qed.

(** ** Outcomes of a row, and the numbering of the warnings *)

(** X1: one turn of the loop leaves the configured class alone and does one
    of three things: it hands one warning to the callback, whose text starts
    with one of the six reasons and whose argument is the line count, and
    adds no record; or it adds one record, built from the row after both
    gates, and hands nothing to the callback; or it raises and leaves the
    parser as it was. *)
Theorem X1_row_outcomes (row : string) (line_count : nat) (self : Parser) :
  let after := fst (parse_row row line_count self) in
  let outcome := snd (parse_row row line_count self) in
  fuelcell_data_class after = fuelcell_data_class self
  /\ ((outcome = inr tt
       /\ record_buffer after = record_buffer self
       /\ exists reason,
           In reason REASONS /\
           callback_received after
           = (callback_received self ++
              [{| exc_msg := reason ++ " %d - No particle generated";
                  exc_arg := line_count |}])%list)
      \/ (outcome = inr tt
          /\ callback_received after = callback_received self
          /\ exists p,
              built_from (fuelcell_data_class self) row p /\
              record_buffer after = (record_buffer self ++ [p])%list)
      \/ (exists e, outcome = inl e /\ after = self)).
Proof.
  intros after outcome. subst after outcome.
  destruct (parse_row_cases row) as [(reason & Hin & H)|[(d & ts & Hb & H)|(e & H)]];
    rewrite H.
  - split; [reflexivity|]. left. repeat split. now exists reason.
  - split; [reflexivity|]. right; left. repeat split.
    eexists. split; [apply Hb | reflexivity].
  - split; [reflexivity|]. right; right. now exists e.
Qed.

Lemma parse_loop_warnings (file_handle : list string) (n : nat) (self : Parser) :
  exists new,
    callback_received (fst (parse_loop file_handle n self))
    = (callback_received self ++ new)%list
    /\ Forall
         (fun e =>
            (exists reason,
                In reason REASONS /\
                exc_msg e = reason ++ " %d - No particle generated")
            /\ n < exc_arg e <= n + List.length (rows_read file_handle))
         new
    /\ StronglySorted lt (map exc_arg new).
Proof.
  revert n self. induction file_handle as [|row rest IH]; intros n self.
  - exists []. cbn. rewrite app_nil_r. repeat split; constructor.
  - destruct row as [|c row].
    + exists []. cbn. rewrite app_nil_r. repeat split; constructor.
    + cbn [parse_loop rows_read List.length]. unfold bind.
      set (r := String c row).
      destruct (parse_row_cases r) as [(reason & Hin & H)|[(d & ts & _ & H)|(e & H)]];
        rewrite H.
      * rewrite log_warning_received. cbv beta iota.
        match goal with
        | |- context [parse_loop rest (n + 1) ?s] =>
            destruct (IH (n + 1) s) as (new & E & Hall & Hsorted)
        end.
        cbn [callback_received] in E.
        eexists (_ :: new). split; [rewrite E, <- app_assoc; reflexivity|]. split.
        -- constructor.
           ++ cbn [exc_msg exc_arg]. split; [now exists reason | lia].
           ++ eapply Forall_impl; [|exact Hall]. cbn beta.
              intros e [He Hn]. split; [exact He | lia].
        -- cbn [map exc_arg]. constructor; [exact Hsorted|].
           rewrite Forall_map. eapply Forall_impl; [|exact Hall]. cbn beta.
           intros e [_ Hn]. lia.
      * unfold record_buffer_append at 1. cbv beta iota.
        match goal with
        | |- context [parse_loop rest (n + 1) ?s] =>
            destruct (IH (n + 1) s) as (new & E & Hall & Hsorted)
        end.
        cbn [callback_received] in E.
        exists new. split; [exact E|]. split; [|exact Hsorted].
        eapply Forall_impl; [|exact Hall]. cbn beta.
        intros e [He Hn]. split; [exact He | lia].
      * exists []. cbn [fst]. rewrite app_nil_r. repeat split; constructor.
Qed.

(** X2: the exceptions the callback receives during [parse_file] each have
    a text that starts with one of the six reasons and, as argument, the
    1-based number of a row read; they arrive in the order of the rows, no
    two for the same row. *)
Theorem X2_warnings_numbered_in_order (file_handle : list string) (self : Parser) :
  exists new,
    callback_received (fst (parse_file file_handle self))
    = (callback_received self ++ new)%list
    /\ Forall
         (fun e =>
            (exists reason,
                In reason REASONS /\
                exc_msg e = reason ++ " %d - No particle generated")
            /\ 1 <= exc_arg e <= List.length (rows_read file_handle))
         new
    /\ StronglySorted lt (map exc_arg new).
Proof.
  destruct (parse_loop_warnings file_handle 0 self) as (new & E & Hall & Hs).
  exists new. split; [exact E|]. split; [|exact Hs].
  eapply Forall_impl; [|exact Hall]. cbn beta. intros e [He Hn]. split; [exact He | lia].
Qed.

(** ** No index out of range *)

Lemma split_app_sep (sep : ascii) (a b : string) :
  PyStr.split sep (a ++ String sep b) = (PyStr.split sep a ++ PyStr.split sep b)%list.
Proof.
  induction a as [|c a IH]; cbn [String.append PyStr.split].
  - now rewrite Ascii.eqb_refl.
  - rewrite IH. destruct (Ascii.eqb c sep); [reflexivity|].
    destruct (split_nonempty sep a) as (p & ps & ->). reflexivity.
Qed.

Lemma join_app (l1 l2 : list string) :
  PyStr.join (l1 ++ l2)%list = PyStr.join l1 ++ PyStr.join l2.
Proof.
  induction l1 as [|p l1 IH]; cbn [app]; [reflexivity|].
  now rewrite !join_cons, IH, append_assoc.
Qed.

(** Splitting at a separator and joining with nothing drops the separators. *)
Lemma join_split_cons (sep c : ascii) (s : string) :
  PyStr.join (PyStr.split sep (String c s)) =
  if Ascii.eqb c sep then PyStr.join (PyStr.split sep s)
  else String c (PyStr.join (PyStr.split sep s)).
Proof.
  cbn [PyStr.split]. destruct (Ascii.eqb c sep); [reflexivity|].
  destruct (split_nonempty sep s) as (p & ps & ->). reflexivity.
Qed.

Lemma join_split_app (sep : ascii) (a b : string) :
  PyStr.join (PyStr.split sep (a ++ b)) =
  PyStr.join (PyStr.split sep a) ++ PyStr.join (PyStr.split sep b).
Proof.
  induction a as [|c a IH]; [reflexivity|].
  cbn [String.append]. rewrite !join_split_cons, IH.
  now destruct (Ascii.eqb c sep).
Qed.

(** The data block of a row that has its terminator holds a colon. *)
Lemma terminated_data_has_colon (data_string : string) :
  has_terminator data_string ->
  exists x y,
    rebuild_data (PyStr.split " " data_string) = inr (x ++ String ":" y).
Proof.
  intros (before & space & sign & digits & hex & after & -> & _).
  replace (before ++ ":" ++ space ++ sign ++ digits ++ " " ++ hex ++ after)
    with ((before ++ String ":" (space ++ sign ++ digits)) ++ String " " (hex ++ after))
    by (repeat (rewrite ?append_assoc; cbn [String.append]); reflexivity).
  rewrite split_app_sep.
  destruct (split_nonempty " " (hex ++ after)) as (p & ps & Ep).
  destruct (split_nonempty " " (before ++ String ":" (space ++ sign ++ digits)))
    as (q & qs & Eq).
  rewrite rebuild_data_join
    by (rewrite length_app, Ep, Eq; cbn [List.length]; lia).
  rewrite removelast_app by (rewrite Ep; discriminate).
  rewrite join_app, join_split_app, join_split_cons.
  change (Ascii.eqb ":" " ") with false. cbv iota.
  exists (PyStr.join (PyStr.split " " before)),
    (PyStr.join (PyStr.split " " (space ++ sign ++ digits))
     ++ PyStr.join (removelast (PyStr.split " " (hex ++ after)))).
  f_equal. rewrite Ep. now rewrite append_assoc.
Qed.

Lemma split_colon_two (x y : string) :
  exists a c rest, PyStr.split ":" (x ++ String ":" y) = a :: c :: rest.
Proof.
  rewrite split_app_sep.
  destruct (split_nonempty ":" x) as (p & ps & ->).
  destruct (split_nonempty ":" y) as (q & qs & ->).
  destruct ps as [|p' ps]; cbn [app]; now repeat eexists.
Qed.

Lemma candidate_has_terminator (row : string) (found_dtg : MatchObject)
  (data_string : string) :
  candidate row = Some (found_dtg, data_string) -> has_terminator data_string.
Proof.
  intros Hc. apply has_terminator_search. rewrite <- matcher_search_None.
  revert Hc. unfold candidate.
  destruct (matcher_search NON_DATA_REGEX row); [discriminate|].
  destruct (matcher_search DATE_TIME_REGEX row); [|discriminate].
  destruct (matcher_search START_DATA_REGEX row); [|discriminate].
  cbv zeta. destruct (matcher_search END_DATA_REGEX _) eqn:E; [|discriminate].
  intros [= _ <-]. congruence.
Qed.

(** Twenty-seven fields fill the dictionary. *)
Lemma good_field_dict (dtg : string) (fields : list string) :
  good_field fields = true ->
  exists d, generate_data_dict dtg fields = inr d.
Proof.
  intros H. apply good_field_spec in H as [Hlen _].
  do 27 (destruct fields as [|? fields]; [discriminate Hlen|]).
  destruct fields; [|discriminate Hlen].
  eexists. reflexivity.
Qed.

Lemma py_int_error (s : string) (e : py_exception) :
  py_int s = inl e -> e = ValueError.
Proof.
  unfold py_int. destruct (PyStr.int s); cbn; congruence.
Qed.

Lemma timestamp_tuple_error (found_dtg : MatchObject) (e : py_exception) :
  timestamp_tuple found_dtg = inl e -> e = ValueError.
Proof.
  unfold timestamp_tuple.
  repeat match goal with
         | |- context [py_int ?x] =>
             let E := fresh "E" in
             destruct (py_int x) eqn:E;
             [apply py_int_error in E; cbn [bind_result]; congruence|];
             cbn [bind_result]
         end.
  discriminate.
Qed.

Lemma get_timestamp_error (t : Z * Z * Z * Z * Z * Z * Z) (e : py_exception) :
  get_timestamp t = inl e -> e = ValueError \/ e = OverflowError.
Proof.
  destruct t as [[[[[[year month] day] hour] minute] second] millis].
  unfold get_timestamp, Calendar.timegm, Calendar.first_of_month_toordinal.
  destruct (negb _); cbn [bind_result]; [intros [= <-]; now right|].
  destruct (_ && _ && _ && _)%bool; cbn [bind_result]; [|intros [= <-]; now left].
  unfold Ntplib.system_to_ntp_time, PyFloat.of_int.
  repeat match goal with
         | |- context [match PyFloat.nearest ?z with _ => _ end] =>
             destruct (PyFloat.nearest z); cbn [bind_result];
             try (intros [= <-]; now right)
         end;
    discriminate.
Qed.

(** X3: whatever the row, [parse_row] does not raise [IndexError]: the data
    block of a row with a terminator holds a colon, so [data_plus_checksum]
    has its two entries, and the fields that passed [good_field] are the 27
    that [generate_data_dict] reads. *)
Theorem X3_no_index_error (row : string) (line_count : nat) (self : Parser) :
  snd (parse_row row line_count self) <> inl IndexError.
Proof.
  destruct (candidate row) as [[found_dtg data_string]|] eqn:Ec.
  2:{ destruct (parse_row_not_candidate row Ec) as (reason & _ & H).
      rewrite H. discriminate. }
  rewrite (parse_row_candidate row line_count found_dtg data_string self Ec).
  destruct (terminated_data_has_colon data_string
              (candidate_has_terminator row found_dtg data_string Ec))
    as (x & y & Hr).
  unfold bind at 1, lift at 1. rewrite Hr.
  destruct (split_colon_two x y) as (a & c & rest & Hs).
  destruct (py_int c) as [e|read_checksum] eqn:Ei.
  { unfold check_and_emit. cbv zeta. rewrite Hs.
    cbn [getitem nth_error of_option]. unfold bind at 1 2 3, lift at 1 2 3.
    rewrite Ei. apply py_int_error in Ei. subst e. discriminate. }
  rewrite (check_and_emit_split _ _ _ _ _ _ _ _ _ Hs Ei).
  destruct (good_checksum a read_checksum); [|discriminate].
  destruct (good_field (PyStr.split COMMA a)) eqn:Eg; [|discriminate].
  unfold bind, lift.
  destruct (timestamp_tuple found_dtg) as [e|tuple] eqn:Et.
  { apply timestamp_tuple_error in Et. subst e. discriminate. }
  destruct (get_timestamp tuple) as [e|timestamp] eqn:Ets.
  { apply get_timestamp_error in Ets. destruct Ets; subst e; discriminate. }
  destruct (good_field_dict (date_group found_dtg 1) _ Eg) as (d & ->).
  discriminate.
Qed.

(** ** A file of three rows *)

(** X4: a no-data row, the well-formed sample row and the sample row with a
    wrong checksum, in this order: one record, of the second row, and two
    warnings, for rows 1 and 3; [parse_file] returns. *)
Theorem X4_three_row_file :
  let self := fresh FUELCELL_ENG_DCL_TELEMETERED in
  let file_handle :=
    [sample_row_no_data; sample_row_good; sample_row sample_payload "8003"] in
  snd (parse_file file_handle self) = inr tt
  /\ record_buffer (fst (parse_file file_handle self))
     = row_records FUELCELL_ENG_DCL_TELEMETERED sample_row_good
  /\ List.length (row_records FUELCELL_ENG_DCL_TELEMETERED sample_row_good) = 1
  /\ callback_received (fst (parse_file file_handle self))
     = [ {| exc_msg := "No fuel cell data on line %d - No particle generated";
            exc_arg := 1 |};
         {| exc_msg := "Bad checksum line %d - No particle generated";
            exc_arg := 3 |} ].
Proof. vm_compute. repeat split. Qed.

(** ** More on the checksum *)

(** X5: a checksum that [good_checksum] accepts is at least 0 and less than
    32768: a negative number or one of 32768 and more never passes, whatever
    the payload. *)
Theorem X5_accepted_checksum_in_range (data_array : string) (read_checksum : Z) :
  good_checksum data_array read_checksum = true ->
  (0 <= read_checksum < 32768)%Z.
Proof.
  intros H. apply good_checksum_spec in H. subst.
  apply Z.mod_pos_bound. lia.
Qed.

Lemma X5_accepted_checksum_in_range_witness : (0 <= 8002 < 32768)%Z.
Proof.
  apply (X5_accepted_checksum_in_range sample_payload 8002). reflexivity.
Defined.

Lemma byte_sum_app (s t : string) :
  byte_sum (s ++ t) = (byte_sum s + byte_sum t)%Z.
Proof.
  induction s as [|c s IH]; cbn [String.append byte_sum]; [reflexivity | lia].
Qed.

Lemma byte_sum_list (s : string) :
  byte_sum s = fold_right (fun c acc => (PyStr.ord c + acc)%Z) 0%Z (list_ascii_of_string s).
Proof.
  induction s as [|c s IH]; cbn [byte_sum list_ascii_of_string fold_right];
    [reflexivity | now rewrite IH].
Qed.

Lemma byte_sum_permutation (s t : string) :
  Permutation (list_ascii_of_string s) (list_ascii_of_string t) ->
  byte_sum s = byte_sum t.
Proof.
  rewrite !byte_sum_list. generalize (list_ascii_of_string s) (list_ascii_of_string t).
  intros l1 l2 H. induction H; cbn [fold_right]; lia.
Qed.

(** X6: the checksum does not see the order of the bytes: two payloads
    that are rearrangements of one another pass [good_checksum] with the same
    checksums, so swapped fields or digits go unnoticed. *)
Theorem X6_checksum_blind_to_order (data_array rearranged : string)
  (read_checksum : Z) :
  Permutation (list_ascii_of_string data_array) (list_ascii_of_string rearranged) ->
  good_checksum rearranged read_checksum = good_checksum data_array read_checksum.
Proof.
  intros H. apply byte_sum_permutation in H.
  destruct (good_checksum data_array read_checksum) eqn:E.
  - apply good_checksum_spec. apply good_checksum_spec in E. congruence.
  - destruct (good_checksum rearranged read_checksum) eqn:E'; [|reflexivity].
    apply good_checksum_spec in E'. rewrite <- H in E'.
    apply good_checksum_spec in E'. congruence.
Qed.

Lemma X6_checksum_blind_to_order_witness :
  good_checksum "21,4112" 343 = good_checksum "4112,21" 343
  /\ good_checksum "4112,21" 343 = true.
Proof.
  split; [|reflexivity].
  apply (X6_checksum_blind_to_order "4112,21" "21,4112" 343).
  cbn [list_ascii_of_string].
  change ["4"; "1"; "1"; "2"; ","; "2"; "1"]%char
    with (["4"; "1"; "1"; "2"; ","] ++ ["2"; "1"])%char%list.
  change ["2"; "1"; ","; "4"; "1"; "1"; "2"]%char
    with (["2"; "1"] ++ [","; "4"; "1"; "1"; "2"])%char%list.
  eapply Permutation_trans; [apply Permutation_app_comm|].
  apply Permutation_app_head.
  change ["4"; "1"; "1"; "2"; ","]%char with (["4"; "1"; "1"; "2"] ++ [","])%char%list.
  apply Permutation_app_comm.
Defined.

(** The checksum of two texts put together is the sum of their checksums,
    reduced. *)
Lemma checksum_app (s t : string) :
  checksum_loop 0 (s ++ t)
  = ((checksum_loop 0 s + checksum_loop 0 t) mod 32768)%Z.
Proof.
  rewrite !checksum_loop_0, byte_sum_app. now rewrite <- Zplus_mod.
Qed.

(** ** Fields and [int] *)

Lemma is_digit_not_space_sign (c : ascii) :
  PyStr.is_digit c = true ->
  PyStr.is_space c = false /\ c <> "-"%char /\ c <> "+"%char.
Proof.
  destruct c as [[] [] [] [] [] [] [] []]; vm_compute; intros H;
    try discriminate; repeat split; discriminate.
Qed.

Lemma rstrip_digits (s : string) :
  PyStr.all_chars PyStr.is_digit s = true -> PyStr.rstrip s = s.
Proof.
  induction s as [|c s IH]; cbn [PyStr.all_chars PyStr.rstrip]; [reflexivity|].
  intros H. apply andb_true_iff in H as [Hc Hs]. rewrite (IH Hs).
  destruct (is_digit_not_space_sign c Hc) as (-> & _). now destruct s.
Qed.

Lemma strip_digits (s : string) :
  PyStr.all_chars PyStr.is_digit s = true -> PyStr.strip s = s.
Proof.
  intros H. unfold PyStr.strip.
  assert (Hl : PyStr.lstrip s = s).
  { destruct s as [|c s]; [reflexivity|]. cbn [PyStr.all_chars PyStr.lstrip] in *.
    apply andb_true_iff in H as [Hc _].
    now destruct (is_digit_not_space_sign c Hc) as (-> & _). }
  rewrite Hl. now apply rstrip_digits.
Qed.

(** [int] of a run of digits is the number they write. *)
Lemma int_digits (d : string) :
  PyStr.isdigit d = true -> PyStr.int d = Some (PyStr.digits_value 0 d).
Proof.
  intros H. pose proof H as H'. apply isdigit_all_chars in H' as [Hne Hall].
  unfold PyStr.int. rewrite (strip_digits d Hall).
  destruct d as [|c d]; [discriminate|].
  cbn [PyStr.all_chars] in Hall. apply andb_true_iff in Hall as [Hc _].
  destruct (is_digit_not_space_sign c Hc) as (_ & Hm & Hp).
  destruct c as [[] [] [] [] [] [] [] []]; try (now rewrite H);
    congruence.
Qed.

Lemma int_minus_digits (d : string) :
  PyStr.isdigit d = true ->
  PyStr.int (String "-" d) = Some (- PyStr.digits_value 0 d)%Z.
Proof.
  intros H. pose proof H as H'. apply isdigit_all_chars in H' as [Hne Hall].
  unfold PyStr.int, PyStr.strip. cbn [PyStr.lstrip].
  change (PyStr.is_space "-") with false. cbv iota.
  cbn [PyStr.rstrip]. rewrite (rstrip_digits d Hall).
  destruct d as [|c d]; [discriminate|]. now rewrite H.
Qed.

Lemma valid_token_int (t : string) :
  valid_token t -> py_int t = inr (token_value t).
Proof.
  intros (_ & Hne & Hd). unfold py_int.
  assert (Hdig : PyStr.isdigit (strip_leading_minus t) = true)
    by (apply isdigit_spec; now split).
  destruct t as [|c t]; [now cbn in Hne|].
  destruct (Ascii.eqb_spec c "-") as [->|Hc].
  - cbn [strip_leading_minus] in Hdig. cbn [token_value].
    now rewrite (int_minus_digits t Hdig).
  - assert (Es : strip_leading_minus (String c t) = String c t).
    { cbn [strip_leading_minus].
      destruct c as [[] [] [] [] [] [] [] []]; try reflexivity. congruence. }
    rewrite Es in Hdig. rewrite (int_digits _ Hdig). cbn [of_option]. f_equal.
    unfold token_value.
    destruct c as [[] [] [] [] [] [] [] []]; try reflexivity. congruence.
Qed.

(** X7: every field of a list that [good_field] accepts is a literal that
    [int] accepts, and [int] gives the number the field writes: the digits in
    base ten, negated after a minus sign. *)
Theorem X7_accepted_fields_convert (field_array : list string) :
  good_field field_array = true ->
  Forall (fun field => py_int field = inr (token_value field)) field_array.
Proof.
  intros H. apply good_field_spec in H as [_ H].
  eapply Forall_impl; [|exact H]. exact valid_token_int.
Qed.

Lemma X7_accepted_fields_convert_witness :
  Forall (fun field => py_int field = inr (token_value field))
    (PyStr.split COMMA sample_payload)
  /\ token_value "-147897" = (-147897)%Z.
Proof.
  split; [|reflexivity].
  apply (X7_accepted_fields_convert (PyStr.split COMMA sample_payload)).
  vm_compute. reflexivity.
Defined.

(** ** More on the data block *)

Lemma join_split_remove (sep : ascii) (s : string) :
  PyStr.join (PyStr.split sep s) = remove_char sep s.
Proof.
  induction s as [|c s IH]; [reflexivity|].
  rewrite join_split_cons, IH. reflexivity.
Qed.

Lemma split_nosep (sep : ascii) (s : string) :
  PyStr.all_chars (fun c => negb (Ascii.eqb c sep)) s = true ->
  PyStr.split sep s = [s].
Proof.
  induction s as [|c s IH]; cbn [PyStr.all_chars PyStr.split]; [reflexivity|].
  intros H. apply andb_true_iff in H as [Hc Hs]. apply negb_true_iff in Hc.
  now rewrite Hc, (IH Hs).
Qed.

(** X8: of the text after the start anchor, what follows the last space is
    dropped and the spaces before it are taken out: the data block is the
    text before the last space without its spaces, so a space inside a field
    glues the two halves of the field together. *)
Theorem X8_data_block_loses_spaces (kept last : string) :
  PyStr.all_chars (fun c => negb (Ascii.eqb c " ")) last = true ->
  rebuild_data (PyStr.split " " (kept ++ String " " last))
  = inr (remove_char " " kept).
Proof.
  intros Hlast. rewrite split_app_sep, (split_nosep " " last Hlast).
  destruct (split_nonempty " " kept) as (p & ps & Ep).
  rewrite rebuild_data_join by (rewrite length_app, Ep; cbn [List.length]; lia).
  rewrite removelast_app by discriminate. cbn [removelast].
  now rewrite app_nil_r, join_split_remove.
Qed.

Lemma X8_data_block_loses_spaces_witness :
  rebuild_data (PyStr.split " " ("41 12,7:95" ++ String " " "6d47"))
  = inr "4112,7:95".
Proof.
  apply (X8_data_block_loses_spaces "41 12,7:95" "6d47"). reflexivity.
Defined.

(** ** A second colon *)

Lemma check_and_emit_two_pieces (found_dtg : MatchObject) (dtg t1 t2 : string)
  (n : nat) (self : Parser) (a c : string) (r1 r2 : list string) :
  PyStr.split ":" t1 = a :: c :: r1 ->
  PyStr.split ":" t2 = a :: c :: r2 ->
  check_and_emit found_dtg dtg t1 n self = check_and_emit found_dtg dtg t2 n self.
Proof.
  intros H1 H2. unfold check_and_emit. cbv zeta. now rewrite H1, H2.
Qed.

(** X9: only the text before the first colon and the text between the
    first and the second colon count: whatever follows a second colon in the
    data block changes nothing to what the row gives. *)
Theorem X9_after_second_colon_ignored (found_dtg : MatchObject)
  (dtg payload checksum_text ignored : string) (line_count : nat) (self : Parser) :
  PyStr.all_chars (fun c => negb (Ascii.eqb c ":")) checksum_text = true ->
  check_and_emit found_dtg dtg
    (payload ++ String ":" (checksum_text ++ String ":" ignored)) line_count self
  = check_and_emit found_dtg dtg
      (payload ++ String ":" checksum_text) line_count self.
Proof.
  intros Hc.
  destruct (split_nonempty ":" payload) as (p & ps & Ep).
  destruct (split_nonempty ":" ignored) as (q & qs & Eq).
  destruct ps as [|p' ps].
  - apply (check_and_emit_two_pieces _ _ _ _ _ _ p checksum_text (q :: qs) []).
    + rewrite !split_app_sep, Ep, Eq, (split_nosep ":" _ Hc). reflexivity.
    + rewrite split_app_sep, Ep, (split_nosep ":" _ Hc). reflexivity.
  - apply (check_and_emit_two_pieces _ _ _ _ _ _ p p'
             (ps ++ checksum_text :: q :: qs)%list (ps ++ [checksum_text])%list).
    + rewrite !split_app_sep, Ep, Eq, (split_nosep ":" _ Hc). reflexivity.
    + rewrite split_app_sep, Ep, (split_nosep ":" _ Hc). reflexivity.
Qed.

Lemma X9_after_second_colon_ignored_witness :
  check_and_emit {| m_string := sample_row_good; m_start := 0 |}
    "2015/03/10 14:22:05.500" (sample_payload ++ ":8002:junk") 1
    (fresh FUELCELL_ENG_DCL_RECOVERED)
  = check_and_emit {| m_string := sample_row_good; m_start := 0 |}
      "2015/03/10 14:22:05.500" (sample_payload ++ ":8002") 1
      (fresh FUELCELL_ENG_DCL_RECOVERED).
Proof.
  apply (X9_after_second_colon_ignored _ _ sample_payload "8002" "junk").
  reflexivity.
Defined.

(** ** The no-data marker *)

Lemma matches_Lit (s u : string) : matches (Lit s) u <-> u = s.
Proof.
  revert u; induction s as [|c s IH]; intros u; cbn [Lit].
  - split; [apply matches_Eps | intros ->; constructor].
  - rewrite matches_Cat_inv. split.
    + intros (s1 & s2 & -> & H1 & H2). apply matches_Chr_inv in H1 as ->.
      apply IH in H2 as ->. reflexivity.
    + intros ->. exists (String c ""), s. split; [reflexivity|].
      split; [now apply matches_Chr_inv | now apply IH].
Qed.

Lemma string_last (s : string) :
  s <> "" -> exists s' c, s = s' ++ String c "".
Proof.
  induction s as [|c s IH]; [congruence|]. intros _.
  destruct s as [|c' s].
  - now exists "", c.
  - destruct IH as (s' & d & E); [discriminate|].
    exists (String c s'), d. cbn [String.append]. now rewrite <- E.
Qed.

(** [.+ No_FC_Data] is found exactly in the texts that hold the marker,
    space included, right after a character that is not a newline. *)
Lemma search_NON_DATA (row : string) :
  search NON_DATA_REGEX row <> None <->
  exists before c after,
    row = before ++ String c (" No_FC_Data" ++ after) /\ c <> PyStr.newline.
Proof.
  rewrite search_found. unfold NON_DATA_REGEX. split.
  - intros (before & u & after & -> & Hu).
    apply matches_Cat_inv in Hu as (x & y & -> & Hx & Hy).
    apply matches_Lit in Hy as ->. apply matches_Plus_Class in Hx as [Hne Hx].
    destruct (string_last x Hne) as (x' & c & ->).
    rewrite all_chars_app in Hx. apply andb_true_iff in Hx as [_ Hc].
    cbn [PyStr.all_chars] in Hc. rewrite andb_true_r in Hc.
    apply negb_true_iff in Hc.
    exists (before ++ x'), c, after. split.
    + repeat (rewrite ?append_assoc; cbn [String.append]). reflexivity.
    + intros ->. now rewrite Ascii.eqb_refl in Hc.
  - intros (before & c & after & -> & Hc).
    exists before, (String c " No_FC_Data"), after. split; [reflexivity|].
    apply matches_Cat_inv. exists (String c ""), " No_FC_Data".
    split; [reflexivity|]. split; [|now apply matches_Lit].
    apply matches_Plus_Class. split; [discriminate|].
    cbn [PyStr.all_chars]. rewrite andb_true_r. apply negb_true_iff.
    now apply Ascii.eqb_neq.
Qed.

(** A row in which the no-data pattern is not found never gets the no-data
    warning. *)
Lemma not_no_data_warning (row : string) :
  search NON_DATA_REGEX row = None ->
  parse_row row 0 (fresh FUELCELL_ENG_DCL_RECOVERED)
  <> log_warning "No fuel cell data on line" 0 (fresh FUELCELL_ENG_DCL_RECOVERED).
Proof.
  intros Hn.
  destruct (candidate row) as [[found_dtg data_string]|] eqn:Ec.
  - destruct (parse_row_candidate_cases row found_dtg data_string Ec)
      as [(reason & Hin & H)|[(d & ts & _ & H)|(e & H)]]; rewrite H.
    + cbn in Hin. destruct Hin as [<-|[<-|[]]]; rewrite !log_warning_received;
        cbn; congruence.
    + rewrite log_warning_received. cbn. discriminate.
    + rewrite log_warning_received. discriminate.
  - apply matcher_search_None in Hn. unfold parse_row. unfold candidate in Ec.
    rewrite Hn in Ec |- *.
    destruct (matcher_search DATE_TIME_REGEX row);
      [|rewrite !log_warning_received; cbn; congruence].
    destruct (matcher_search START_DATA_REGEX row);
      [|rewrite !log_warning_received; cbn; congruence].
    cbv zeta in Ec |- *.
    destruct (matcher_search END_DATA_REGEX _); [discriminate Ec|].
    rewrite !log_warning_received. cbn. congruence.
Qed.

(** X10: a row gets the "No fuel cell data on line" warning, and nothing
    else happens, exactly when it holds the text [ No_FC_Data] right after a
    character that is not a newline: whatever else the row holds, a payload
    with a right checksum included, counts for nothing then, and a row that
    begins with the marker's space is not a no-data row. *)
Theorem X10_no_data_marker_first (row : string) :
  (exists before c after,
      row = before ++ String c (" No_FC_Data" ++ after) /\ c <> PyStr.newline)
  <-> (forall line_count self,
          parse_row row line_count self
          = log_warning "No fuel cell data on line" line_count self).
Proof.
  rewrite <- search_NON_DATA. split.
  - intros H n self. unfold parse_row, matcher_search.
    destruct (search NON_DATA_REGEX row); [reflexivity | congruence].
  - intros Hall Hn. apply (not_no_data_warning row Hn), Hall.
Qed.

(** ** Every row accounted for *)

Lemma parse_loop_accounts (file_handle : list string) (n : nat) (self : Parser) :
  snd (parse_loop file_handle n self) = inr tt ->
  exists new,
    callback_received (fst (parse_loop file_handle n self))
    = (callback_received self ++ new)%list
    /\ map exc_arg new
       = lines_without_record (fuelcell_data_class self) n (rows_read file_handle)
    /\ (List.length
          (flat_map (row_records (fuelcell_data_class self)) (rows_read file_handle))
        + List.length new = List.length (rows_read file_handle))%nat.
Proof.
  revert n self. induction file_handle as [|row rest IH]; intros n self.
  - intros _. exists []. cbn. now rewrite app_nil_r.
  - destruct row as [|c row].
    + intros _. exists []. cbn. now rewrite app_nil_r.
    + cbn [parse_loop rows_read lines_without_record flat_map List.length].
      unfold bind. set (r := String c row).
      destruct (row_records_cases (fuelcell_data_class self) r)
        as [[Hr H]|(p & Hr & _ & H)].
      * destruct (parse_row_cases r)
          as [(reason & _ & Hw)|[(d & ts & _ & Ha)|(e & He)]].
        -- rewrite Hw, log_warning_received. cbv beta iota. intros Hok.
           match type of Hok with
           | snd (parse_loop rest (n + 1) ?s) = _ =>
               destruct (IH (n + 1) s Hok) as (new & E & Hargs & Hlen)
           end.
           cbn [callback_received fuelcell_data_class] in E, Hargs, Hlen.
           eexists (_ :: new). rewrite Hr.
           split; [rewrite E, <- app_assoc; reflexivity|].
           split; [cbn [map exc_arg]; now rewrite Hargs|].
           cbn [app List.length]. lia.
        -- exfalso. unfold row_records in Hr. rewrite Ha in Hr. discriminate Hr.
        -- rewrite He. cbv beta iota. discriminate.
      * rewrite H by reflexivity. unfold record_buffer_append at 1 2. cbv beta iota.
        intros Hok.
        match type of Hok with
        | snd (parse_loop rest (n + 1) ?s) = _ =>
            destruct (IH (n + 1) s Hok) as (new & E & Hargs & Hlen)
        end.
        cbn [callback_received fuelcell_data_class] in E, Hargs, Hlen.
        exists new. rewrite Hr.
        split; [exact E|]. split; [exact Hargs|].
        rewrite length_app. cbn [List.length]. lia.
Qed.

(** X11: when [parse_file] returns, every row read is accounted for once:
    the callback has received, in row order, one exception for each row that
    gave no record, its argument that row's 1-based number, and none for the
    others, so records added and exceptions received number the rows read. *)
Theorem X11_rows_accounted_for (file_handle : list string) (self : Parser) :
  snd (parse_file file_handle self) = inr tt ->
  let cls := fuelcell_data_class self in
  exists new,
    callback_received (fst (parse_file file_handle self))
    = (callback_received self ++ new)%list
    /\ map exc_arg new = lines_without_record cls 0 (rows_read file_handle)
    /\ record_buffer (fst (parse_file file_handle self))
       = (record_buffer self ++ flat_map (row_records cls) (rows_read file_handle))%list
    /\ (List.length (flat_map (row_records cls) (rows_read file_handle))
        + List.length new = List.length (rows_read file_handle))%nat.
Proof.
  intros Hok cls.
  destruct (parse_loop_accounts file_handle 0 self Hok) as (new & E & Hargs & Hlen).
  exists new. split; [exact E|]. split; [exact Hargs|]. split; [|exact Hlen].
  destruct (parse_loop_buffer file_handle 0 self) as (k & Hk & Hall & Hb).
  unfold parse_file. rewrite Hb, (Hall Hok). now rewrite firstn_all.
Qed.

Lemma X11_rows_accounted_for_witness :
  map exc_arg
    (callback_received
       (fst (parse_file [sample_row_no_data; sample_row_good;
                         sample_row sample_payload "8003"]
               (fresh FUELCELL_ENG_DCL_RECOVERED))))
  = [1; 3].
Proof.
  destruct (X11_rows_accounted_for
              [sample_row_no_data; sample_row_good; sample_row sample_payload "8003"]
              (fresh FUELCELL_ENG_DCL_RECOVERED)) as (new & E & Hargs & _);
    [vm_compute; reflexivity|].
  rewrite E. cbn [fresh callback_received app]. rewrite Hargs.
  vm_compute. reflexivity.
Defined.

(** ** The dictionary *)

Lemma read_fields_ok (keys : list (string * nat)) (data_list : list string) :
  Forall (fun ki => snd ki < List.length data_list) keys ->
  read_fields keys data_list
  = inr (map (fun ki => (fst ki, nth (snd ki) data_list "")) keys).
Proof.
  induction 1 as [|[key index] keys Hi _ IH]; [reflexivity|].
  cbn [read_fields map fst snd] in *. unfold getitem.
  rewrite (nth_error_nth' data_list "" Hi). cbn [of_option bind_result].
  now rewrite IH.
Qed.

Lemma read_fields_short (keys : list (string * nat)) (data_list : list string) :
  Exists (fun ki => List.length data_list <= snd ki) keys ->
  read_fields keys data_list = inl IndexError.
Proof.
  induction 1 as [[key index] keys Hi|[key index] keys _ IH]; cbn [read_fields snd] in *.
  - unfold getitem. apply nth_error_None in Hi. now rewrite Hi.
  - unfold getitem. destruct (nth_error data_list index); [|reflexivity].
    cbn [of_option bind_result]. now rewrite IH.
Qed.

Lemma FIELD_KEYS_indices (n : nat) :
  27 <= n -> Forall (fun ki : string * nat => snd ki < n) FIELD_KEYS.
Proof. intros H. repeat constructor; cbn [snd]; lia. Qed.

(** X12: [generate_data_dict] raises [IndexError] on a list of fewer than 27
    fields; on a list of 27 or more it gives a dictionary of 28 entries with
    distinct keys, in which the timestamp stands under
    [dcl_controller_timestamp] and, for each of the 27 field names, the field
    at that name's index; the fields from the 28th on are ignored. *)
Theorem X12_generate_data_dict_lookup (datetime : string) (data_list : list string) :
  (List.length data_list < 27 ->
   generate_data_dict datetime data_list = inl IndexError)
  /\ (27 <= List.length data_list ->
      exists d,
        generate_data_dict datetime data_list = inr d
        /\ List.length d = 28
        /\ NoDup (map fst d)
        /\ dict_get DCL_CONTROLLER_TIMESTAMP d = Some datetime
        /\ (forall key index,
               In (key, index) FIELD_KEYS ->
               dict_get key d = nth_error data_list index)
        /\ generate_data_dict datetime (firstn 27 data_list) = inr d).
Proof.
  split.
  - intros Hlen. unfold generate_data_dict.
    rewrite read_fields_short; [reflexivity|].
    apply Exists_exists. exists ("fuel_cell_error_mask", 26).
    split; [|cbn [snd]; lia]. unfold FIELD_KEYS. repeat (try (now left); right).
  - intros Hlen. unfold generate_data_dict.
    rewrite (read_fields_ok FIELD_KEYS data_list (FIELD_KEYS_indices _ Hlen)).
    cbn [bind_result]. eexists. split; [reflexivity|].
    split; [reflexivity|]. split; [|split; [reflexivity|split]].
    + cbn [map fst FIELD_KEYS DCL_CONTROLLER_TIMESTAMP].
      repeat (constructor; [cbn [In]; intuition discriminate|]). constructor.
    + intros key index Hin.
      unfold FIELD_KEYS in Hin. cbn [In] in Hin.
      repeat (destruct Hin as [[= <- <-]|Hin];
              [cbn [dict_get map fst snd FIELD_KEYS DCL_CONTROLLER_TIMESTAMP];
               cbn [String.eqb Ascii.eqb Bool.eqb andb];
               symmetry; apply nth_error_nth'; lia|]).
      contradiction.
    + rewrite (read_fields_ok FIELD_KEYS (firstn 27 data_list))
        by (apply FIELD_KEYS_indices; rewrite length_firstn; lia).
      cbn [bind_result].
      apply (f_equal (fun items : data_dict =>
                        @inr py_exception data_dict
                          ((DCL_CONTROLLER_TIMESTAMP, datetime) :: items))).
      apply map_ext_in. intros [key index] Hin. cbn [fst snd]. f_equal.
      assert (Hi : index < 27).
      { pose proof (FIELD_KEYS_indices 27 (le_n 27)) as Hall.
        rewrite Forall_forall in Hall. apply (Hall _ Hin). }
      rewrite <- (firstn_skipn 27 data_list) at 2.
      rewrite app_nth1; [reflexivity|]. rewrite length_firstn. lia.
Qed.

(** ** From the configuration to the records *)

Lemma parse_file_classes (file_handle : list string) (cls : FuelCellEngDataParticleType) :
  Forall (fun p => particle_class p = cls)
    (record_buffer (fst (parse_file file_handle (fresh cls)))).
Proof.
  destruct (parse_loop_buffer file_handle 0 (fresh cls)) as (k & _ & _ & Hb).
  unfold parse_file. rewrite Hb. cbn [fresh record_buffer fuelcell_data_class app].
  apply Forall_forall. intros p Hin. apply in_flat_map in Hin as (row & _ & Hin).
  destruct (row_records_cases cls row) as [[Hr _]|(q & Hr & Hq & _)];
    rewrite Hr in Hin; cbn [In] in Hin; [contradiction|].
  destruct Hin as [<-|[]].
  destruct Hq as (? & ? & ? & ? & ? & ? & ? & ? & _ & _ & _ & _ & _ & _ & _ & _ & _ & H).
  exact H.
Qed.

(** X13: [__init__] gives a parser exactly when the configuration holds a
    particle classes dictionary that holds the engineering data particle
    class key; the parser then starts with an empty buffer, and every record
    a scan of any file leaves in the buffer is of the class found under that
    key.  A configuration without the dictionary, or whose dictionary lacks
    the key, gets a [ConfigurationException]. *)
Theorem X13_configured_class_on_every_record (PARTICLE_CLASSES_DICT : string)
  (config : list (string * config_value)) :
  (forall parser,
      init PARTICLE_CLASSES_DICT config = inr parser <->
      exists classes cls,
        dict_get PARTICLE_CLASSES_DICT config = Some (ConfigClasses classes) /\
        dict_get ENGINEERING_DATA_PARTICLE_CLASS classes = Some cls /\
        parser = fresh cls)
  /\ (forall parser classes cls file_handle,
         init PARTICLE_CLASSES_DICT config = inr parser ->
         dict_get PARTICLE_CLASSES_DICT config = Some (ConfigClasses classes) ->
         dict_get ENGINEERING_DATA_PARTICLE_CLASS classes = Some cls ->
         record_buffer parser = [] /\
         Forall (fun p => particle_class p = cls)
           (record_buffer (fst (parse_file file_handle parser))))
  /\ (dict_get PARTICLE_CLASSES_DICT config = None ->
      init PARTICLE_CLASSES_DICT config
      = inl (ConfigurationException "Configuration missing particle classes dict"))
  /\ (forall classes,
         dict_get PARTICLE_CLASSES_DICT config = Some (ConfigClasses classes) ->
         dict_get ENGINEERING_DATA_PARTICLE_CLASS classes = None ->
         init PARTICLE_CLASSES_DICT config
         = inl (ConfigurationException
                  "Configuration missing engineering data particle class key in particle classes dict")).
Proof.
  unfold init. split; [|split; [|split]].
  - intros parser. split.
    + destruct (dict_get PARTICLE_CLASSES_DICT config) as [[|classes]|];
        try discriminate.
      destruct (dict_get ENGINEERING_DATA_PARTICLE_CLASS classes) as [cls|] eqn:E;
        [|discriminate].
      intros [= <-]. now exists classes, cls.
    + intros (classes & cls & -> & -> & ->). reflexivity.
  - intros parser classes cls file_handle Hi Hc He. rewrite Hc, He in Hi.
    injection Hi as <-. split; [reflexivity | apply parse_file_classes].
  - now intros ->.
  - now intros classes -> ->.
Qed.

(** ** The values of a particle *)

Lemma UNPACK_DICT_lookup (datetime : string) (fields : list string) (d : data_dict)
  (name : string) (index : nat) :
  List.length fields = 27 ->
  generate_data_dict datetime fields = inr d ->
  In (name, index) UNPACK_DICT ->
  dict_get name d = Some (nth (index - 1) fields "").
Proof.
  intros Hlen Hd Hin. unfold generate_data_dict in Hd.
  rewrite (read_fields_ok FIELD_KEYS fields) in Hd
    by (apply FIELD_KEYS_indices; lia).
  cbn [bind_result] in Hd. injection Hd as <-.
  unfold UNPACK_DICT in Hin. cbn [In] in Hin.
  repeat (destruct Hin as [[= <- <-]|Hin]; [reflexivity|]).
  contradiction.
Qed.

Lemma encode_items_emitted (parsed_value : Type)
  (encode_value : string -> string -> encoding_function -> parsed_value)
  (iteritems : list (string * nat)) (datetime : string) (fields : list string)
  (d : data_dict) :
  List.length fields = 27 ->
  generate_data_dict datetime fields = inr d ->
  (forall item, In item iteritems -> In item UNPACK_DICT) ->
  encode_items parsed_value encode_value iteritems d
  = Some (map (fun item =>
                 encode_value (fst item) (nth (snd item - 1) fields "") encode_int)
            iteritems).
Proof.
  intros Hlen Hd. induction iteritems as [|[name index] rest IH]; intros Hsub.
  - reflexivity.
  - cbn [encode_items map fst snd].
    rewrite (UNPACK_DICT_lookup datetime fields d name index Hlen Hd)
      by (apply Hsub; now left).
    rewrite IH; [reflexivity|]. intros item Hin. apply Hsub. now right.
Qed.

Lemma candidate_timestamp_match (row : string) (found_dtg : MatchObject)
  (data_string : string) :
  candidate row = Some (found_dtg, data_string) ->
  matcher_search DATE_TIME_REGEX row = Some found_dtg.
Proof.
  unfold candidate.
  destruct (matcher_search NON_DATA_REGEX row); [discriminate|].
  destruct (matcher_search DATE_TIME_REGEX row) as [m|]; [|discriminate].
  destruct (matcher_search START_DATA_REGEX row) as [found_data|]; [|discriminate].
  destruct (matcher_search END_DATA_REGEX _); [|discriminate].
  now intros [= -> _].
Qed.

(** X14: for a particle that the scan built from a row, in whatever order
    the items of [UNPACK_DICT] come, [_build_parsed_values] finds every name
    it looks up.  With the timestamp text of the row and the fields of the
    row's payload, which are what [generate_data_dict] made the particle's
    [raw_data] from, it asks for the timestamp text to be encoded with [str]
    and, for each name of [UNPACK_DICT], for the field at that name's index
    less one to be encoded with [int]; and [int] accepts each of the 27
    fields. *)
Theorem X14_parsed_values_of_a_record (parsed_value : Type)
  (encode_value : string -> string -> encoding_function -> parsed_value)
  (cls : FuelCellEngDataParticleType) (row : string) (p : Particle)
  (iteritems : list (string * nat)) :
  built_from cls row p ->
  Permutation iteritems UNPACK_DICT ->
  exists datetime fields,
    row_timestamp_text row = Some datetime
    /\ row_fields row = Some fields
    /\ generate_data_dict datetime fields = inr (raw_data p)
    /\ List.length fields = 27
    /\ Forall (fun field => py_int field = inr (token_value field)) fields
    /\ build_parsed_values parsed_value encode_value iteritems (raw_data p)
       = Some (encode_value "dcl_controller_timestamp" datetime encode_str
               :: map (fun item =>
                         encode_value (fst item) (nth (snd item - 1) fields "")
                           encode_int)
                    iteritems).
Proof.
  intros (found_dtg & data_string & the_data & actual_data & checksum_text & rest
          & read_checksum & tuple & Hc & Hre & Hsp & _ & _ & Hg & _ & _ & Hd & _) Hperm.
  exists (date_group found_dtg 1), (PyStr.split COMMA actual_data).
  assert (Hlen : List.length (PyStr.split COMMA actual_data) = 27)
    by (now apply good_field_spec in Hg).
  split; [|split; [|split; [exact Hd|split; [exact Hlen|split]]]].
  - unfold row_timestamp_text.
    now rewrite (candidate_timestamp_match row found_dtg data_string Hc).
  - unfold row_fields. now rewrite Hc, Hre, Hsp.
  - apply good_field_spec in Hg as [_ Hg].
    eapply Forall_impl; [|exact Hg]. exact valid_token_int.
  - unfold build_parsed_values.
    assert (Ht : dict_get "dcl_controller_timestamp" (raw_data p)
                 = Some (date_group found_dtg 1)).
    { unfold generate_data_dict in Hd.
      destruct (read_fields FIELD_KEYS _); [discriminate|].
      cbn [bind_result] in Hd. injection Hd as <-. reflexivity. }
    rewrite Ht.
    rewrite (encode_items_emitted parsed_value encode_value iteritems
               (date_group found_dtg 1) (PyStr.split COMMA actual_data) _ Hlen Hd);
      [reflexivity|].
    intros item Hin. now apply (Permutation_in item Hperm).
Qed.

Lemma X14_parsed_values_of_a_record_witness :
  exists p,
    row_records FUELCELL_ENG_DCL_RECOVERED sample_row_good = [p]
    /\ build_parsed_values (string * string * encoding_function)
         (fun name value f => (name, value, f)) UNPACK_DICT (raw_data p)
       = Some (("dcl_controller_timestamp", "2015/03/10 14:22:05.500", encode_str)
               :: map (fun item =>
                         (fst item,
                          nth (snd item - 1) (PyStr.split COMMA sample_payload) "",
                          encode_int))
                    UNPACK_DICT).
Proof.
  destruct (row_records_cases FUELCELL_ENG_DCL_RECOVERED sample_row_good)
    as [[Hr _]|(p & Hr & Hb & _)].
  - exfalso. vm_compute in Hr. discriminate Hr.
  - destruct (X14_parsed_values_of_a_record (string * string * encoding_function)
                (fun name value f => (name, value, f))
                FUELCELL_ENG_DCL_RECOVERED sample_row_good p UNPACK_DICT Hb
                (Permutation_refl _))
      as (datetime & fields & Ht & Hf & _ & _ & _ & H).
    exists p. split; [exact Hr|].
    vm_compute in Ht. injection Ht as <-.
    vm_compute in Hf. injection Hf as <-.
    rewrite H. vm_compute. reflexivity.
Defined.

(** ** Calendar fields out of range *)

Module RollOver.
Import Calendar CivilTime CalendarFacts.
Local Open Scope Z_scope.

Lemma sum_range_succ (f : Z -> Z) (lo hi : Z) :
  lo <= hi -> sum_range f lo (hi + 1) = sum_range f lo hi + f hi.
Proof.
  intros H. unfold sum_range.
  replace (Z.to_nat (hi + 1 - lo)) with (S (Z.to_nat (hi - lo))) by lia.
  cbn [sum_from]. do 2 f_equal. lia.
Qed.

Lemma get_timestamp_timegm (a b : Z * Z * Z * Z * Z * Z) (millis : Z) :
  timegm a = timegm b ->
  get_timestamp (a, millis) = get_timestamp (b, millis).
Proof.
  destruct a as [[[[[y1 m1] d1] h1] mi1] s1], b as [[[[[y2 m2] d2] h2] mi2] s2].
  intros H. unfold get_timestamp. now rewrite H.
Qed.

End RollOver.

(** X16: [get_timestamp] checks the year and the month only: a day past
    the end of a month counts into the next month, hour 24 is hour 0 of the
    next day, minute 60 the next hour, second 60 the next minute, so a
    timestamp such as February 31st gets the time of March 3rd. *)
Theorem X16_day_and_clock_roll_over (year month day hour minute second millis : Z) :
  (1 <= year <= 9999)%Z -> (1 <= month <= 11)%Z ->
  get_timestamp (year, month, (day + CivilTime.days_in_month year month)%Z,
                 hour, minute, second, millis)
  = get_timestamp (year, (month + 1)%Z, day, hour, minute, second, millis)
  /\ get_timestamp (year, month, day, (hour + 24)%Z, minute, second, millis)
     = get_timestamp (year, month, (day + 1)%Z, hour, minute, second, millis)
  /\ get_timestamp (year, month, day, hour, (minute + 60)%Z, second, millis)
     = get_timestamp (year, month, day, (hour + 1)%Z, minute, second, millis)
  /\ get_timestamp (year, month, day, hour, minute, (second + 60)%Z, millis)
     = get_timestamp (year, month, day, hour, (minute + 1)%Z, second, millis).
Proof.
  intros Hy Hm.
  repeat split; apply RollOver.get_timestamp_timegm;
    rewrite !CalendarFacts.timegm_unix_seconds by lia; f_equal;
    unfold CivilTime.unix_seconds, CivilTime.days_since_epoch;
    rewrite ?(RollOver.sum_range_succ _ 1 month) by lia; lia.
Qed.

Lemma X16_day_and_clock_roll_over_witness :
  get_timestamp (2015, 2, 31, 14, 22, 5, 500)%Z
  = get_timestamp (2015, 3, 3, 14, 22, 5, 500)%Z.
Proof.
  destruct (X16_day_and_clock_roll_over 2015 2 3 14 22 5 500) as [H _];
    [lia | lia |].
  exact H.
Defined.

(** ** The timestamp of a row *)

Lemma matches_Rep_Digit (n : nat) (s : string) :
  matches (Rep n Digit) s ->
  String.length s = n /\ PyStr.all_chars PyStr.is_digit s = true.
Proof.
  revert s; induction n as [|n IH]; intros s; cbn [Rep]; intros H.
  - apply matches_Eps in H as ->. now split.
  - apply matches_Cat_inv in H as (s1 & s2 & -> & H1 & H2).
    apply matches_Class_inv in H1 as (c & -> & Hc).
    destruct (IH s2 H2) as [Hl Hd]. cbn [String.append String.length PyStr.all_chars].
    now rewrite Hl, Hc, Hd.
Qed.

Lemma digit_value_range (c : ascii) :
  PyStr.is_digit c = true -> (0 <= PyStr.digit_value c <= 9)%Z.
Proof.
  destruct c as [[] [] [] [] [] [] [] []]; vm_compute; intros H;
    try discriminate; split; discriminate.
Qed.

(** Digits of a known width: the number they write and its bound. *)
Lemma int_two_digits (s : string) :
  String.length s = 2 -> PyStr.all_chars PyStr.is_digit s = true ->
  exists v, py_int s = inr v /\ (0 <= v <= 99)%Z.
Proof.
  intros Hl Hd. destruct s as [|a [|b [|? ?]]]; try discriminate Hl.
  unfold py_int. rewrite int_digits by exact Hd. cbn [of_option].
  eexists. split; [reflexivity|].
  cbn [PyStr.all_chars] in Hd.
  apply andb_true_iff in Hd as [Ha Hd]. apply andb_true_iff in Hd as [Hb _].
  apply digit_value_range in Ha, Hb. cbn [PyStr.digits_value]. lia.
Qed.

Lemma int_three_digits (s : string) :
  String.length s = 3 -> PyStr.all_chars PyStr.is_digit s = true ->
  exists v, py_int s = inr v /\ (0 <= v <= 999)%Z.
Proof.
  intros Hl Hd. destruct s as [|a [|b [|c [|? ?]]]]; try discriminate Hl.
  unfold py_int. rewrite int_digits by exact Hd. cbn [of_option].
  eexists. split; [reflexivity|].
  cbn [PyStr.all_chars] in Hd.
  apply andb_true_iff in Hd as [Ha Hd]. apply andb_true_iff in Hd as [Hb Hd].
  apply andb_true_iff in Hd as [Hc _].
  apply digit_value_range in Ha, Hb, Hc. cbn [PyStr.digits_value]. lia.
Qed.

Lemma int_four_digits (s : string) :
  String.length s = 4 -> PyStr.all_chars PyStr.is_digit s = true ->
  exists v, py_int s = inr v /\ (0 <= v <= 9999)%Z.
Proof.
  intros Hl Hd. destruct s as [|a [|b [|c [|d [|? ?]]]]]; try discriminate Hl.
  unfold py_int. rewrite int_digits by exact Hd. cbn [of_option].
  eexists. split; [reflexivity|].
  cbn [PyStr.all_chars] in Hd.
  apply andb_true_iff in Hd as [Ha Hd]. apply andb_true_iff in Hd as [Hb Hd].
  apply andb_true_iff in Hd as [Hc Hd]. apply andb_true_iff in Hd as [Hd _].
  apply digit_value_range in Ha, Hb, Hc, Hd. cbn [PyStr.digits_value]. lia.
Qed.

Lemma slice_to_app (s t : string) :
  PyStr.slice_to (String.length s) (s ++ t) = s.
Proof.
  induction s as [|c s IH]; cbn [String.length String.append PyStr.slice_to].
  - now destruct t.
  - now rewrite IH.
Qed.

(** The slice from [i + a] to [i + b] of a text that reads [before],
    [piece], [after] from [i + a] on, [piece] being [b - a] long. *)
Lemma slice_piece (row : string) (i a b : nat) (before piece after : string) :
  PyStr.slice_from i row = before ++ piece ++ after ->
  String.length before = a -> String.length piece = b - a -> a <= b ->
  PyStr.slice (i + a) (i + b) row = piece.
Proof.
  intros Hrow Ha Hp Hab. unfold PyStr.slice.
  rewrite <- slice_from_from, Hrow, <- Ha, slice_from_app.
  replace (i + b - (i + String.length before)) with (String.length piece) by lia.
  apply slice_to_app.
Qed.

(** What [DATE_TIME_REGEX] matches: seven runs of digits, 4, 2, 2, 2, 2, 2
    and 3 long, with the separators of [YYYY/MM/DD HH:MM:SS.mmm]. *)
Lemma matches_DATE_TIME (u : string) :
  matches DATE_TIME_REGEX u ->
  exists y mo d h mi s ms,
    u = y ++ "/" ++ mo ++ "/" ++ d ++ " " ++ h ++ ":" ++ mi ++ ":" ++ s ++ "." ++ ms
    /\ (String.length y = 4 /\ PyStr.all_chars PyStr.is_digit y = true)
    /\ (String.length mo = 2 /\ PyStr.all_chars PyStr.is_digit mo = true)
    /\ (String.length d = 2 /\ PyStr.all_chars PyStr.is_digit d = true)
    /\ (String.length h = 2 /\ PyStr.all_chars PyStr.is_digit h = true)
    /\ (String.length mi = 2 /\ PyStr.all_chars PyStr.is_digit mi = true)
    /\ (String.length s = 2 /\ PyStr.all_chars PyStr.is_digit s = true)
    /\ (String.length ms = 3 /\ PyStr.all_chars PyStr.is_digit ms = true).
Proof.
  unfold DATE_TIME_REGEX, DATE_YYYY_MM_DD_REGEX, SPACE_REGEX,
    TIME_HR_MIN_SEC_MSEC_REGEX. intros H.
  apply matches_Cat_inv in H as (date & t0 & -> & Hdate & H).
  apply matches_Cat_inv in H as (sp & time & -> & Hsp & Htime).
  apply matches_Chr_inv in Hsp as ->.
  apply matches_Cat_inv in Hdate as (y & t1 & -> & Hy & H).
  apply matches_Cat_inv in H as (c1 & t2 & -> & Hc1 & H).
  apply matches_Cat_inv in H as (mo & t3 & -> & Hmo & H).
  apply matches_Cat_inv in H as (c2 & d & -> & Hc2 & Hd).
  apply matches_Chr_inv in Hc1 as ->. apply matches_Chr_inv in Hc2 as ->.
  apply matches_Cat_inv in Htime as (h & t4 & -> & Hh & H).
  apply matches_Cat_inv in H as (c3 & t5 & -> & Hc3 & H).
  apply matches_Cat_inv in H as (mi & t6 & -> & Hmi & H).
  apply matches_Cat_inv in H as (c4 & t7 & -> & Hc4 & H).
  apply matches_Cat_inv in H as (s & t8 & -> & Hs & H).
  apply matches_Cat_inv in H as (c5 & ms & -> & Hc5 & Hms).
  apply matches_Chr_inv in Hc3 as ->. apply matches_Chr_inv in Hc4 as ->.
  apply matches_Chr_inv in Hc5 as ->.
  exists y, mo, d, h, mi, s, ms. split.
  - repeat (rewrite ?append_assoc; cbn [String.append]). reflexivity.
  - do 6 (split; [now apply matches_Rep_Digit|]). now apply matches_Rep_Digit.
Qed.

(** X15: on a row in which the timestamp pattern is found, the seven
    [int] conversions of its groups never raise: the year is a number from 0
    to 9999, the month, day, hour, minute and second numbers from 0 to 99,
    the milliseconds a number from 0 to 999, and the timestamp text kept for
    the record is 23 characters long. *)
Theorem X15_timestamp_groups_convert (row : string) (found_dtg : MatchObject) :
  matcher_search DATE_TIME_REGEX row = Some found_dtg ->
  String.length (date_group found_dtg 1) = 23
  /\ exists year month day hour minute second millis,
      timestamp_tuple found_dtg
      = inr (year, month, day, hour, minute, second, millis)
      /\ (0 <= year <= 9999)%Z /\ (0 <= month <= 99)%Z /\ (0 <= day <= 99)%Z
      /\ (0 <= hour <= 99)%Z /\ (0 <= minute <= 99)%Z
      /\ (0 <= second <= 99)%Z /\ (0 <= millis <= 999)%Z.
Proof.
  unfold matcher_search. destruct (search DATE_TIME_REGEX row) as [i|] eqn:Es;
    [|discriminate].
  intros [= <-]. apply search_Some in Es as (Hm & _ & _).
  apply match_here_spec in Hm as (u & v & Hrow & Hu).
  apply matches_DATE_TIME in Hu
    as (y & mo & d & h & mi & s & ms & -> & [Ly Dy] & [Lmo Dmo] & [Ld Dd]
        & [Lh Dh] & [Lmi Dmi] & [Ls Ds] & [Lms Dms]).
  assert (G : forall k a b before piece after,
             date_group_span k = (a, b) ->
             PyStr.slice_from i row = before ++ piece ++ after ->
             String.length before = a -> String.length piece = b - a -> a <= b ->
             date_group {| m_string := row; m_start := i |} k = piece).
  { intros k a b before piece after Hk Hr Ha Hp Hab.
    unfold date_group. rewrite Hk. cbn [m_start m_string].
    now apply (slice_piece row i a b before piece after). }
  assert (Gy := G YEAR_GROUP 0 4 "" y
                  ("/" ++ mo ++ "/" ++ d ++ " " ++ h ++ ":" ++ mi ++ ":" ++ s ++ "." ++ ms ++ v)
                  eq_refl).
  assert (Gmo := G MONTH_GROUP 5 7 (y ++ "/") mo
                   ("/" ++ d ++ " " ++ h ++ ":" ++ mi ++ ":" ++ s ++ "." ++ ms ++ v)
                   eq_refl).
  assert (Gd := G DAY_GROUP 8 10 (y ++ "/" ++ mo ++ "/") d
                  (" " ++ h ++ ":" ++ mi ++ ":" ++ s ++ "." ++ ms ++ v) eq_refl).
  assert (Gh := G HOUR_GROUP 11 13 (y ++ "/" ++ mo ++ "/" ++ d ++ " ") h
                  (":" ++ mi ++ ":" ++ s ++ "." ++ ms ++ v) eq_refl).
  assert (Gmi := G MINUTE_GROUP 14 16
                   (y ++ "/" ++ mo ++ "/" ++ d ++ " " ++ h ++ ":") mi
                   (":" ++ s ++ "." ++ ms ++ v) eq_refl).
  assert (Gs := G SECONDS_GROUP 17 19
                  (y ++ "/" ++ mo ++ "/" ++ d ++ " " ++ h ++ ":" ++ mi ++ ":") s
                  ("." ++ ms ++ v) eq_refl).
  assert (Gms := G MILLISECONDS_GROUP 20 23
                   (y ++ "/" ++ mo ++ "/" ++ d ++ " " ++ h ++ ":" ++ mi ++ ":" ++ s ++ ".")
                   ms v eq_refl).
  assert (Gall := G 1 0 23 ""
                    (y ++ "/" ++ mo ++ "/" ++ d ++ " " ++ h ++ ":" ++ mi ++ ":" ++ s ++ "." ++ ms)
                    v eq_refl).
  assert (Hlen : forall a b : string,
             String.length (a ++ b) = String.length a + String.length b).
  { intros a b. induction a as [|c a IH]; cbn [String.append String.length];
      [reflexivity | now rewrite IH]. }
  split.
  - rewrite Gall; [| rewrite Hrow;
                     repeat (rewrite ?append_assoc; cbn [String.append]); reflexivity
                   | reflexivity
                   | repeat (rewrite ?Hlen; cbn [String.length]); lia
                   | lia].
    repeat (rewrite ?Hlen; cbn [String.length]). lia.
  - unfold timestamp_tuple.
    rewrite Gy, Gmo, Gd, Gh, Gmi, Gs, Gms;
      try lia; try reflexivity;
      try (repeat (rewrite ?Hlen; cbn [String.length]); lia);
      try (rewrite Hrow; repeat (rewrite ?append_assoc; cbn [String.append]);
           reflexivity).
    destruct (int_four_digits y Ly Dy) as (vy & -> & By).
    destruct (int_two_digits mo Lmo Dmo) as (vmo & -> & Bmo).
    destruct (int_two_digits d Ld Dd) as (vd & -> & Bd).
    destruct (int_two_digits h Lh Dh) as (vh & -> & Bh).
    destruct (int_two_digits mi Lmi Dmi) as (vmi & -> & Bmi).
    destruct (int_two_digits s Ls Ds) as (vs & -> & Bs).
    destruct (int_three_digits ms Lms Dms) as (vms & -> & Bms).
    cbn [bind_result]. exists vy, vmo, vd, vh, vmi, vs, vms.
    repeat split; lia.
Qed.

Lemma X15_timestamp_groups_convert_witness :
  timestamp_tuple {| m_string := sample_row_good; m_start := 0 |}
  = inr (2015, 3, 10, 14, 22, 5, 500)%Z.
Proof.
  destruct (X15_timestamp_groups_convert sample_row_good
              {| m_string := sample_row_good; m_start := 0 |})
    as (_ & y & mo & d & h & mi & s & ms & H & _);
    [vm_compute; reflexivity|].
  vm_compute. reflexivity.
Defined.

(** ** A well-formed row gives its record *)

Lemma length_append (a b : string) :
  String.length (a ++ b) = String.length a + String.length b.
Proof.
  induction a as [|c a IH]; cbn [String.append String.length];
    [reflexivity | now rewrite IH].
Qed.

Lemma remove_char_absent (sep : ascii) (s : string) :
  PyStr.all_chars (fun c => negb (Ascii.eqb c sep)) s = true ->
  remove_char sep s = s.
Proof.
  induction s as [|c s IH]; cbn [PyStr.all_chars remove_char]; [reflexivity|].
  intros H. apply andb_true_iff in H as [Hc Hs]. apply negb_true_iff in Hc.
  now rewrite Hc, (IH Hs).
Qed.

(** A text all of whose pieces, and the separator, are of a kind is of that
    kind. *)
Lemma all_chars_split (p : ascii -> bool) (sep : ascii) (s : string) :
  p sep = true ->
  Forall (fun piece => PyStr.all_chars p piece = true) (PyStr.split sep s) ->
  PyStr.all_chars p s = true.
Proof.
  intros Hsep. induction s as [|c s IH]; [reflexivity|].
  cbn [PyStr.split PyStr.all_chars]. destruct (Ascii.eqb_spec c sep) as [->|Hc].
  - intros H. inversion H; subst. now rewrite Hsep, IH.
  - destruct (split_nonempty sep s) as (q & qs & E). rewrite E in *.
    intros H. inversion H as [|? ? Hq Hqs]; subst.
    cbn [PyStr.all_chars] in Hq. apply andb_true_iff in Hq as [Hc' Hq].
    rewrite Hc'. apply IH. now constructor.
Qed.

(** A text that splits into at least two pieces reads: the first piece,
    the separator, the rest; and the first piece holds no separator. *)
Lemma split_two (sep : ascii) (s a b : string) (l : list string) :
  PyStr.split sep s = a :: b :: l ->
  exists rest,
    s = a ++ String sep rest /\
    PyStr.all_chars (fun c => negb (Ascii.eqb c sep)) a = true.
Proof.
  revert a; induction s as [|c s IH]; intros a; cbn [PyStr.split]; [discriminate|].
  destruct (Ascii.eqb_spec c sep) as [->|Hc].
  - intros [= <- _]. now exists s.
  - destruct (PyStr.split sep s) as [|q qs] eqn:E; [discriminate|].
    intros [= <- ->]. destruct (IH q eq_refl) as (rest & -> & Hq).
    exists rest. split; [reflexivity|].
    cbn [PyStr.all_chars]. rewrite Hq, andb_true_r.
    apply negb_true_iff. now apply Ascii.eqb_neq.
Qed.

(** The characters of a payload: digits, minus signs and commas. *)
Lemma payload_char_plain (c : ascii) :
  (PyStr.is_digit c || Ascii.eqb c "-" || Ascii.eqb c ",")%bool = true ->
  negb (Ascii.eqb c " ") = true /\ negb (Ascii.eqb c ":") = true.
Proof.
  destruct c as [[] [] [] [] [] [] [] []]; vm_compute; intros H;
    try discriminate; split; reflexivity.
Qed.

Lemma hexdigit_not_space (c : ascii) :
  PyStr.is_hexdigit c = true -> negb (Ascii.eqb c " ") = true.
Proof.
  destruct c as [[] [] [] [] [] [] [] []]; vm_compute; intros H;
    try discriminate; reflexivity.
Qed.

Lemma valid_token_shape (t : string) :
  valid_token t ->
  exists sign digits,
    t = sign ++ digits /\ (sign = "" \/ sign = "-") /\ PyStr.isdigit digits = true.
Proof.
  intros (_ & Hne & Hd).
  assert (Hdig : PyStr.isdigit (strip_leading_minus t) = true)
    by (apply isdigit_spec; now split).
  destruct t as [|c t]; [now cbn in Hne|].
  destruct (Ascii.eqb_spec c "-") as [->|Hc].
  - exists "-", t. cbn [strip_leading_minus] in Hdig. auto.
  - exists "", (String c t). split; [reflexivity|]. split; [now left|].
    replace (strip_leading_minus (String c t)) with (String c t) in Hdig;
      [exact Hdig|].
    cbn [strip_leading_minus].
    destruct c as [[] [] [] [] [] [] [] []]; try reflexivity. congruence.
Qed.

Lemma valid_token_chars (t : string) :
  valid_token t ->
  PyStr.all_chars
    (fun c => PyStr.is_digit c || Ascii.eqb c "-" || Ascii.eqb c ",")%bool t = true.
Proof.
  intros H. destruct (valid_token_shape t H) as (sign & digits & -> & Hs & Hd).
  apply isdigit_all_chars in Hd as [_ Hd]. rewrite all_chars_app.
  rewrite (all_chars_impl PyStr.is_digit _ digits); [| |exact Hd].
  - destruct Hs as [-> | ->]; reflexivity.
  - intros c Hc. now rewrite Hc.
Qed.

(** Nothing that the start pattern matches begins in a text without commas
    that a space follows. *)
Lemma sign_digits_comma_no_space (a v p w : string) :
  PyStr.all_chars (fun c => negb (Ascii.eqb c " ")) a = true ->
  PyStr.all_chars (fun c => negb (Ascii.eqb c ",")) p = true ->
  a ++ String "," v <> p ++ String " " w.
Proof.
  revert p; induction a as [|x a IH]; intros p Ha Hp E.
  - destruct p as [|y p]; cbn [String.append] in E; [discriminate|].
    injection E as <- _. discriminate Hp.
  - cbn [PyStr.all_chars] in Ha. apply andb_true_iff in Ha as [Hx Ha].
    destruct p as [|y p]; cbn [String.append] in E.
    + injection E as -> _. discriminate Hx.
    + injection E as <- E. cbn [PyStr.all_chars] in Hp.
      apply andb_true_iff in Hp as [_ Hp]. exact (IH p Ha Hp E).
Qed.

Lemma no_start_in_prefix (prefix rest : string) (j : nat) :
  PyStr.all_chars (fun c => negb (Ascii.eqb c ",")) prefix = true ->
  j < String.length prefix ->
  match_here START_DATA_REGEX (PyStr.slice_from j (prefix ++ String " " rest)) = false.
Proof.
  intros Hp Hj.
  destruct (match_here START_DATA_REGEX _) eqn:E; [exfalso|reflexivity].
  apply match_here_spec in E as (u & v & E & Hu).
  apply matches_START_DATA in Hu as (sign & digits & -> & Hs & Hd).
  rewrite <- (slice_to_from j prefix), append_assoc in E.
  replace j with (String.length (PyStr.slice_to j prefix)) in E at 1.
  2:{ clear -Hj. revert j Hj. induction prefix as [|c p IH]; intros j Hj;
        [cbn in Hj; lia|].
      destruct j as [|j]; [reflexivity|]. cbn [PyStr.slice_to String.length] in *.
      rewrite IH; [reflexivity | lia]. }
  rewrite slice_from_app in E.
  assert (Hq : PyStr.all_chars (fun c => negb (Ascii.eqb c ","))
                 (PyStr.slice_from j prefix) = true).
  { rewrite <- (slice_to_from j prefix), all_chars_app in Hp.
    now apply andb_true_iff in Hp as [_ Hp]. }
  destruct (PyStr.slice_from j prefix) as [|c q] eqn:Eq.
  - apply (f_equal String.length) in Eq.
    assert (String.length (PyStr.slice_from j prefix) = String.length prefix - j).
    { clear. revert j. induction prefix as [|c p IH]; intros [|j];
        cbn [PyStr.slice_from String.length]; try reflexivity. apply IH. }
    cbn [String.length] in Eq. lia.
  - cbn [String.append PyStr.all_chars] in E, Hq.
    injection E as -> E. apply andb_true_iff in Hq as [_ Hq].
    apply isdigit_all_chars in Hd as [_ Hd].
    apply (sign_digits_comma_no_space (sign ++ digits) v q rest); [|exact Hq|].
    + rewrite all_chars_app.
      rewrite (all_chars_impl PyStr.is_digit _ digits); [| |exact Hd].
      * destruct Hs as [->|[->| ->]]; reflexivity.
      * intros c Hc. now destruct (is_digit_not_special c Hc) as (H1 & _).
    + rewrite E. repeat (rewrite ?append_assoc; cbn [String.append]). reflexivity.
Qed.

Lemma matcher_search_Some (r : regex) (s : string) (i : nat) :
  search r s = Some i ->
  matcher_search r s = Some {| m_string := s; m_start := i |}.
Proof. unfold matcher_search. now intros ->. Qed.

Lemma slice_from_app_cons (s : string) (c : ascii) (t : string) :
  PyStr.slice_from (String.length s + 1) (s ++ String c t) = t.
Proof.
  induction s as [|x s IH]; cbn [String.length String.append Nat.add PyStr.slice_from];
    [now destruct t | exact IH].
Qed.

(** The data block of a text whose part before the last space has no
    space is that part. *)
Lemma data_block_without_space (kept last : string) :
  PyStr.all_chars (fun c => negb (Ascii.eqb c " ")) kept = true ->
  PyStr.all_chars (fun c => negb (Ascii.eqb c " ")) last = true ->
  rebuild_data (PyStr.split " " (kept ++ String " " last)) = inr kept.
Proof.
  intros Hkept Hlast.
  rewrite split_app_sep, (split_nosep " " kept Hkept), (split_nosep " " last Hlast).
  cbn [app]. rewrite rebuild_data_cons. cbn [removelast PyStr.join].
  now rewrite append_nil_r.
Qed.

(** X17: a row that reads: a text without comma in which the timestamp is
    found, a space, a payload whose 27 fields pass [good_field], a colon, the
    payload's checksum in digits, a space, a hexadecimal token and an ending
    without space (the newline, or nothing), and that does not hold the
    no-data marker, gives its record: [parse_row] adds to the buffer the
    particle of the configured class that holds the timestamp text and the 27
    fields under their names, stamped with [get_timestamp] of the timestamp,
    and hands nothing to the callback. *)
Theorem X17_well_formed_row_gives_its_record
  (prefix payload checksum_text hex ending : string) (found_dtg : MatchObject)
  (tuple : Z * Z * Z * Z * Z * Z * Z) (timestamp : spec_float)
  (line_count : nat) (self : Parser) :
  let row :=
    prefix ++ String " " (payload ++ String ":"
                            (checksum_text ++ String " " (hex ++ ending))) in
  PyStr.all_chars (fun c => negb (Ascii.eqb c ",")) prefix = true ->
  search NON_DATA_REGEX row = None ->
  matcher_search DATE_TIME_REGEX row = Some found_dtg ->
  good_field (PyStr.split COMMA payload) = true ->
  PyStr.isdigit checksum_text = true ->
  py_int checksum_text = inr (byte_sum payload mod 32768)%Z ->
  hex <> "" -> PyStr.all_chars PyStr.is_hexdigit hex = true ->
  PyStr.all_chars (fun c => negb (Ascii.eqb c " ")) ending = true ->
  timestamp_tuple found_dtg = inr tuple ->
  get_timestamp tuple = inr timestamp ->
  exists d,
    generate_data_dict (date_group found_dtg 1) (PyStr.split COMMA payload) = inr d
    /\ parse_row row line_count self
       = record_buffer_append
           {| particle_class := fuelcell_data_class self; raw_data := d;
              internal_timestamp := timestamp |} self.
Proof.
  intros row Hprefix Hnodata Hdate Hfields Hcsd Hcs Hhexne Hhex Hending Htuple Hts.
  set (data_string := payload ++ String ":"
                        (checksum_text ++ String " " (hex ++ ending))).
  (* the payload: its characters, its first field *)
  pose proof Hfields as Hvalid. apply good_field_spec in Hvalid as [Hlen Hvalid].
  assert (Hpchars : PyStr.all_chars
                      (fun c => PyStr.is_digit c || Ascii.eqb c "-" || Ascii.eqb c ",")%bool
                      payload = true).
  { apply (all_chars_split _ COMMA); [reflexivity|].
    eapply Forall_impl; [|exact Hvalid]. exact valid_token_chars. }
  assert (Hpspace : PyStr.all_chars (fun c => negb (Ascii.eqb c " ")) payload = true).
  { eapply all_chars_impl; [|exact Hpchars]. intros c Hc.
    now destruct (payload_char_plain c Hc). }
  assert (Hpcolon : PyStr.all_chars (fun c => negb (Ascii.eqb c ":")) payload = true).
  { eapply all_chars_impl; [|exact Hpchars]. intros c Hc.
    now destruct (payload_char_plain c Hc). }
  apply isdigit_all_chars in Hcsd as [Hcsne Hcsd].
  assert (Hcspace : PyStr.all_chars (fun c => negb (Ascii.eqb c " ")) checksum_text = true).
  { eapply all_chars_impl; [|exact Hcsd]. intros c Hc.
    now destruct (is_digit_not_special c Hc) as (H1 & _). }
  assert (Hccolon : PyStr.all_chars (fun c => negb (Ascii.eqb c ":")) checksum_text = true).
  { eapply all_chars_impl; [|exact Hcsd]. intros c Hc.
    now destruct (is_digit_not_special c Hc) as (_ & H2 & _). }
  destruct (PyStr.split COMMA payload) as [|t0 [|t1 fields]] eqn:Esplit;
    try discriminate Hlen.
  destruct (split_two COMMA payload t0 t1 fields Esplit) as (prest & Epayload & _).
  pose proof (Forall_inv Hvalid) as Ht0.
  destruct (valid_token_shape t0 Ht0) as (sign & digits & -> & Hsign & Hdigits).
  (* the start anchor is the space before the payload *)
  assert (Hstart : search START_DATA_REGEX row = Some (String.length prefix)).
  { apply search_Some. split; [|split].
    - unfold row. rewrite slice_from_app. apply match_here_spec.
      exists (" " ++ sign ++ digits ++ ","),
        (prest ++ String ":" (checksum_text ++ String " " (hex ++ ending))).
      split.
      + rewrite Epayload.
        repeat (rewrite ?append_assoc; cbn [String.append]). reflexivity.
      + apply matches_START_DATA. exists sign, digits.
        split; [reflexivity|]. split; [|exact Hdigits].
        destruct Hsign as [-> | ->]; auto.
    - unfold row. rewrite length_append. lia.
    - intros j Hj. unfold row. now apply no_start_in_prefix. }
  assert (Hdata : PyStr.slice_from (String.length prefix + 1) row = data_string).
  { unfold row, data_string. apply slice_from_app_cons. }
  (* the row is a candidate *)
  assert (Hcand : candidate row = Some (found_dtg, data_string)).
  { unfold candidate.
    rewrite (proj2 (matcher_search_None NON_DATA_REGEX row) Hnodata), Hdate,
      (matcher_search_Some _ _ _ Hstart).
    cbv zeta. cbn [m_start]. rewrite Hdata.
    destruct (matcher_search END_DATA_REGEX data_string) eqn:Eend; [reflexivity|].
    exfalso. apply matcher_search_None in Eend. revert Eend.
    apply has_terminator_search.
    exists payload, "", "", checksum_text, hex, ending.
    split; [reflexivity|]. repeat split; auto.
    now apply isdigit_all_chars. }
  (* the data block and its two pieces *)
  assert (Hrebuild : rebuild_data (PyStr.split " " data_string)
                     = inr (payload ++ String ":" checksum_text)).
  { unfold data_string.
    replace (payload ++ String ":" (checksum_text ++ String " " (hex ++ ending)))
      with ((payload ++ String ":" checksum_text) ++ String " " (hex ++ ending))
      by (repeat (rewrite ?append_assoc; cbn [String.append]); reflexivity).
    rewrite data_block_without_space.
    - reflexivity.
    - rewrite all_chars_app. cbn [PyStr.all_chars]. now rewrite Hpspace, Hcspace.
    - rewrite all_chars_app, Hending, andb_true_r.
      eapply all_chars_impl; [|exact Hhex]. exact hexdigit_not_space. }
  assert (Hcolon : PyStr.split ":" (payload ++ String ":" checksum_text)
                   = [payload; checksum_text]).
  { rewrite split_app_sep, (split_nosep ":" payload Hpcolon),
      (split_nosep ":" checksum_text Hccolon). reflexivity. }
  destruct (good_field_dict (date_group found_dtg 1) _ Hfields) as (d & Hd).
  exists d. split; [exact Hd|].
  rewrite (parse_row_candidate row line_count found_dtg data_string self Hcand).
  unfold bind at 1, lift at 1. rewrite Hrebuild.
  rewrite (check_and_emit_split _ _ _ _ _ _ _ _ _ Hcolon Hcs), Esplit.
  rewrite (proj2 (good_checksum_spec payload _) eq_refl), Hfields.
  unfold bind, lift. rewrite Htuple. cbv beta iota. rewrite Hts.
  cbv beta iota. rewrite Hd. reflexivity.
Qed.

Lemma X17_well_formed_row_gives_its_record_witness :
  exists d,
    parse_row sample_row_good 2 (fresh FUELCELL_ENG_DCL_TELEMETERED)
    = record_buffer_append
        {| particle_class := FUELCELL_ENG_DCL_TELEMETERED; raw_data := d;
           internal_timestamp := S754_finite false 7623118423064576 (-21) |}
        (fresh FUELCELL_ENG_DCL_TELEMETERED).
Proof.
  destruct (X17_well_formed_row_gives_its_record
              (PyStr.slice_to (String.length sample_prefix - 1) sample_prefix)
              sample_payload "8002" "6d47" line_end
              {| m_string := sample_row_good; m_start := 0 |}
              (2015, 3, 10, 14, 22, 5, 500)%Z
              (S754_finite false 7623118423064576 (-21))
              2 (fresh FUELCELL_ENG_DCL_TELEMETERED)) as (d & _ & H);
    try (vm_compute; reflexivity); [discriminate|].
  exists d. exact H.
Defined.
